(** * AutiConnect bot: conversation flows and AI moderation

    A shallow embedding of the bot's handlers (main.py, user_profile.py,
    group_management.py, activity_management.py, ai_mediation.py,
    llm_integration.py, db.py) and the properties of its specification.

    Python text is a [string] holding the UTF-8 bytes of the text; handlers
    run in a state-and-exception monad over the document store, the two
    module-level dictionaries of main.py, [context.user_data] and a trace of
    the operations performed on the store, the clock, the LLM endpoint and
    the Telegram transport. *)

From Stdlib Require Import ZArith NArith Ascii String List Bool Lia.
From Stdlib Require Import DecimalString DecimalZ DecimalPos DecimalFacts.
From stdpp Require Import base option list gmap strings sorting.

Local Open Scope string_scope.
Local Open Scope Z_scope.

(** ** Python strings *)

Module PyStr.

Definition nl : string := String (ascii_of_nat 10) EmptyString.

(** [s.startswith(p)] *)
Fixpoint startswith (p s : string) : bool :=
  match p, s with
  | EmptyString, _ => true
  | String a p', String b s' => if Ascii.eqb a b then startswith p' s' else false
  | String _ _, EmptyString => false
  end.

(** [needle in hay] on str. The text is UTF-8, which is self-synchronising:
    a match of one well-formed text inside another starts at a character
    boundary, so matching bytes is matching code points. *)
Fixpoint contains (needle hay : string) : bool :=
  if startswith needle hay then true
  else match hay with
       | EmptyString => false
       | String _ hay' => contains needle hay'
       end.

Definition lower_ascii (c : ascii) : ascii :=
  let n := N_of_ascii c in
  if ((65 <=? n) && (n <=? 90))%N then ascii_of_N (n + 32) else c.

(** Second byte of a two-byte sequence led by 0xC3 (U+00C0..U+00FF):
    U+00C0..U+00DE except the multiplication sign U+00D7 are upper case. *)
Definition lower_latin1_cont (c : ascii) : ascii :=
  let n := N_of_ascii c in
  if ((128 <=? n) && (n <=? 158) && negb (n =? 151))%N then ascii_of_N (n + 32) else c.

(** [s.lower()] for text of the Basic Latin and Latin-1 Supplement blocks
    (all of Portuguese); bytes of other code points are kept as they are. *)
Fixpoint lower (s : string) : string :=
  match s with
  | EmptyString => EmptyString
  | String c rest =>
      if (N_of_ascii c =? 195)%N then
        match rest with
        | EmptyString => String c EmptyString
        | String d rest' => String c (String (lower_latin1_cont d) (lower rest'))
        end
      else String (lower_ascii c) (lower rest)
  end.

(** [s.split(sep)] for a one-character separator. *)
Fixpoint split (sep : ascii) (s : string) : list string :=
  match s with
  | EmptyString => [EmptyString]
  | String c rest =>
      if Ascii.eqb c sep then EmptyString :: split sep rest
      else match split sep rest with
           | hd :: tl => String c hd :: tl
           | [] => [String c EmptyString]
           end
  end.

(** [sep.join(parts)] *)
Fixpoint join (sep : string) (parts : list string) : string :=
  match parts with
  | [] => EmptyString
  | [p] => p
  | p :: rest => p ++ sep ++ join sep rest
  end.

(** *** [int(s)]

    [int()] of a str first turns every white-space character outside
    ASCII into a space and every decimal digit of any script into its
    ASCII digit (_PyUnicode_TransformDecimalAndSpaceToASCII), then reads
    the ASCII numeral (PyLong_FromString). *)

(** The code points of a text, from its UTF-8 bytes: [need] bytes of the
    current sequence are still to come, [cp] is its value so far and [lo]
    the least code point a sequence of its length encodes. [None] for
    bytes that encode no text. *)
Fixpoint code_points_from (s : string) (need : nat) (cp lo : N) : option (list N) :=
  match s with
  | EmptyString => match need with O => Some [] | S _ => None end
  | String c rest =>
      let n := N_of_ascii c in
      match need with
      | O =>
          if (n <? 128)%N then cons n <$> code_points_from rest 0 0 0
          else if (n <? 194)%N then None
          else if (n <? 224)%N then code_points_from rest 1 (n - 192) 128
          else if (n <? 240)%N then code_points_from rest 2 (n - 224) 2048
          else if (n <? 245)%N then code_points_from rest 3 (n - 240) 65536
          else None
      | S k =>
          if ((128 <=? n) && (n <=? 191))%N then
            let cp' := (cp * 64 + (n - 128))%N in
            match k with
            | O =>
                if ((lo <=? cp') && (cp' <=? 1114111))%N
                then cons cp' <$> code_points_from rest 0 0 0
                else None
            | S _ => code_points_from rest k cp' lo
            end
          else None
      end
  end.

Definition code_points (s : string) : option (list N) := code_points_from s 0 0 0.

(** Py_UNICODE_ISSPACE outside ASCII: U+0085, U+00A0, U+1680,
    U+2000..U+200A, U+2028, U+2029, U+202F, U+205F, U+3000. *)
Definition is_unicode_space (cp : N) : bool :=
  ((cp =? 133) || (cp =? 160) || (cp =? 5760) || ((8192 <=? cp) && (cp <=? 8202))
   || (cp =? 8232) || (cp =? 8233) || (cp =? 8239) || (cp =? 8287) || (cp =? 12288))%N.

(** The digit zero of every script with decimal digits (category Nd of
    Unicode 14.0, the table of Python 3.11); the digits one to nine follow
    it. *)
Definition decimal_zeros : list N :=
  [48; 1632; 1776; 1984; 2406; 2534; 2662; 2790; 2918; 3046; 3174; 3302; 3430; 3558;
   3664; 3792; 3872; 4160; 4240; 6112; 6160; 6470; 6608; 6784; 6800; 6992; 7088; 7232;
   7248; 42528; 43216; 43264; 43472; 43504; 43600; 44016; 65296; 66720; 68912; 69734;
   69872; 69942; 70096; 70384; 70736; 70864; 71248; 71360; 71472; 71904; 72016; 72784;
   73040; 73120; 92768; 92864; 93008; 120782; 120792; 120802; 120812; 120822; 123200;
   123632; 125264; 130032]%N.

(** Py_UNICODE_TODECIMAL *)
Definition decimal (cp : N) : option N :=
  (fun zero => cp - zero)%N
  <$> List.find (fun zero => (zero <=? cp) && (cp <=? zero + 9))%N decimal_zeros.

(** The ASCII character [int()] reads for a code point; [None] for a
    character outside ASCII that is neither white space nor a decimal
    digit, on which [int()] raises. *)
Definition to_ascii (cp : N) : option ascii :=
  if (cp <? 128)%N then Some (ascii_of_N cp)
  else if is_unicode_space cp then Some " "%char
  else (fun d => ascii_of_N (48 + d)) <$> decimal cp.

Fixpoint ascii_chars (cps : list N) : option string :=
  match cps with
  | [] => Some EmptyString
  | cp :: rest =>
      match to_ascii cp, ascii_chars rest with
      | Some c, Some s => Some (String c s)
      | _, _ => None
      end
  end.

Definition ascii_form (s : string) : option string :=
  match code_points s with
  | Some cps => ascii_chars cps
  | None => None
  end.

(** Py_ISSPACE, the white space skipped on both sides of the ASCII
    numeral: tab, line feed, vertical tab, form feed, carriage return and
    space. *)
Definition is_space (c : ascii) : bool :=
  let n := N_of_ascii c in
  (((9 <=? n) && (n <=? 13)) || (n =? 32))%N.

Definition is_digit (c : ascii) : bool :=
  let n := N_of_ascii c in ((48 <=? n) && (n <=? 57))%N.

Definition digit_val (c : ascii) : Z := Z.of_N (N_of_ascii c) - 48.

Fixpoint skip_left (s : string) : string :=
  match s with
  | String c rest => if is_space c then skip_left rest else s
  | EmptyString => EmptyString
  end.

Fixpoint skip_right (s : string) : string :=
  match s with
  | EmptyString => EmptyString
  | String c rest =>
      match skip_right rest with
      | EmptyString => if is_space c then EmptyString else String c EmptyString
      | r => String c r
      end
  end.

Definition skip_spaces (s : string) : string := skip_right (skip_left s).

(** Decimal digits with single underscores between digits. *)
Fixpoint digits (s : string) (acc : Z) (after_digit : bool) : option Z :=
  match s with
  | EmptyString => if after_digit then Some acc else None
  | String c rest =>
      if is_digit c then digits rest (10 * acc + digit_val c) true
      else if Ascii.eqb c "_" then
             if after_digit then digits rest acc false else None
           else None
  end.

Fixpoint count_digits (s : string) : nat :=
  match s with
  | EmptyString => 0
  | String c rest => ((if is_digit c then 1 else 0) + count_digits rest)%nat
  end.

(** sys.int_info.default_max_str_digits: the interpreter refuses a
    numeral of more digits. *)
Definition max_str_digits : nat := 4300.

Definition numeral (ds : string) : option Z :=
  if (count_digits ds <=? max_str_digits)%nat then digits ds 0 false else None.

(** [int(s)] in base 10: surrounding white space, an optional sign,
    digits. [None] stands for ValueError. *)
Definition int (s : string) : option Z :=
  match ascii_form s with
  | None => None
  | Some a =>
      match skip_spaces a with
      | String "-" ds => Z.opp <$> numeral ds
      | String "+" ds => numeral ds
      | ds => numeral ds
      end
  end.

(** [str(n)] of an int. *)
Definition str (n : Z) : string := NilZero.string_of_int (Z.to_int n).

(** Truth value of a str. *)
Definition truthy (s : string) : bool :=
  match s with EmptyString => false | _ => true end.

End PyStr.

(** ** Documents of the store (db.py) *)

Record CommunicationPreferences := {
  style : option string;
  preferred_topics : list string;
  avoided_topics : list string;
  notes : string }.

Record Profile := {
  age : option Z;
  gender : option string;
  emergency_contacts : list string;
  academic_history : string;
  professionals : list string;
  interests : list string;
  anxiety_triggers : list string;
  communication_preferences : option CommunicationPreferences }.

Record User := {
  user_id : Z;
  user_name : string;
  role : string;
  groups_of : list Z;
  profile : option Profile;
  user_created_at : Z;
  user_last_active : Z }.

Record MediatorSettings := {
  intervention_frequency : string;
  activity_suggestions : bool;
  conflict_mediation : bool;
  support_private_chats : bool }.

Record Group := {
  group_id : Z;
  group_name : string;
  theme : string;
  group_description : string;
  created_by : Z;
  members : list Z;
  max_members : Z;
  group_created_at : Z;
  group_last_active : Z;
  ai_mediator_enabled : bool;
  ai_mediator_settings : MediatorSettings }.

Record Activity := {
  activity_group_id : Z;
  activity_type : string;
  title : string;
  activity_description : string;
  activity_created_by : Z;
  participants : list Z;
  status : string;
  scheduled_time : Z;
  duration : Z;
  activity_created_at : Z;
  ai_guidance_enabled : bool;
  ai_guidance_notes : string }.

Record Message := {
  msg_user_id : Z;
  msg_group_id : option Z;
  text : string;
  msg_type : string;
  timestamp : Z }.

Record Interaction := {
  interaction_type : string;
  interaction_context : list (string * Z);
  input_prompt : string;
  input_message : option string;
  output_response : option string;
  output_alert_needed : bool;
  interaction_timestamp : Z }.

(** The collections of [Database]: users and groups carry a unique index on
    their id and are maps; the others are append-only, in insertion order. *)
Record Database := {
  users : gmap Z User;
  groups : gmap Z Group;
  activities : list Activity;
  messages : list Message;
  interactions : list Interaction }.

(** Values kept in [context.user_data]. *)
Inductive pyval :=
  | VStr (s : string)
  | VInt (n : Z)
  | VStrs (l : list string)
  | VGroups (l : list Group).

(** An inline keyboard: rows of (label, callback_data). *)
Definition InlineKeyboardMarkup := list (list (string * string)).

(** ** The outside world of a handler *)

(** What [requests.post] does: it raises, or answers with a status code and
    a body. [BodyInvalid]: [response.json()] or the path
    [['choices'][0]['message']['content']] raises; [BodyContent c]: the
    content is [c], [None] for a JSON null. *)
Inductive Body := BodyInvalid | BodyContent (content : option string).
Inductive HttpOutcome := HttpRaises | HttpResponse (status_code : Z) (body : Body).

(** What a run does not choose: the system clock (microseconds, by the
    number of the reading), the configuration [LLMIntegration.__init__]
    reads, and the endpoint's answer to the n-th request. *)
Record Env := {
  clock : nat -> Z;
  api_key : option string;
  templates : gmap string string;
  http_post : nat -> string -> HttpOutcome }.

(** Operations on the store, the clock, the endpoint and the transport, in
    the order a run performs them. *)
Inductive Event :=
  | EvNow (t : Z)
  | EvStoreMessage (m : Message)
  | EvGetUser (uid : Z)
  | EvGetGroup (gid : Z)
  | EvGetAllGroups
  | EvGetRecentMessages (gid uid : option Z) (limit : nat)
  | EvCreateGroup (gid : Z)
  | EvUpdateGroupAISettings (gid : Z)
  | EvCreateActivity (gid : Z)
  | EvStoreAIInteraction
  | EvUpdateLastActive (uid : Z)
  | EvReadTimestamp (gid : Z)
  | EvReadSession (uid : Z)
  | EvHttpPost (prompt : string)
  | EvSend (chat_id : Z) (msg : string)
  | EvReply (chat_id : Z) (msg : string) (markup : InlineKeyboardMarkup)
  | EvEdit (chat_id : Z) (msg : string) (markup : InlineKeyboardMarkup)
  | EvAnswer.

Record World := {
  db : Database;
  group_message_timestamps : gmap Z Z;
  private_chat_sessions : gmap Z Z;
  user_data : gmap Z (gmap string pyval);
  conversations : gmap (Z * Z) Z;
  clock_reads : nat;
  http_requests : nat;
  trace : list Event }.

Definition with_db (w : World) (d : Database) : World :=
  {| db := d; group_message_timestamps := group_message_timestamps w;
     private_chat_sessions := private_chat_sessions w; user_data := user_data w;
     conversations := conversations w; clock_reads := clock_reads w;
     http_requests := http_requests w; trace := trace w |}.

Definition with_timestamps (w : World) (m : gmap Z Z) : World :=
  {| db := db w; group_message_timestamps := m;
     private_chat_sessions := private_chat_sessions w; user_data := user_data w;
     conversations := conversations w; clock_reads := clock_reads w;
     http_requests := http_requests w; trace := trace w |}.

Definition with_sessions (w : World) (m : gmap Z Z) : World :=
  {| db := db w; group_message_timestamps := group_message_timestamps w;
     private_chat_sessions := m; user_data := user_data w;
     conversations := conversations w; clock_reads := clock_reads w;
     http_requests := http_requests w; trace := trace w |}.

Definition with_user_data (w : World) (m : gmap Z (gmap string pyval)) : World :=
  {| db := db w; group_message_timestamps := group_message_timestamps w;
     private_chat_sessions := private_chat_sessions w; user_data := m;
     conversations := conversations w; clock_reads := clock_reads w;
     http_requests := http_requests w; trace := trace w |}.

Definition with_conversations (w : World) (m : gmap (Z * Z) Z) : World :=
  {| db := db w; group_message_timestamps := group_message_timestamps w;
     private_chat_sessions := private_chat_sessions w; user_data := user_data w;
     conversations := m; clock_reads := clock_reads w;
     http_requests := http_requests w; trace := trace w |}.

Definition with_clock_reads (w : World) (n : nat) : World :=
  {| db := db w; group_message_timestamps := group_message_timestamps w;
     private_chat_sessions := private_chat_sessions w; user_data := user_data w;
     conversations := conversations w; clock_reads := n;
     http_requests := http_requests w; trace := trace w |}.

Definition with_http_requests (w : World) (n : nat) : World :=
  {| db := db w; group_message_timestamps := group_message_timestamps w;
     private_chat_sessions := private_chat_sessions w; user_data := user_data w;
     conversations := conversations w; clock_reads := clock_reads w;
     http_requests := n; trace := trace w |}.

Definition with_trace (w : World) (t : list Event) : World :=
  {| db := db w; group_message_timestamps := group_message_timestamps w;
     private_chat_sessions := private_chat_sessions w; user_data := user_data w;
     conversations := conversations w; clock_reads := clock_reads w;
     http_requests := http_requests w; trace := t |}.

(** ** The handler monad: state, and Python exceptions *)

Inductive exn := ValueError | KeyError | IndexError | AttributeError | RequestException.

Inductive Result (A : Type) :=
  | Ok (a : A)
  | Raise (e : exn).
Arguments Ok {A} a.
Arguments Raise {A} e.

Definition M (A : Type) : Type := Env -> World -> Result A * World.

Definition ret {A} (a : A) : M A := fun _ w => (Ok a, w).

Definition bind {A B} (m : M A) (k : A -> M B) : M B :=
  fun env w =>
    match m env w with
    | (Ok a, w') => k a env w'
    | (Raise e, w') => (Raise e, w')
    end.

Definition raise {A} (e : exn) : M A := fun _ w => (Raise e, w).

(** [try: m except ...: h e]; what [m] did before raising stays done. *)
Definition try_except {A} (m : M A) (h : exn -> M A) : M A :=
  fun env w =>
    match m env w with
    | (Ok a, w') => (Ok a, w')
    | (Raise e, w') => h e env w'
    end.

Definition ask : M Env := fun env w => (Ok env, w).
Definition get : M World := fun _ w => (Ok w, w).
Definition modify (f : World -> World) : M unit := fun _ w => (Ok tt, f w).
Definition emit (e : Event) : M unit := modify (fun w => with_trace w (trace w ++ [e])).

Notation "'let*' x ':=' m 'in' k" := (bind m (fun x => k))
  (at level 10, x name, m at level 100, k at level 200).
Notation "'let*' ' p ':=' m 'in' k" := (bind m (fun x => match x with p => k end))
  (at level 10, p pattern, m at level 100, k at level 200).
Notation "m >>> k" := (bind m (fun _ => k)) (at level 90, right associativity).

Definition when (b : bool) (m : M unit) : M unit := if b then m else ret tt.

(** [for x in l: body x] *)
Fixpoint for_each {A} (l : list A) (body : A -> M unit) : M unit :=
  match l with
  | [] => ret tt
  | x :: rest => body x >>> for_each rest body
  end.

Definition run {A} (m : M A) (env : Env) (w : World) : Result A * World := m env w.

(** ** Primitive operations *)

(** [datetime.now()]: the next reading of the system clock. *)
Definition now : M Z :=
  fun env w =>
    let t := clock env (clock_reads w) in
    (Ok t, with_trace (with_clock_reads w (S (clock_reads w))) (trace w ++ [EvNow t])).

Definition microseconds_per_second : Z := 1000000.

(** [int(time.time())]: the same clock, in whole seconds. *)
Definition time_time : M Z :=
  let* t := now in ret (t / microseconds_per_second).

(** [requests.post(...)]: the endpoint's answer to this request, or the
    exception [requests] raises. *)
Definition requests_post (prompt : string) : M (Z * Body) :=
  fun env w =>
    let w' := with_trace (with_http_requests w (S (http_requests w)))
                         (trace w ++ [EvHttpPost prompt]) in
    match http_post env (http_requests w) prompt with
    | HttpRaises => (Raise RequestException, w')
    | HttpResponse code body => (Ok (code, body), w')
    end.

(** [context.bot.send_message(chat_id=..., text=...)] *)
Definition send_message (chat : Z) (msg : string) : M unit := emit (EvSend chat msg).

(** [update.message.reply_text(text, reply_markup=...)] *)
Definition reply_text (chat : Z) (msg : string) (markup : InlineKeyboardMarkup) : M unit :=
  emit (EvReply chat msg markup).

(** [query.edit_message_text(text, reply_markup=...)] *)
Definition edit_message_text (chat : Z) (msg : string) (markup : InlineKeyboardMarkup) : M unit :=
  emit (EvEdit chat msg markup).

(** [query.answer()] *)
Definition answer : M unit := emit EvAnswer.

(** [context.user_data[key] = v] and [context.user_data[key]] *)
Definition user_data_set (uid : Z) (key : string) (v : pyval) : M unit :=
  modify (fun w =>
    with_user_data w (<[uid := <[key := v]> (default ∅ (user_data w !! uid))]> (user_data w))).

Definition user_data_get (uid : Z) (key : string) : M pyval :=
  let* w := get in
  match default ∅ (user_data w !! uid) !! key with
  | Some v => ret v
  | None => raise KeyError
  end.

(** ** db.py *)

Module DB.

(** [str(result.inserted_id)]: a non-empty text standing for the ObjectId
    of the n-th document of a collection. *)
Definition object_id (n : nat) : string := "oid" +:+ PyStr.str (Z.of_nat n).

Definition set_users (d : Database) (u : gmap Z User) : Database :=
  {| users := u; groups := groups d; activities := activities d;
     messages := messages d; interactions := interactions d |}.

Definition set_groups (d : Database) (g : gmap Z Group) : Database :=
  {| users := users d; groups := g; activities := activities d;
     messages := messages d; interactions := interactions d |}.

Definition set_activities (d : Database) (a : list Activity) : Database :=
  {| users := users d; groups := groups d; activities := a;
     messages := messages d; interactions := interactions d |}.

Definition set_messages (d : Database) (m : list Message) : Database :=
  {| users := users d; groups := groups d; activities := activities d;
     messages := m; interactions := interactions d |}.

Definition set_interactions (d : Database) (i : list Interaction) : Database :=
  {| users := users d; groups := groups d; activities := activities d;
     messages := messages d; interactions := i |}.

Definition modify_db (f : Database -> Database) : M unit :=
  modify (fun w => with_db w (f (db w))).

Definition touch_user (t : Z) (u : User) : User :=
  {| user_id := user_id u; user_name := user_name u; role := role u;
     groups_of := groups_of u; profile := profile u;
     user_created_at := user_created_at u; user_last_active := t |}.

(** [{"$addToSet": {"groups": group_id}}] *)
Definition add_group_to_user (gid : Z) (u : User) : User :=
  {| user_id := user_id u; user_name := user_name u; role := role u;
     groups_of := if bool_decide (gid ∈ groups_of u) then groups_of u
                  else (groups_of u ++ [gid])%list;
     profile := profile u;
     user_created_at := user_created_at u; user_last_active := user_last_active u |}.

Definition touch_group (t : Z) (g : Group) : Group :=
  {| group_id := group_id g; group_name := group_name g; theme := theme g;
     group_description := group_description g; created_by := created_by g;
     members := members g; max_members := max_members g;
     group_created_at := group_created_at g; group_last_active := t;
     ai_mediator_enabled := ai_mediator_enabled g;
     ai_mediator_settings := ai_mediator_settings g |}.

(** [{"$set": {"ai_mediator_settings": ai_settings}}] *)
Definition set_ai_mediator_settings (s : MediatorSettings) (g : Group) : Group :=
  {| group_id := group_id g; group_name := group_name g; theme := theme g;
     group_description := group_description g; created_by := created_by g;
     members := members g; max_members := max_members g;
     group_created_at := group_created_at g; group_last_active := group_last_active g;
     ai_mediator_enabled := ai_mediator_enabled g;
     ai_mediator_settings := s |}.

Definition update_last_active (uid : Z) : M unit :=
  let* t := now in
  emit (EvUpdateLastActive uid) >>>
  modify_db (fun d => set_users d (alter (touch_user t) uid (users d))).

Definition get_user (uid : Z) : M (option User) :=
  emit (EvGetUser uid) >>>
  let* w := get in ret (users (db w) !! uid).

Definition get_group (gid : Z) : M (option Group) :=
  emit (EvGetGroup gid) >>>
  let* w := get in ret (groups (db w) !! gid).

Definition get_all_groups : M (list Group) :=
  emit EvGetAllGroups >>>
  let* w := get in ret ((map_to_list (groups (db w))).*2).

Definition create_group (gid : Z) (name theme_ description : string) (creator : Z)
    (max_members_ : Z) : M bool :=
  try_except
    (let* t1 := now in
     let* t2 := now in
     let group_data :=
       {| group_id := gid; group_name := name; theme := theme_;
          group_description := description; created_by := creator;
          members := [creator]; max_members := max_members_;
          group_created_at := t1; group_last_active := t2;
          ai_mediator_enabled := true;
          ai_mediator_settings :=
            {| intervention_frequency := "medium"; activity_suggestions := true;
               conflict_mediation := true; support_private_chats := true |} |} in
     emit (EvCreateGroup gid) >>>
     modify_db (fun d => set_groups d (<[gid := group_data]> (groups d))) >>>
     modify_db (fun d => set_users d (alter (add_group_to_user gid) creator (users d))) >>>
     ret true)
    (fun _ => ret false).

Definition update_group_ai_settings (gid : Z) (ai_settings : MediatorSettings) : M bool :=
  try_except
    (emit (EvUpdateGroupAISettings gid) >>>
     modify_db (fun d =>
       set_groups d (alter (set_ai_mediator_settings ai_settings) gid (groups d))) >>>
     ret true)
    (fun _ => ret false).

Definition create_activity (gid : Z) (activity_type_ title_ description : string)
    (creator : Z) (scheduled : option Z) (duration_ : Z) : M (option string) :=
  try_except
    (let* sched := match scheduled with Some t => ret t | None => now end in
     let* t := now in
     let activity_data :=
       {| activity_group_id := gid; activity_type := activity_type_; title := title_;
          activity_description := description; activity_created_by := creator;
          participants := []; status := "scheduled"; scheduled_time := sched;
          duration := duration_; activity_created_at := t;
          ai_guidance_enabled := true; ai_guidance_notes := EmptyString |} in
     let* w := get in
     emit (EvCreateActivity gid) >>>
     modify_db (fun d => set_activities d (activities d ++ [activity_data])%list) >>>
     ret (Some (object_id (length (activities (db w))))))
    (fun _ => ret None).

(** Truth value of [group_id] in [if group_id:]. *)
Definition truthy_id (gid : option Z) : option Z :=
  match gid with
  | Some g => if g =? 0 then None else Some g
  | None => None
  end.

Definition store_message (uid : Z) (gid : option Z) (message_text : string) : M (option string) :=
  try_except
    (let* t := now in
     let message_data :=
       {| msg_user_id := uid; msg_group_id := gid; text := message_text;
          msg_type := "text"; timestamp := t |} in
     let* w := get in
     emit (EvStoreMessage message_data) >>>
     modify_db (fun d => set_messages d (messages d ++ [message_data])%list) >>>
     update_last_active uid >>>
     match truthy_id gid with
     | Some g =>
         let* t' := now in
         modify_db (fun d => set_groups d (alter (touch_group t') g (groups d)))
     | None => ret tt
     end >>>
     ret (Some (object_id (length (messages (db w))))))
    (fun _ => ret None).

(** The query of [get_recent_messages]: each given id must be equal. *)
Definition matches (gid uid : option Z) (m : Message) : bool :=
  match gid with Some g => bool_decide (msg_group_id m = Some g) | None => true end
  && match uid with Some u => msg_user_id m =? u | None => true end.

(** [.sort("timestamp", -1)]: newest first; documents of equal timestamp
    stay in insertion order. *)
Fixpoint insert_desc (m : Message) (l : list Message) : list Message :=
  match l with
  | [] => [m]
  | y :: l' => if timestamp y <=? timestamp m then m :: l else y :: insert_desc m l'
  end.

Definition sort_desc (l : list Message) : list Message := foldr insert_desc [] l.

Definition recent (d : Database) (gid uid : option Z) (limit : nat) : list Message :=
  take limit (sort_desc (List.filter (matches gid uid) (messages d))).

Definition get_recent_messages (gid uid : option Z) (limit : nat) : M (list Message) :=
  emit (EvGetRecentMessages gid uid limit) >>>
  let* w := get in ret (recent (db w) gid uid limit).

Definition store_ai_interaction (kind : string) (context : list (string * Z))
    (prompt : string) (message_ : option string) (response : option string)
    (alert_needed : bool) : M (option string) :=
  try_except
    (let* t := now in
     let interaction_data :=
       {| interaction_type := kind; interaction_context := context;
          input_prompt := prompt; input_message := message_;
          output_response := response; output_alert_needed := alert_needed;
          interaction_timestamp := t |} in
     let* w := get in
     emit EvStoreAIInteraction >>>
     modify_db (fun d => set_interactions d (interactions d ++ [interaction_data])%list) >>>
     ret (Some (object_id (length (interactions (db w))))))
    (fun _ => ret None).

End DB.

(** ** llm_integration.py *)

Module LLM.

Import PyStr.

(** An entry of the [conversation] list of a prompt. *)
Record Turn := {
  turn_role : string;
  turn_name : option string;
  turn_content : string }.

Definition api_key_missing : string :=
  "Erro: API_KEY não configurada. Por favor, configure a variável de ambiente LLM_API_KEY.".
Definition api_error : string :=
  "Desculpe, estou tendo dificuldades técnicas no momento.".
Definition call_failed : string :=
  "Desculpe, ocorreu um erro ao processar sua solicitação.".
Definition group_mediation_failed : string :=
  "Desculpe, estou tendo dificuldades para processar a conversa neste momento.".
Definition individual_support_failed : string :=
  "Desculpe, estou tendo dificuldades para processar sua mensagem neste momento.".

(** Truth value of [self.api_key]. *)
Definition has_api_key (env : Env) : bool :=
  match api_key env with Some k => truthy k | None => false end.

Definition _call_llm_api (prompt : string) : M (option string) :=
  try_except
    (let* env := ask in
     if negb (has_api_key env) then ret (Some api_key_missing)
     else
       let* '(code, body) := requests_post prompt in
       if code =? 200 then
         match body with
         | BodyContent c => ret c
         | BodyInvalid => raise KeyError
         end
       else ret (Some api_error))
    (fun _ => ret (Some call_failed)).

Definition alert_keywords : list string :=
  [ "suicídio"; "suicida"; "matar"; "morrer"; "machucar";
    "desespero"; "desesperado"; "desesperada"; "emergência";
    "crise"; "pânico"; "violência"; "abuso"; "socorro" ].

(** [for keyword in keywords: if keyword in text_lower: return True] *)
Fixpoint any_keyword_in (keywords : list string) (text_lower : string) : bool :=
  match keywords with
  | [] => false
  | keyword :: rest =>
      if contains keyword text_lower then true else any_keyword_in rest text_lower
  end.

(** [text] may be the [None] that [_call_llm_api] passes on; [None.lower()]
    raises. *)
Definition _analyze_for_alert (text_ : option string) (context_messages : list Message)
    : M bool :=
  match text_ with
  | None => raise AttributeError
  | Some t =>
      let text_lower := lower t in
      ret (any_keyword_in alert_keywords text_lower)
  end.

Definition template (env : Env) (key fallback : string) : string :=
  default fallback (templates env !! key).

Definition profile_interests (p : option Profile) : list string :=
  match p with Some p => interests p | None => [] end.

Definition profile_triggers (p : option Profile) : list string :=
  match p with Some p => anxiety_triggers p | None => [] end.

(** [profile.get('communication_preferences', {}).get('style', 'direta')] *)
Definition profile_comm_style (p : option Profile) : string :=
  match p with
  | Some p =>
      match communication_preferences p with
      | Some c => default "direta" (style c)
      | None => "direta"
      end
  | None => "direta"
  end.

(** [users.get(user_id)] on the dict built from the senders. *)
Fixpoint users_get (users_ : list (Z * User)) (uid : Z) : option User :=
  match users_ with
  | [] => None
  | (k, u) :: rest => if k =? uid then Some u else users_get rest uid
  end.

Fixpoint fetch_users (user_ids : list Z) : M (list (Z * User)) :=
  match user_ids with
  | [] => ret []
  | uid :: rest =>
      let* user := DB.get_user uid in
      let* others := fetch_users rest in
      ret match user with
          | Some u => (uid, u) :: others
          | None => others
          end
  end.

Definition group_turn (users_ : list (Z * User)) (msg : Message) : Turn :=
  let user := users_get users_ (msg_user_id msg) in
  let role_ := match user with Some u => role u | None => "unknown" end in
  {| turn_role := if String.eqb role_ "autista" then "user"
                  else if String.eqb role_ "at" then "assistant" else "user";
     turn_name := Some match user with Some u => user_name u | None => "Desconhecido" end;
     turn_content := text msg |}.

Definition participant_line (user : User) : string :=
  if String.eqb (role user) "autista" then
    let interests_ := join ", " (profile_interests (profile user)) in
    let triggers := join ", " (profile_triggers (profile user)) in
    let comm_style := profile_comm_style (profile user) in
    "- " +:+ user_name user +:+ ": Pessoa autista. "
    +:+ (if truthy interests_ then "Interesses: " +:+ interests_ +:+ ". " else EmptyString)
    +:+ (if truthy triggers then "Gatilhos: " +:+ triggers +:+ ". " else EmptyString)
    +:+ "Prefere comunicação " +:+ comm_style +:+ "." +:+ nl
  else if String.eqb (role user) "at" then
    "- " +:+ user_name user +:+ ": Auxiliar Terapêutico (AT)." +:+ nl
  else "- " +:+ user_name user +:+ ": Papel desconhecido." +:+ nl.

Definition concat_lines {A} (line : A -> string) (l : list A) : string :=
  foldr (fun x acc => line x +:+ acc) EmptyString l.

Definition group_turn_line (t : Turn) : string :=
  default EmptyString (turn_name t) +:+ ": " +:+ turn_content t +:+ nl.

Definition group_prompt (env : Env) (group : Group) (users_ : list (Z * User))
    (conversation : list Turn) : string :=
  let settings := ai_mediator_settings group in
  template env "group_mediation" "Você é um mediador de IA para um grupo de pessoas autistas."
  +:+ nl +:+ nl +:+ "Grupo: " +:+ group_name group +:+ nl
  +:+ "Tema: " +:+ theme group +:+ nl
  +:+ "Descrição: " +:+ group_description group +:+ nl +:+ nl
  +:+ "Participantes:" +:+ nl
  +:+ concat_lines (fun p => participant_line p.2) users_
  +:+ nl +:+ "Conversa recente:" +:+ nl
  +:+ concat_lines group_turn_line conversation
  +:+ nl +:+ "Instruções:" +:+ nl
  +:+ "1. Facilite a conversa de forma respeitosa e inclusiva." +:+ nl
  +:+ "2. Mantenha o foco no tema do grupo quando apropriado." +:+ nl
  +:+ "3. Ajude a incluir participantes que estão em silêncio." +:+ nl
  +:+ "4. Ofereça suporte se alguém parecer confuso ou ansioso." +:+ nl
  +:+ (if activity_suggestions settings
       then "5. Sugira atividades relacionadas ao tema quando apropriado." +:+ nl
       else EmptyString)
  +:+ (if conflict_mediation settings
       then "6. Medeie conflitos ou mal-entendidos de forma construtiva." +:+ nl
       else EmptyString)
  +:+ (if String.eqb (intervention_frequency settings) "low" then
         nl +:+ "Intervenha apenas quando necessário, mantendo-se em segundo plano na maior parte do tempo."
       else if String.eqb (intervention_frequency settings) "high" then
         nl +:+ "Intervenha proativamente para manter a conversa fluindo e garantir que todos participem."
       else
         nl +:+ "Mantenha um equilíbrio entre intervir quando necessário e permitir que a conversa flua naturalmente.").

(** [set(msg.get('user_id') for msg in recent_messages)], in the order the
    set is iterated. *)
Definition sender_ids (recent_messages : list Message) : list Z :=
  elements (list_to_set (msg_user_id <$> recent_messages) : gset Z).

Definition mediate_group_conversation (gid : Z) (recent_messages : list Message)
    (current_user_id : Z) : M (option string * bool) :=
  try_except
    (let* group := DB.get_group gid in
     match group with
     | None => ret (None, false)
     | Some group =>
         let* users_ := fetch_users (sender_ids recent_messages) in
         let conversation := group_turn users_ <$> rev recent_messages in
         let* env := ask in
         let prompt := group_prompt env group users_ conversation in
         let* response := _call_llm_api prompt in
         let* alert_needed := _analyze_for_alert response recent_messages in
         DB.store_ai_interaction "group_mediation"
           [("group_id", gid); ("user_count", Z.of_nat (length users_))]
           prompt None response alert_needed >>>
         ret (response, alert_needed)
     end)
    (fun _ => ret (Some group_mediation_failed, false)).

Definition individual_turn (uid : Z) (msg : Message) : Turn :=
  if msg_user_id msg =? uid then
    {| turn_role := "user"; turn_name := None; turn_content := text msg |}
  else
    {| turn_role := "assistant"; turn_name := None; turn_content := text msg |}.

Definition individual_turn_line (t : Turn) : string :=
  (if String.eqb (turn_role t) "user" then "Usuário" else "Assistente")
  +:+ ": " +:+ turn_content t +:+ nl.

(** [profile.get('age', 'Não informada')] in an f-string. *)
Definition profile_age_text (p : option Profile) : string :=
  match p with
  | Some p => match age p with Some n => str n | None => "None" end
  | None => "Não informada"
  end.

Definition profile_gender_text (p : option Profile) : string :=
  match p with
  | Some p => default "None" (gender p)
  | None => "Não informado"
  end.

(** The prompt of [provide_individual_support], in the three parts the
    function appends: the user's context, the conversation history, the
    instructions. *)
Definition individual_header (env : Env) (user : User) : string :=
  let interests_ := join ", " (profile_interests (profile user)) in
  let triggers := join ", " (profile_triggers (profile user)) in
  template env "individual_support" "Você é um assistente de IA para pessoas autistas."
  +:+ nl +:+ nl +:+ "Usuário: " +:+ user_name user +:+ nl
  +:+ "Idade: " +:+ profile_age_text (profile user) +:+ nl
  +:+ "Gênero: " +:+ profile_gender_text (profile user) +:+ nl
  +:+ (if truthy interests_ then "Interesses: " +:+ interests_ +:+ nl else EmptyString)
  +:+ (if truthy triggers then "Gatilhos de ansiedade: " +:+ triggers +:+ nl else EmptyString)
  +:+ "Preferência de comunicação: " +:+ profile_comm_style (profile user) +:+ nl.

Definition individual_history (conversation : list Turn) : string :=
  nl +:+ "Conversa recente:" +:+ nl
  +:+ concat_lines individual_turn_line conversation.

Definition individual_instructions : string :=
  nl +:+ "Instruções:" +:+ nl
  +:+ "1. Ofereça suporte emocional e ajude com estratégias de regulação." +:+ nl
  +:+ "2. Adapte sua comunicação ao estilo preferido do usuário." +:+ nl
  +:+ "3. Evite tópicos que possam ser gatilhos de ansiedade." +:+ nl
  +:+ "4. Conecte-se com os interesses do usuário quando apropriado." +:+ nl
  +:+ "5. Seja claro, paciente e respeitoso." +:+ nl.

Definition individual_prompt (env : Env) (user : User) (conversation : list Turn) : string :=
  individual_header env user +:+ individual_history conversation
  +:+ individual_instructions.

(** The [conversation] list [provide_individual_support] builds. *)
Definition individual_conversation (uid : Z) (recent_messages : list Message) : list Turn :=
  individual_turn uid <$> rev recent_messages.

Definition provide_individual_support (uid : Z) (message_text : string)
    : M (option string * bool) :=
  try_except
    (let* user := DB.get_user uid in
     match user with
     | None => ret (None, false)
     | Some user =>
         if negb (String.eqb (role user) "autista") then ret (None, false)
         else
           let* recent_messages := DB.get_recent_messages None (Some uid) 10 in
           let conversation := individual_conversation uid recent_messages in
           let* env := ask in
           let prompt := individual_prompt env user conversation in
           let* response := _call_llm_api prompt in
           let* alert_needed := _analyze_for_alert (Some message_text) [] in
           DB.store_ai_interaction "individual_support" [("user_id", uid)]
             prompt (Some message_text) response alert_needed >>>
           ret (response, alert_needed)
     end)
    (fun _ => ret (Some individual_support_failed, false)).

End LLM.

(** ** Telegram updates *)

(** A text message ([update.message]) or a button press
    ([update.callback_query]); [user] is [effective_user.id], [chat] the
    chat's id, [chat_type] is [message.chat.type]. *)
Inductive Update :=
  | TextMessage (user chat : Z) (chat_type : string) (text_ : string)
  | CallbackQuery (user chat : Z) (data : string).

Definition END : Z := -1.

(** ** ai_mediation.py *)

Module Mediation.

Import PyStr.

Definition five_minutes : Z := 5 * 60 * microseconds_per_second.

Definition should_ai_intervene (gid : Z) : M bool :=
  emit (EvReadTimestamp gid) >>>
  let* w := get in
  match group_message_timestamps w !! gid with
  | None => ret true
  | Some last_intervention =>
      let* t := now in
      if t - last_intervention >? five_minutes then ret true else ret false
  end.

Definition support_keywords : list string :=
  [ "ajuda"; "ansioso"; "ansiosa"; "nervoso"; "nervosa"; "triste";
    "confuso"; "confusa"; "difícil"; "não consigo"; "problema";
    "assustado"; "assustada"; "medo"; "sozinho"; "sozinha" ].

Definition needs_support (message_text : string) : bool :=
  let message_lower := lower message_text in
  if LLM.any_keyword_in support_keywords message_lower then true
  else if contains "?" message_text || contains "!" message_text then true
  else false.

Definition mediator_prefix : string := "🤖 *Mediador IA*: ".
Definition assistant_prefix : string := "🤖 *Assistente IA*: ".

Definition group_alert_text (name : string) : string :=
  "⚠️ *ALERTA*: Possível situação que requer atenção no grupo '" +:+ name +:+ "'."
  +:+ nl +:+ nl
  +:+ "Por favor, verifique a conversa recente e intervenha se necessário.".

Definition private_alert_text (name : string) : string :=
  "⚠️ *ALERTA*: " +:+ name +:+ " pode precisar de suporte profissional "
  +:+ "em uma conversa privada com o assistente IA." +:+ nl +:+ nl
  +:+ "Por favor, entre em contato com o usuário quando possível.".

(** Truth value of the reply in [if ai_response:]. *)
Definition reply_text_of (ai_response : option string) : option string :=
  match ai_response with
  | Some r => if truthy r then Some r else None
  | None => None
  end.

Definition handle_group_message (update : Update) : M unit :=
  match update with
  | CallbackQuery _ _ _ => raise AttributeError
  | TextMessage uid chat chat_type text_ =>
      DB.store_message uid (Some chat) text_ >>>
      if String.eqb chat_type "group" || String.eqb chat_type "supergroup" then
        let* group := DB.get_group chat in
        match group with
        | None => ret tt
        | Some group =>
            if ai_mediator_enabled group then
              let* should_intervene := should_ai_intervene chat in
              if should_intervene then
                let* recent_messages := DB.get_recent_messages (Some chat) None 10 in
                let* '(ai_response, alert_needed) :=
                  LLM.mediate_group_conversation chat recent_messages uid in
                match reply_text_of ai_response with
                | None => ret tt
                | Some r =>
                    send_message chat (mediator_prefix +:+ r) >>>
                    let* t := now in
                    modify (fun w =>
                      with_timestamps w (<[chat := t]> (group_message_timestamps w))) >>>
                    if alert_needed then
                      let at_id := created_by group in
                      if negb (at_id =? 0) then
                        send_message at_id (group_alert_text (group_name group))
                      else ret tt
                    else ret tt
                end
              else ret tt
            else ret tt
        end
      else ret tt
  end.

(** The loop over [user_groups] with its set [ats_notified]. *)
Fixpoint notify_ats (user_groups : list Z) (ats_notified : gset Z) (name : string) : M unit :=
  match user_groups with
  | [] => ret tt
  | gid :: rest =>
      let* group := DB.get_group gid in
      match group with
      | None => notify_ats rest ats_notified name
      | Some group =>
          let at_id := created_by group in
          if negb (at_id =? 0) && negb (bool_decide (at_id ∈ ats_notified)) then
            send_message at_id (private_alert_text name) >>>
            notify_ats rest ({[at_id]} ∪ ats_notified) name
          else notify_ats rest ats_notified name
      end
  end.

Definition handle_private_message (update : Update) : M unit :=
  match update with
  | CallbackQuery _ _ _ => raise AttributeError
  | TextMessage uid chat _ text_ =>
      DB.store_message uid None text_ >>>
      let* user := DB.get_user uid in
      match user with
      | None => ret tt
      | Some user =>
          if String.eqb (role user) "autista" then
            emit (EvReadSession uid) >>>
            let* w := get in
            let is_support_session := bool_decide (is_Some (private_chat_sessions w !! uid)) in
            if negb (startswith "/" text_) && (is_support_session || needs_support text_) then
              let* '(ai_response, alert_needed) := LLM.provide_individual_support uid text_ in
              match reply_text_of ai_response with
              | None => ret tt
              | Some r =>
                  reply_text chat (assistant_prefix +:+ r) [] >>>
                  (if negb is_support_session then
                     let* t := now in
                     modify (fun w =>
                       with_sessions w (<[uid := t]> (private_chat_sessions w)))
                   else ret tt) >>>
                  if alert_needed then notify_ats (groups_of user) ∅ (user_name user)
                  else ret tt
              end
            else ret tt
          else ret tt
      end
  end.

End Mediation.

(** ** user_profile.py *)

Module UserProfile.

Definition age_range_prompt : string :=
  "Por favor, digite uma idade válida entre 5 e 100 anos.".
Definition age_format_prompt : string :=
  "Por favor, digite apenas números para sua idade.".

Definition gender_keyboard : InlineKeyboardMarkup :=
  [ [("Masculino", "masculino")]; [("Feminino", "feminino")];
    [("Não-binário", "nao-binario")]; [("Prefiro não informar", "nao-informado")] ].

(** The [try] block returns early ([inl]) or leaves the parsed value. *)
Definition process_profile_age (update : Update) : M Z :=
  match update with
  | CallbackQuery _ _ _ => raise AttributeError
  | TextMessage uid chat _ text_ =>
      let* r :=
        try_except
          (match PyStr.int text_ with
           | None => raise ValueError
           | Some age_ =>
               if (age_ <? 5) || (age_ >? 100) then
                 reply_text chat age_range_prompt [] >>> ret (inl 10)
               else ret (inr age_)
           end)
          (fun e =>
             match e with
             | ValueError => reply_text chat age_format_prompt [] >>> ret (inl 10)
             | _ => raise e
             end) in
      match r with
      | inl state => ret state
      | inr age_ =>
          user_data_set uid "profile_age" (VInt age_) >>>
          reply_text chat "Obrigado! Qual é o seu gênero?" gender_keyboard >>>
          ret 11
      end
  end.

End UserProfile.

(** ** group_management.py *)

Module GroupManagement.

Import PyStr.

Definition max_range_prompt : string :=
  "Por favor, escolha um número entre 2 e 50. Qual será o número máximo de participantes?".
Definition max_format_prompt : string :=
  "Por favor, digite apenas números. Qual será o número máximo de participantes?".

Definition group_created_text (name : string) : string :=
  "✅ Grupo '" +:+ name +:+ "' criado com sucesso!" +:+ nl +:+ nl
  +:+ "Você gostaria de ativar o mediador de IA para este grupo? "
  +:+ "O mediador de IA pode facilitar conversas, oferecer suporte e "
  +:+ "alertar quando intervenção profissional for necessária.".

Definition group_failed_text : string :=
  "Desculpe, ocorreu um erro ao criar o grupo. Por favor, tente novamente.".

Definition mediator_keyboard (gid : Z) : InlineKeyboardMarkup :=
  [ [("Ativar mediador IA", "ai_on_" +:+ str gid)];
    [("Desativar mediador IA", "ai_off_" +:+ str gid)] ].

(** [context.user_data[key]] where the flows store a text (an int for
    [user_data_int]); a missing key raises KeyError. No flow stores a value
    of another type under these keys; the model raises there. *)
Definition user_data_str (uid : Z) (key : string) : M string :=
  let* v := user_data_get uid key in
  match v with
  | VStr s => ret s
  | _ => raise AttributeError
  end.

Definition user_data_int (uid : Z) (key : string) : M Z :=
  let* v := user_data_get uid key in
  match v with
  | VInt n => ret n
  | _ => raise AttributeError
  end.

Definition process_group_max (update : Update) : M Z :=
  match update with
  | CallbackQuery _ _ _ => raise AttributeError
  | TextMessage uid chat _ text_ =>
      let* r :=
        try_except
          (match int text_ with
           | None => raise ValueError
           | Some max_members_ =>
               if (max_members_ <? 2) || (max_members_ >? 50) then
                 reply_text chat max_range_prompt [] >>> ret (inl 5)
               else ret (inr max_members_)
           end)
          (fun e =>
             match e with
             | ValueError => reply_text chat max_format_prompt [] >>> ret (inl 5)
             | _ => raise e
             end) in
      match r with
      | inl state => ret state
      | inr max_members_ =>
          user_data_set uid "group_max" (VInt max_members_) >>>
          let* gid := time_time in
          let* name := user_data_str uid "group_name" in
          let* theme_ := user_data_str uid "group_theme" in
          let* desc := user_data_str uid "group_desc" in
          let* max_ := user_data_int uid "group_max" in
          let* success := DB.create_group gid name theme_ desc uid max_ in
          (if success then
             let* name' := user_data_str uid "group_name" in
             reply_text chat (group_created_text name') (mediator_keyboard gid)
           else reply_text chat group_failed_text []) >>>
          ret END
      end
  end.

Definition mediator_toggled_text (status_text name : string) : string :=
  "Mediador de IA " +:+ status_text +:+ " para o grupo '" +:+ name +:+ "'." +:+ nl +:+ nl
  +:+ "Em uma implementação completa, você receberia um link para convidar participantes. "
  +:+ "Para este MVP, considere o grupo criado e pronto para uso." +:+ nl +:+ nl
  +:+ "Use /iniciar_atividade para começar uma atividade neste grupo.".

Definition mediator_toggle_failed_text : string :=
  "Desculpe, ocorreu um erro ao atualizar as configurações do mediador de IA. "
  +:+ "Por favor, tente novamente.".

(** [l[i]] of a list. *)
Definition item {A} (l : list A) (i : nat) : M A :=
  match l !! i with
  | Some x => ret x
  | None => raise IndexError
  end.

(** [int(s)] outside a [try]. *)
Definition int_or_raise (s : string) : M Z :=
  match int s with
  | Some n => ret n
  | None => raise ValueError
  end.

Definition toggle_ai_mediator (update : Update) : M unit :=
  match update with
  | TextMessage _ _ _ _ => raise AttributeError
  | CallbackQuery uid chat data =>
      answer >>>
      let data_parts := split "_" data in
      let* ai_status := item data_parts 1 in
      let* gid_text := item data_parts 2 in
      let* gid := int_or_raise gid_text in
      let ai_enabled := String.eqb ai_status "on" in
      let ai_settings :=
        {| intervention_frequency := "medium"; activity_suggestions := true;
           conflict_mediation := true; support_private_chats := true |} in
      let* success := DB.update_group_ai_settings gid ai_settings in
      if success then
        let* group := DB.get_group gid in
        let name := match group with Some g => group_name g | None => "Grupo" end in
        let status_text := if ai_enabled then "ativado" else "desativado" in
        edit_message_text chat (mediator_toggled_text status_text name) []
      else edit_message_text chat mediator_toggle_failed_text []
  end.

End GroupManagement.

(** ** activity_management.py *)

Module ActivityManagement.

Import PyStr.
Import GroupManagement.

Definition register_first_text : string :=
  "Você precisa se registrar primeiro. Use /start para criar seu perfil.".
Definition only_ats_text : string :=
  "Desculpe, apenas Auxiliares Terapêuticos (ATs) podem iniciar atividades.".
Definition no_groups_text : string :=
  "Você não tem nenhum grupo como AT. Crie um grupo primeiro com /criar_grupo.".
Definition select_group_text : string :=
  "Vamos iniciar uma nova atividade estruturada." +:+ nl +:+ nl
  +:+ "Primeiro, selecione o grupo para esta atividade:".

Definition start_activity_command (update : Update) : M Z :=
  match update with
  | CallbackQuery _ _ _ => raise AttributeError
  | TextMessage uid chat _ _ =>
      DB.update_last_active uid >>>
      let* user := DB.get_user uid in
      match user with
      | None => reply_text chat register_first_text [] >>> ret END
      | Some user =>
          if negb (String.eqb (role user) "at") then
            reply_text chat only_ats_text [] >>> ret END
          else
            let* groups_ := DB.get_all_groups in
            let at_groups := List.filter (fun g => created_by g =? uid) groups_ in
            match at_groups with
            | [] => reply_text chat no_groups_text [] >>> ret END
            | _ =>
                user_data_set uid "at_groups" (VGroups at_groups) >>>
                let keyboard :=
                  (fun g => [(group_name g, "group_" +:+ str (group_id g))]) <$> at_groups in
                reply_text chat select_group_text keyboard >>>
                ret 6
            end
      end
  end.

Definition type_keyboard : InlineKeyboardMarkup :=
  [ [("Discussão Temática", "type_discussao")];
    [("Projeto Colaborativo", "type_projeto")];
    [("Jogo Social", "type_jogo")];
    [("Compartilhamento de Interesses", "type_compartilhamento")] ].

(** [next((g['name'] for g in at_groups if g['group_id'] == group_id), "Grupo")] *)
Fixpoint find_group_name (at_groups : list Group) (gid : Z) : string :=
  match at_groups with
  | [] => "Grupo"
  | g :: rest => if group_id g =? gid then group_name g else find_group_name rest gid
  end.

Definition process_activity_group (update : Update) : M Z :=
  match update with
  | TextMessage _ _ _ _ => raise AttributeError
  | CallbackQuery uid chat data =>
      answer >>>
      let* gid_text := item (split "_" data) 1 in
      let* gid := int_or_raise gid_text in
      user_data_set uid "activity_group_id" (VInt gid) >>>
      let* at_groups := user_data_get uid "at_groups" in
      let* name :=
        match at_groups with
        | VGroups l => ret (find_group_name l gid)
        | _ => raise AttributeError
        end in
      user_data_set uid "activity_group_name" (VStr name) >>>
      edit_message_text chat
        ("Grupo selecionado: " +:+ name +:+ nl +:+ nl
         +:+ "Qual tipo de atividade você deseja iniciar?") type_keyboard >>>
      ret 7
  end.

(** [type_names.get(activity_type, activity_type)] *)
Definition type_name (activity_type_ : string) : string :=
  if String.eqb activity_type_ "discussao" then "Discussão Temática"
  else if String.eqb activity_type_ "projeto" then "Projeto Colaborativo"
  else if String.eqb activity_type_ "jogo" then "Jogo Social"
  else if String.eqb activity_type_ "compartilhamento" then "Compartilhamento de Interesses"
  else activity_type_.

Definition process_activity_type (update : Update) : M Z :=
  match update with
  | TextMessage _ _ _ _ => raise AttributeError
  | CallbackQuery uid chat data =>
      answer >>>
      let* activity_type_ := item (split "_" data) 1 in
      user_data_set uid "activity_type" (VStr activity_type_) >>>
      user_data_set uid "activity_type_name" (VStr (type_name activity_type_)) >>>
      let* shown := user_data_str uid "activity_type_name" in
      edit_message_text chat
        ("Tipo de atividade: " +:+ shown +:+ nl +:+ nl
         +:+ "Qual será o título desta atividade?") [] >>>
      ret 8
  end.

Definition process_activity_title (update : Update) : M Z :=
  match update with
  | CallbackQuery _ _ _ => raise AttributeError
  | TextMessage uid chat _ text_ =>
      user_data_set uid "activity_title" (VStr text_) >>>
      let* shown := user_data_str uid "activity_title" in
      reply_text chat
        ("Título: " +:+ shown +:+ nl +:+ nl
         +:+ "Por favor, forneça uma breve descrição desta atividade:") [] >>>
      ret 9
  end.

Definition ask_duration_text : string :=
  "Descrição registrada. Qual será a duração desta atividade em minutos? (ex: 30, 60)".

Definition process_activity_desc (update : Update) : M Z :=
  match update with
  | CallbackQuery _ _ _ => raise AttributeError
  | TextMessage uid chat _ text_ =>
      user_data_set uid "activity_desc" (VStr text_) >>>
      reply_text chat ask_duration_text [] >>>
      ret END
  end.

Definition duration_range_prompt : string :=
  "Por favor, escolha uma duração entre 5 e 180 minutos.".
Definition duration_format_prompt : string :=
  "Por favor, digite apenas números para a duração em minutos.".

Definition activity_created_text (title_ name : string) : string :=
  "✅ Atividade '" +:+ title_ +:+ "' criada com sucesso para o grupo "
  +:+ "'" +:+ name +:+ "'!" +:+ nl +:+ nl
  +:+ "Você gostaria de ativar o guia de IA para esta atividade? "
  +:+ "O guia de IA pode ajudar a estruturar a atividade, gerenciar turnos "
  +:+ "e manter o foco no objetivo.".

Definition activity_failed_text : string :=
  "Desculpe, ocorreu um erro ao criar a atividade. Por favor, tente novamente.".

Definition guidance_keyboard (activity_id : string) : InlineKeyboardMarkup :=
  [ [("Ativar guia IA", "ai_guide_on_" +:+ activity_id)];
    [("Desativar guia IA", "ai_guide_off_" +:+ activity_id)] ].

Definition process_activity_duration (update : Update) : M Z :=
  match update with
  | CallbackQuery _ _ _ => raise AttributeError
  | TextMessage uid chat _ text_ =>
      let* r :=
        try_except
          (match int text_ with
           | None => raise ValueError
           | Some duration_ =>
               if (duration_ <? 5) || (duration_ >? 180) then
                 reply_text chat duration_range_prompt [] >>> ret (inl 9)
               else ret (inr duration_)
           end)
          (fun e =>
             match e with
             | ValueError => reply_text chat duration_format_prompt [] >>> ret (inl 9)
             | _ => raise e
             end) in
      match r with
      | inl state => ret state
      | inr duration_ =>
          user_data_set uid "activity_duration" (VInt duration_) >>>
          let* gid := user_data_int uid "activity_group_id" in
          let* activity_type_ := user_data_str uid "activity_type" in
          let* title_ := user_data_str uid "activity_title" in
          let* desc := user_data_str uid "activity_desc" in
          let* duration' := user_data_int uid "activity_duration" in
          let* activity_id :=
            DB.create_activity gid activity_type_ title_ desc uid None duration' in
          match activity_id with
          | Some id =>
              let* title' := user_data_str uid "activity_title" in
              let* name := user_data_str uid "activity_group_name" in
              reply_text chat (activity_created_text title' name) (guidance_keyboard id)
          | None => reply_text chat activity_failed_text []
          end >>>
          ret END
      end
  end.

End ActivityManagement.

(** ** main.py: the activity-creation conversation *)

Module Main.

Import PyStr.

(** A handler of python-telegram-bot: which updates it takes, and the
    callback, which returns the next state of the conversation. *)
Record Handler := {
  check_update : Update -> bool;
  callback : Update -> M Z }.

(** [Filters.command]: a message that starts with a bot command. *)
Definition is_command_text (text_ : string) : bool := startswith "/" text_.

(** The command a message starts with: the first word without the slash
    and without a [@botname] suffix, in lower case. *)
Definition command_of (text_ : string) : option string :=
  match text_ with
  | String "/" rest =>
      Some (lower (default EmptyString
                     (head (split "@" (default EmptyString (head (split " " rest)))))))
  | _ => None
  end.

Definition CommandHandler (command : string) (cb : Update -> M Z) : Handler :=
  {| check_update := fun u =>
       match u with
       | TextMessage _ _ _ text_ => bool_decide (command_of text_ = Some command)
       | CallbackQuery _ _ _ => false
       end;
     callback := cb |}.

(** [MessageHandler(Filters.text & ~Filters.command, cb)] *)
Definition TextHandler (cb : Update -> M Z) : Handler :=
  {| check_update := fun u =>
       match u with
       | TextMessage _ _ _ text_ => negb (is_command_text text_)
       | CallbackQuery _ _ _ => false
       end;
     callback := cb |}.

(** [CallbackQueryHandler(cb, pattern=r'^prefix')] *)
Definition CallbackQueryHandler (prefix : string) (cb : Update -> M Z) : Handler :=
  {| check_update := fun u =>
       match u with
       | CallbackQuery _ _ data => startswith prefix data
       | TextMessage _ _ _ _ => false
       end;
     callback := cb |}.

Record ConversationHandler := {
  entry_points : list Handler;
  states : list (Z * list Handler);
  fallbacks : list Handler }.

Definition cancel_text : string :=
  "Operação cancelada. O que você gostaria de fazer agora?" +:+ nl +:+ nl
  +:+ "Use /grupos para ver grupos disponíveis" +:+ nl
  +:+ "Use /atividades para ver atividades programadas".

Definition cancel (update : Update) : M Z :=
  match update with
  | CallbackQuery _ _ _ => raise AttributeError
  | TextMessage _ chat _ _ => reply_text chat cancel_text [] >>> ret END
  end.

Definition ACTIVITY_TYPE : Z := 6.
Definition ACTIVITY_TITLE : Z := 7.
Definition ACTIVITY_DESC : Z := 8.
Definition ACTIVITY_DURATION : Z := 9.

Definition activity_creation_handler : ConversationHandler :=
  {| entry_points :=
       [CommandHandler "iniciar_atividade" ActivityManagement.start_activity_command];
     states :=
       [ (ACTIVITY_TYPE,
          [CallbackQueryHandler "group_" ActivityManagement.process_activity_group]);
         (ACTIVITY_TITLE,
          [CallbackQueryHandler "type_" ActivityManagement.process_activity_type]);
         (ACTIVITY_DESC, [TextHandler ActivityManagement.process_activity_title]);
         (ACTIVITY_DURATION, [TextHandler ActivityManagement.process_activity_desc]) ];
     fallbacks := [CommandHandler "cancel" cancel] |}.

Definition conversation_key (u : Update) : Z * Z :=
  match u with
  | TextMessage uid chat _ _ => (chat, uid)
  | CallbackQuery uid chat _ => (chat, uid)
  end.

Fixpoint state_handlers (states_ : list (Z * list Handler)) (state : Z) : list Handler :=
  match states_ with
  | [] => []
  | (s, hs) :: rest => if s =? state then hs else state_handlers rest state
  end.

(** The handlers [ConversationHandler.check_update] tries: the entry points
    outside a conversation, else the handlers of the state, then the
    fallbacks. *)
Definition candidates (h : ConversationHandler) (state : option Z) : list Handler :=
  match state with
  | None => entry_points h
  | Some s => (state_handlers (states h) s ++ fallbacks h)%list
  end.

(** [ConversationHandler.update_state] *)
Definition update_state (key : Z * Z) (new_state : Z) : M unit :=
  modify (fun w =>
    with_conversations w
      (if new_state =? END then delete key (conversations w)
       else <[key := new_state]> (conversations w))).

(** One update offered to a conversation handler ([conversations w] is the
    handler's own dict): [true] when it took the update. *)
Definition handle_update (h : ConversationHandler) (u : Update) : M bool :=
  let key := conversation_key u in
  let* w := get in
  match List.find (fun hd => check_update hd u) (candidates h (conversations w !! key)) with
  | None => ret false
  | Some hd =>
      let* new_state := callback hd u in
      update_state key new_state >>>
      ret true
  end.

Definition error_text : string :=
  "Desculpe, ocorreu um erro ao processar seu comando. "
  +:+ "Por favor, tente novamente mais tarde.".

(** [error_handler]: the reply to the chat of the update that failed. *)
Definition error_handler (u : Update) : M unit :=
  match u with
  | TextMessage _ chat _ _ => reply_text chat error_text []
  | CallbackQuery _ chat _ => reply_text chat error_text []
  end.

(** Updates offered to the conversation handler one after the other; each
    is handled to its end, and an exception of a callback goes to the
    error handler. The result tells which updates the handler took. *)
Fixpoint process_updates (h : ConversationHandler) (us : list Update) : M (list bool) :=
  match us with
  | [] => ret []
  | u :: rest =>
      let* taken := try_except (handle_update h u) (fun _ => error_handler u >>> ret true) in
      let* others := process_updates h rest in
      ret (taken :: others)
  end.

(** The updates that reach a message handler, handled one after the other. *)
Definition serve (handler : Update -> M unit) (us : list Update) : M unit :=
  for_each us (fun u => try_except (handler u) (fun _ => error_handler u)).

(** The process right after it started: the dictionaries of main.py are
    empty and nothing has happened yet. *)
Definition started (d : Database) : World :=
  {| db := d; group_message_timestamps := ∅; private_chat_sessions := ∅;
     user_data := ∅; conversations := ∅; clock_reads := 0; http_requests := 0;
     trace := [] |}.

End Main.

(** * The model, continued: registration, groups and activity queries *)

(** ** Python strings: [str.strip] *)

Module PyStr2.

Import PyStr.

Definition is_byte (c : ascii) (n : N) : bool := (N_of_ascii c =? n)%N.

(** The white space of [str.isspace] within ASCII: tab to carriage
    return, the four separators U+001C..U+001F, and space. *)
Definition space1 (c : ascii) : bool :=
  let n := N_of_ascii c in
  (((9 <=? n) && (n <=? 13)) || ((28 <=? n) && (n <=? 32)))%N.

(** The white space of [str.isspace] outside ASCII, in UTF-8:
    U+0085 and U+00A0 (C2 85, C2 A0). *)
Definition space2 (c d : ascii) : bool :=
  is_byte c 194 && (is_byte d 133 || is_byte d 160).

(** U+1680 (E1 9A 80), U+2000..U+200A (E2 80 80..8A), U+2028, U+2029,
    U+202F (E2 80 A8, A9, AF), U+205F (E2 81 9F), U+3000 (E3 80 80). *)
Definition space3 (c d e : ascii) : bool :=
  (is_byte c 225 && is_byte d 154 && is_byte e 128)
  || (is_byte c 226 && is_byte d 128
      && (((128 <=? N_of_ascii e) && (N_of_ascii e <=? 138))%N
          || is_byte e 168 || is_byte e 169 || is_byte e 175))
  || (is_byte c 226 && is_byte d 129 && is_byte e 159)
  || (is_byte c 227 && is_byte d 128 && is_byte e 128).

(** [s.lstrip()] *)
Fixpoint lstrip (s : string) : string :=
  match s with
  | EmptyString => EmptyString
  | String c rest =>
      if space1 c then lstrip rest
      else
        match rest with
        | EmptyString => s
        | String d rest1 =>
            if space2 c d then lstrip rest1
            else
              match rest1 with
              | EmptyString => s
              | String e rest2 => if space3 c d e then lstrip rest2 else s
              end
        end
  end.

(** [lstrip] of the text read backwards: the bytes of a character come
    last byte first. *)
Fixpoint lstrip_reversed (s : string) : string :=
  match s with
  | EmptyString => EmptyString
  | String c rest =>
      if space1 c then lstrip_reversed rest
      else
        match rest with
        | EmptyString => s
        | String d rest1 =>
            if space2 d c then lstrip_reversed rest1
            else
              match rest1 with
              | EmptyString => s
              | String e rest2 => if space3 e d c then lstrip_reversed rest2 else s
              end
        end
  end.

Definition reversed (s : string) : string :=
  string_of_list_ascii (rev (list_ascii_of_string s)).

(** [s.rstrip()] *)
Definition rstrip (s : string) : string := reversed (lstrip_reversed (reversed s)).

(** [s.strip()] *)
Definition strip (s : string) : string := rstrip (lstrip s).

(** [[x.strip() for x in text.split(sep) if x.strip()]] *)
Definition stripped_items (sep : ascii) (text_ : string) : list string :=
  List.filter truthy (strip <$> split sep text_).

End PyStr2.

(** ** db.py: users, memberships, activity queries *)

Module DB2.

(** The keyword arguments [create_user] looks at; [None] is an argument
    that was not given. *)
Record Kwargs := {
  kw_age : option Z;
  kw_gender : option string;
  kw_emergency_contacts : option (list string);
  kw_academic_history : option string;
  kw_professionals : option (list string);
  kw_interests : option (list string);
  kw_anxiety_triggers : option (list string);
  kw_communication_preferences : option CommunicationPreferences }.

Definition no_kwargs : Kwargs :=
  {| kw_age := None; kw_gender := None; kw_emergency_contacts := None;
     kw_academic_history := None; kw_professionals := None; kw_interests := None;
     kw_anxiety_triggers := None; kw_communication_preferences := None |}.

(** The profile of a new autistic user. (Its [interaction_history], which
    only [add_interaction_to_history] writes and nothing reads, is not in
    [Profile].) *)
Definition new_profile (kwargs : Kwargs) : Profile :=
  {| age := kw_age kwargs;
     gender := kw_gender kwargs;
     emergency_contacts := default [] (kw_emergency_contacts kwargs);
     academic_history := default EmptyString (kw_academic_history kwargs);
     professionals := default [] (kw_professionals kwargs);
     interests := default [] (kw_interests kwargs);
     anxiety_triggers := default [] (kw_anxiety_triggers kwargs);
     communication_preferences :=
       Some (default {| style := Some "direct"; preferred_topics := [];
                        avoided_topics := []; notes := EmptyString |}
                     (kw_communication_preferences kwargs)) |}.

(** [update_one({"user_id": user_id}, {"$set": user_data}, upsert=True)]:
    every key of [user_data] is written, on the user's document if there
    is one; [profile] is among the keys only for the role 'autista'. *)
Definition create_user (uid : Z) (name role_ : string) (kwargs : Kwargs) : M bool :=
  try_except
    (let* t1 := now in
     let* t2 := now in
     DB.modify_db (fun d =>
       DB.set_users d
         (<[uid := {| user_id := uid; user_name := name; role := role_;
                      groups_of := [];
                      profile := if String.eqb role_ "autista"
                                 then Some (new_profile kwargs)
                                 else users d !! uid ≫= profile;
                      user_created_at := t1; user_last_active := t2 |}]> (users d))) >>>
     ret true)
    (fun _ => ret false).

Definition set_profile (p : Profile) (u : User) : User :=
  {| user_id := user_id u; user_name := user_name u; role := role u;
     groups_of := groups_of u; profile := Some p;
     user_created_at := user_created_at u; user_last_active := user_last_active u |}.

(** [update_user_profile] on a [profile_data] with the eight keys of
    [Profile], as the one call of it passes: each [profile.<key>] is set. *)
Definition update_user_profile (uid : Z) (profile_data : Profile) : M bool :=
  try_except
    (DB.modify_db (fun d => DB.set_users d (alter (set_profile profile_data) uid (users d))) >>>
     ret true)
    (fun _ => ret false).

(** [{"$addToSet": {"members": user_id}}] *)
Definition add_member (uid : Z) (g : Group) : Group :=
  {| group_id := group_id g; group_name := group_name g; theme := theme g;
     group_description := group_description g; created_by := created_by g;
     members := if bool_decide (uid ∈ members g) then members g
                else (members g ++ [uid])%list;
     max_members := max_members g;
     group_created_at := group_created_at g; group_last_active := group_last_active g;
     ai_mediator_enabled := ai_mediator_enabled g;
     ai_mediator_settings := ai_mediator_settings g |}.

Definition add_user_to_group (uid gid : Z) : M bool :=
  try_except
    (DB.modify_db (fun d => DB.set_groups d (alter (add_member uid) gid (groups d))) >>>
     DB.modify_db (fun d => DB.set_users d (alter (DB.add_group_to_user gid) uid (users d))) >>>
     ret true)
    (fun _ => ret false).

(** [.sort("scheduled_time", 1)]: earliest first; in this model documents
    of equal time stay in insertion order. *)
Fixpoint insert_asc (a : Activity) (l : list Activity) : list Activity :=
  match l with
  | [] => [a]
  | y :: l' =>
      if scheduled_time a <=? scheduled_time y then a :: l else y :: insert_asc a l'
  end.

Definition sort_asc (l : list Activity) : list Activity := foldr insert_asc [] l.

Definition get_group_activities (gid : Z) (status_ : string) : M (list Activity) :=
  let* w := get in
  ret (sort_asc
         (List.filter (fun a => (activity_group_id a =? gid) && String.eqb (status a) status_)
            (activities (db w)))).

Definition get_user_activities (uid : Z) : M (list Activity) :=
  let* user := DB.get_user uid in
  match user with
  | None => ret []
  | Some user =>
      match groups_of user with
      | [] => ret []
      | user_groups =>
          let* w := get in
          ret (sort_asc
                 (List.filter
                    (fun a => bool_decide (activity_group_id a ∈ user_groups)
                              && String.eqb (status a) "scheduled")
                    (activities (db w))))
      end
  end.

End DB2.

(** ** user_profile.py: the steps after the age *)

Module UserProfile2.

Import PyStr.

(** [context.user_data.get(key)] *)
Definition user_data_lookup (uid : Z) (key : string) : M (option pyval) :=
  let* w := get in ret (default ∅ (user_data w !! uid) !! key).

(** The value read, at the type the flow stores under the key. No flow
    stores a value of another type under these keys; the model raises
    there. *)
Definition as_int (v : option pyval) : M (option Z) :=
  match v with
  | None => ret None
  | Some (VInt n) => ret (Some n)
  | Some _ => raise AttributeError
  end.

Definition as_str (v : option pyval) : M (option string) :=
  match v with
  | None => ret None
  | Some (VStr s) => ret (Some s)
  | Some _ => raise AttributeError
  end.

Definition as_strs (v : option pyval) : M (option (list string)) :=
  match v with
  | None => ret None
  | Some (VStrs l) => ret (Some l)
  | Some _ => raise AttributeError
  end.

Definition contacts_prompt : string :=
  "Obrigado! Agora, por favor, forneça contatos de emergência (pais, responsáveis ou cuidadores)."
  +:+ nl +:+ nl
  +:+ "Digite no formato: Nome - Relação - Telefone" +:+ nl
  +:+ "Exemplo: Maria Silva - Mãe - (11) 98765-4321" +:+ nl +:+ nl
  +:+ "Você pode adicionar múltiplos contatos, um por linha.".

Definition process_profile_gender (update : Update) : M Z :=
  match update with
  | TextMessage _ _ _ _ => raise AttributeError
  | CallbackQuery uid chat data =>
      answer >>>
      user_data_set uid "profile_gender" (VStr data) >>>
      edit_message_text chat contacts_prompt [] >>>
      ret 12
  end.

Definition academic_prompt : string :=
  "Obrigado! Agora, conte-nos brevemente sobre seu histórico acadêmico." +:+ nl
  +:+ "Por exemplo: escolas que frequentou, nível de escolaridade, etc.".

Definition process_profile_contacts (update : Update) : M Z :=
  match update with
  | CallbackQuery _ _ _ => raise AttributeError
  | TextMessage uid chat _ text_ =>
      let contacts := PyStr2.stripped_items (ascii_of_nat 10) text_ in
      user_data_set uid "profile_contacts" (VStrs contacts) >>>
      reply_text chat academic_prompt [] >>>
      ret 13
  end.

Definition professionals_prompt : string :=
  "Obrigado! Agora, por favor, liste os profissionais com quem você já trabalhou ou trabalha atualmente (terapeutas, psicólogos, etc.)."
  +:+ nl +:+ nl
  +:+ "Digite no formato: Nome - Especialidade" +:+ nl
  +:+ "Exemplo: Dr. João - Psicólogo" +:+ nl +:+ nl
  +:+ "Você pode adicionar múltiplos profissionais, um por linha.".

Definition process_profile_academic (update : Update) : M Z :=
  match update with
  | CallbackQuery _ _ _ => raise AttributeError
  | TextMessage uid chat _ text_ =>
      user_data_set uid "profile_academic" (VStr text_) >>>
      reply_text chat professionals_prompt [] >>>
      ret 14
  end.

Definition interests_prompt : string :=
  "Obrigado! Agora, conte-nos sobre seus interesses especiais, hobbies ou tópicos favoritos."
  +:+ nl
  +:+ "Isso nos ajudará a sugerir grupos e atividades relevantes para você."
  +:+ nl +:+ nl
  +:+ "Por favor, liste seus interesses separados por vírgulas.".

Definition process_profile_professionals (update : Update) : M Z :=
  match update with
  | CallbackQuery _ _ _ => raise AttributeError
  | TextMessage uid chat _ text_ =>
      let professionals_ := PyStr2.stripped_items (ascii_of_nat 10) text_ in
      user_data_set uid "profile_professionals" (VStrs professionals_) >>>
      reply_text chat interests_prompt [] >>>
      ret 15
  end.

Definition triggers_prompt : string :=
  "Obrigado! Para nos ajudar a criar um ambiente confortável, poderia nos informar sobre gatilhos conhecidos de ansiedade ou desconforto?"
  +:+ nl +:+ nl
  +:+ "Por exemplo: barulhos altos, interrupções frequentes, certos tópicos, etc." +:+ nl
  +:+ "Por favor, liste-os separados por vírgulas.".

Definition process_profile_interests (update : Update) : M Z :=
  match update with
  | CallbackQuery _ _ _ => raise AttributeError
  | TextMessage uid chat _ text_ =>
      let interests_ := PyStr2.stripped_items "," text_ in
      user_data_set uid "profile_interests" (VStrs interests_) >>>
      reply_text chat triggers_prompt [] >>>
      ret 16
  end.

Definition communication_keyboard : InlineKeyboardMarkup :=
  [ [("Direta e objetiva", "direta")]; [("Detalhada e explicativa", "detalhada")] ].

Definition process_profile_triggers (update : Update) : M Z :=
  match update with
  | CallbackQuery _ _ _ => raise AttributeError
  | TextMessage uid chat _ text_ =>
      let triggers := PyStr2.stripped_items "," text_ in
      user_data_set uid "profile_triggers" (VStrs triggers) >>>
      reply_text chat "Quase terminando! Como você prefere que nos comuniquemos com você?"
        communication_keyboard >>>
      ret 17
  end.

Definition profile_saved_text : string :=
  "Perfil completo criado com sucesso!" +:+ nl +:+ nl
  +:+ "Agora você pode:" +:+ nl
  +:+ "• Ver grupos disponíveis com /grupos" +:+ nl
  +:+ "• Ver atividades programadas com /atividades" +:+ nl +:+ nl
  +:+ "Nossos agentes de IA estão disponíveis 24/7 para ajudar nas interações e oferecer suporte quando necessário. Se precisar de ajuda individual, você pode iniciar uma conversa privada a qualquer momento.".

Definition profile_failed_text : string :=
  "Desculpe, ocorreu um erro ao salvar seu perfil completo. No entanto, seu perfil básico foi criado e você pode começar a usar o bot. Você pode atualizar seu perfil mais tarde com o comando /perfil.".

(** The [communication_preferences] written here is a dict with the one
    key [style]; the other fields of the record, which no code reads, are
    left empty. *)
Definition process_profile_communication (update : Update) : M Z :=
  match update with
  | TextMessage _ _ _ _ => raise AttributeError
  | CallbackQuery uid chat data =>
      answer >>>
      user_data_set uid "profile_communication" (VStr data) >>>
      let* age_ := let* v := user_data_lookup uid "profile_age" in as_int v in
      let* gender_ := let* v := user_data_lookup uid "profile_gender" in as_str v in
      let* contacts := let* v := user_data_lookup uid "profile_contacts" in as_strs v in
      let* academic := let* v := user_data_lookup uid "profile_academic" in as_str v in
      let* professionals_ :=
        let* v := user_data_lookup uid "profile_professionals" in as_strs v in
      let* interests_ := let* v := user_data_lookup uid "profile_interests" in as_strs v in
      let* triggers := let* v := user_data_lookup uid "profile_triggers" in as_strs v in
      let* style_ := let* v := user_data_lookup uid "profile_communication" in as_str v in
      let profile_data :=
        {| age := age_;
           gender := gender_;
           emergency_contacts := default [] contacts;
           academic_history := default EmptyString academic;
           professionals := default [] professionals_;
           interests := default [] interests_;
           anxiety_triggers := default [] triggers;
           communication_preferences :=
             Some {| style := Some (default "direta" style_); preferred_topics := [];
                     avoided_topics := []; notes := EmptyString |} |} in
      let* success := DB2.update_user_profile uid profile_data in
      (if success then edit_message_text chat profile_saved_text []
       else edit_message_text chat profile_failed_text []) >>>
      ret END
  end.

Definition update_keyboard : InlineKeyboardMarkup :=
  [ [("Interesses", "update_interests")];
    [("Gatilhos de ansiedade", "update_triggers")];
    [("Preferências de comunicação", "update_communication")];
    [("Contatos de emergência", "update_contacts")] ].

Definition update_profile_command (update : Update) : M Z :=
  match update with
  | CallbackQuery uid _ _ => DB.get_user uid >>> raise AttributeError
  | TextMessage uid chat _ _ =>
      let* user := DB.get_user uid in
      match user with
      | None =>
          reply_text chat
            "Você precisa se registrar primeiro. Use /start para criar seu perfil." [] >>>
          ret END
      | Some user =>
          if String.eqb (role user) "autista" then
            reply_text chat
              ("Olá, " +:+ user_name user
               +:+ "! O que você gostaria de atualizar em seu perfil?") update_keyboard >>>
            ret 15
          else
            reply_text chat
              ("Olá, " +:+ user_name user
               +:+ "! Como AT, seu perfil é mais simples e não requer atualizações adicionais.")
              [] >>>
            ret END
      end
  end.

End UserProfile2.

(** ** group_management.py: listing, joining, and the first steps of the
    group flow *)

Module GroupManagement2.

Import PyStr.
Import GroupManagement.

Definition no_groups_text : string :=
  "Não há grupos disponíveis no momento." +:+ nl +:+ nl
  +:+ "Se você é um AT, pode criar um novo grupo com /criar_grupo.".

Definition members_count (group : Group) : Z := Z.of_nat (length (members group)).

Definition group_entry (group : Group) (at_name : string) : string :=
  "*" +:+ group_name group +:+ "*" +:+ nl
  +:+ "📝 Tema: " +:+ theme group +:+ nl
  +:+ "👥 Membros: " +:+ str (members_count group) +:+ "/" +:+ str (max_members group) +:+ nl
  +:+ "👨‍⚕️ AT: " +:+ at_name +:+ nl
  +:+ "🤖 Mediador IA: "
  +:+ (if ai_mediator_enabled group then "✅ Ativo" else "❌ Inativo") +:+ nl
  +:+ "ℹ️ " +:+ group_description group +:+ nl +:+ nl.

(** The first loop of [list_groups]: one entry per group, with the name of
    its facilitator looked up. *)
Fixpoint group_entries (groups_ : list Group) : M string :=
  match groups_ with
  | [] => ret EmptyString
  | group :: rest =>
      let* at_ := DB.get_user (created_by group) in
      let at_name := match at_ with Some u => user_name u | None => "Desconhecido" end in
      let* others := group_entries rest in
      ret (group_entry group at_name +:+ others)
  end.

Definition join_button (group : Group) : list (string * string) :=
  [("Entrar: " +:+ group_name group, "join_" +:+ str (group_id group))].

(** The second loop: a button for each group that is not full. *)
Definition join_keyboard (groups_ : list Group) : InlineKeyboardMarkup :=
  join_button <$> List.filter (fun g => members_count g <? max_members g) groups_.

Definition list_groups (update : Update) : M unit :=
  match update with
  | CallbackQuery uid _ _ =>
      DB.update_last_active uid >>>
      let* groups_ := DB.get_all_groups in
      match groups_ with
      | [] => raise AttributeError
      | _ => group_entries groups_ >>> raise AttributeError
      end
  | TextMessage uid chat _ _ =>
      DB.update_last_active uid >>>
      let* groups_ := DB.get_all_groups in
      match groups_ with
      | [] => reply_text chat no_groups_text []
      | _ =>
          let* entries := group_entries groups_ in
          let message := "📋 *Grupos Disponíveis:*" +:+ nl +:+ nl +:+ entries in
          let keyboard := join_keyboard groups_ in
          match keyboard with
          | [] => reply_text chat message []
          | _ => reply_text chat message keyboard
          end
      end
  end.

Definition joined_text (name : string) : string :=
  "Você entrou no grupo '" +:+ name +:+ "' com sucesso!" +:+ nl +:+ nl
  +:+ "Em uma implementação completa, você seria adicionado ao grupo do Telegram. Para este MVP, considere-se membro do grupo e use /atividades para ver as atividades programadas.".

Definition join_failed_text : string :=
  "Desculpe, ocorreu um erro ao entrar no grupo. Por favor, tente novamente.".

Definition join_group_callback (update : Update) : M unit :=
  match update with
  | TextMessage _ _ _ _ => raise AttributeError
  | CallbackQuery uid chat data =>
      answer >>>
      let* gid_text := item (split "_" data) 1 in
      let* gid := int_or_raise gid_text in
      let* success := DB2.add_user_to_group uid gid in
      if success then
        let* group := DB.get_group gid in
        let name := match group with Some g => group_name g | None => "Grupo" end in
        edit_message_text chat (joined_text name) []
      else edit_message_text chat join_failed_text []
  end.

Definition register_first_text : string :=
  "Você precisa se registrar primeiro. Use /start para criar seu perfil.".
Definition only_ats_text : string :=
  "Desculpe, apenas Auxiliares Terapêuticos (ATs) podem criar grupos.".
Definition ask_name_text : string :=
  "Vamos criar um novo grupo temático." +:+ nl +:+ nl +:+ "Qual será o nome do grupo?".

Definition create_group_start (update : Update) : M Z :=
  match update with
  | CallbackQuery uid _ _ =>
      DB.update_last_active uid >>>
      let* user := DB.get_user uid in
      raise AttributeError
  | TextMessage uid chat _ _ =>
      DB.update_last_active uid >>>
      let* user := DB.get_user uid in
      match user with
      | None => reply_text chat register_first_text [] >>> ret END
      | Some user =>
          if negb (String.eqb (role user) "at") then
            reply_text chat only_ats_text [] >>> ret END
          else reply_text chat ask_name_text [] >>> ret 2
      end
  end.

Definition process_group_name (update : Update) : M Z :=
  match update with
  | CallbackQuery _ _ _ => raise AttributeError
  | TextMessage uid chat _ text_ =>
      user_data_set uid "group_name" (VStr text_) >>>
      let* shown := user_data_str uid "group_name" in
      reply_text chat
        ("Ótimo! O nome do grupo será: " +:+ shown +:+ nl +:+ nl
         +:+ "Agora, qual será o tema principal deste grupo? (ex: videogames, música, ciência)")
        [] >>>
      ret 3
  end.

Definition process_group_theme (update : Update) : M Z :=
  match update with
  | CallbackQuery _ _ _ => raise AttributeError
  | TextMessage uid chat _ text_ =>
      user_data_set uid "group_theme" (VStr text_) >>>
      let* shown := user_data_str uid "group_theme" in
      reply_text chat
        ("Tema definido: " +:+ shown +:+ nl +:+ nl
         +:+ "Por favor, forneça uma breve descrição do propósito deste grupo:") [] >>>
      ret 4
  end.

Definition ask_max_text : string :=
  "Descrição registrada. Qual será o número máximo de participantes? (recomendado: 8-12)".

Definition process_group_desc (update : Update) : M Z :=
  match update with
  | CallbackQuery _ _ _ => raise AttributeError
  | TextMessage uid chat _ text_ =>
      user_data_set uid "group_desc" (VStr text_) >>>
      reply_text chat ask_max_text [] >>>
      ret 5
  end.

End GroupManagement2.

(** ** activity_management.py: the guidance switch *)

Module ActivityManagement2.

Import PyStr.
Import GroupManagement.

Definition guidance_toggled_text (status_text : string) : string :=
  "Guia de IA " +:+ status_text +:+ " para esta atividade." +:+ nl +:+ nl
  +:+ "Em uma implementação completa, todos os membros do grupo seriam notificados. Para este MVP, considere a atividade criada e pronta para começar."
  +:+ nl +:+ nl
  +:+ "Use /atividades para ver todas as atividades programadas.".

Definition toggle_ai_guidance (update : Update) : M unit :=
  match update with
  | TextMessage _ _ _ _ => raise AttributeError
  | CallbackQuery uid chat data =>
      answer >>>
      let data_parts := split "_" data in
      let* ai_status := item data_parts 2 in
      let* activity_id := item data_parts 3 in
      let status_text := if String.eqb ai_status "on" then "ativado" else "desativado" in
      edit_message_text chat (guidance_toggled_text status_text) []
  end.

End ActivityManagement2.

(** ** main.py: registration, and the other conversations *)

Module Main2.

Import PyStr.
Import Main.

Definition NAME : Z := 0.
Definition ROLE : Z := 1.
Definition GROUP_NAME : Z := 2.
Definition GROUP_THEME : Z := 3.
Definition GROUP_DESC : Z := 4.
Definition GROUP_MAX : Z := 5.
Definition PROFILE_AGE : Z := 10.
Definition PROFILE_GENDER : Z := 11.
Definition PROFILE_CONTACTS : Z := 12.
Definition PROFILE_ACADEMIC : Z := 13.
Definition PROFILE_PROFESSIONALS : Z := 14.
Definition PROFILE_INTERESTS : Z := 15.
Definition PROFILE_TRIGGERS : Z := 16.
Definition PROFILE_COMMUNICATION : Z := 17.

Definition welcome_back_text (name : string) : string :=
  "Olá, " +:+ name +:+ "! Bem-vindo de volta ao AutiConnect Bot." +:+ nl +:+ nl
  +:+ "O que você gostaria de fazer hoje?" +:+ nl +:+ nl
  +:+ "Use /grupos para ver grupos disponíveis" +:+ nl
  +:+ "Use /atividades para ver atividades programadas" +:+ nl
  +:+ "Use /perfil para atualizar seu perfil".

Definition welcome_text : string :=
  "Olá! Sou o AutiConnect Bot. Estou aqui para ajudar pessoas autistas a interagirem em um ambiente seguro e estruturado."
  +:+ nl +:+ nl
  +:+ "Vamos criar seu perfil. Qual é o seu nome?".

Definition start (update : Update) : M Z :=
  match update with
  | CallbackQuery uid _ _ => DB.get_user uid >>> raise AttributeError
  | TextMessage uid chat _ _ =>
      let* user := DB.get_user uid in
      match user with
      | Some user => reply_text chat (welcome_back_text (user_name user)) [] >>> ret END
      | None => reply_text chat welcome_text [] >>> ret NAME
      end
  end.

Definition role_keyboard : InlineKeyboardMarkup :=
  [ [("Pessoa Autista", "autista")]; [("Auxiliar Terapêutico (AT)", "at")] ].

Definition process_name (update : Update) : M Z :=
  match update with
  | CallbackQuery _ _ _ => raise AttributeError
  | TextMessage uid chat _ text_ =>
      user_data_set uid "name" (VStr text_) >>>
      let* shown := GroupManagement.user_data_str uid "name" in
      reply_text chat
        ("Obrigado, " +:+ shown +:+ "." +:+ nl +:+ nl
         +:+ "Você é uma pessoa autista ou um Auxiliar Terapêutico (AT)?") role_keyboard >>>
      ret ROLE
  end.

Definition create_failed_text : string :=
  "Desculpe, ocorreu um erro ao criar seu perfil. Por favor, tente novamente com /start.".

Definition basic_profile_text (name : string) : string :=
  "Perfil básico criado, " +:+ name
  +:+ "! Agora vamos personalizar seu perfil para que possamos oferecer uma experiência melhor adaptada às suas necessidades."
  +:+ nl +:+ nl
  +:+ "Qual é a sua idade? (Digite apenas o número)".

Definition at_profile_text (name : string) : string :=
  "Perfil de AT criado com sucesso, " +:+ name +:+ "!" +:+ nl +:+ nl
  +:+ "Como Auxiliar Terapêutico, você pode:" +:+ nl
  +:+ "• Ver grupos disponíveis com /grupos" +:+ nl
  +:+ "• Ver atividades programadas com /atividades" +:+ nl
  +:+ "• Criar novos grupos com /criar_grupo" +:+ nl
  +:+ "• Iniciar atividades estruturadas com /iniciar_atividade" +:+ nl +:+ nl
  +:+ "Seu papel é fundamental para supervisionar os agentes de IA e intervir quando necessário.".

Definition process_role (update : Update) : M Z :=
  match update with
  | TextMessage _ _ _ _ => raise AttributeError
  | CallbackQuery uid chat data =>
      answer >>>
      let role_ := data in
      let* name := GroupManagement.user_data_str uid "name" in
      let* success := DB2.create_user uid name role_ DB2.no_kwargs in
      if negb success then
        edit_message_text chat create_failed_text [] >>> ret END
      else if String.eqb role_ "autista" then
        edit_message_text chat (basic_profile_text name) [] >>> ret PROFILE_AGE
      else
        edit_message_text chat (at_profile_text name) [] >>> ret END
  end.

Definition registration_handler : ConversationHandler :=
  {| entry_points := [CommandHandler "start" start];
     states :=
       [ (NAME, [TextHandler process_name]);
         (ROLE, [CallbackQueryHandler EmptyString process_role]);
         (PROFILE_AGE, [TextHandler UserProfile.process_profile_age]);
         (PROFILE_GENDER, [CallbackQueryHandler EmptyString UserProfile2.process_profile_gender]);
         (PROFILE_CONTACTS, [TextHandler UserProfile2.process_profile_contacts]);
         (PROFILE_ACADEMIC, [TextHandler UserProfile2.process_profile_academic]);
         (PROFILE_PROFESSIONALS, [TextHandler UserProfile2.process_profile_professionals]);
         (PROFILE_INTERESTS, [TextHandler UserProfile2.process_profile_interests]);
         (PROFILE_TRIGGERS, [TextHandler UserProfile2.process_profile_triggers]);
         (PROFILE_COMMUNICATION,
          [CallbackQueryHandler EmptyString UserProfile2.process_profile_communication]) ];
     fallbacks := [CommandHandler "cancel" cancel] |}.

(** [lambda u, c: PROFILE_INTERESTS] *)
Definition stay_in_interests (update : Update) : M Z := ret PROFILE_INTERESTS.

Definition profile_update_handler : ConversationHandler :=
  {| entry_points := [CommandHandler "perfil" UserProfile2.update_profile_command];
     states := [ (PROFILE_INTERESTS, [CallbackQueryHandler EmptyString stay_in_interests]) ];
     fallbacks := [CommandHandler "cancel" cancel] |}.

Definition group_creation_handler : ConversationHandler :=
  {| entry_points := [CommandHandler "criar_grupo" GroupManagement2.create_group_start];
     states :=
       [ (GROUP_NAME, [TextHandler GroupManagement2.process_group_name]);
         (GROUP_THEME, [TextHandler GroupManagement2.process_group_theme]);
         (GROUP_DESC, [TextHandler GroupManagement2.process_group_desc]);
         (GROUP_MAX, [TextHandler GroupManagement.process_group_max]) ];
     fallbacks := [CommandHandler "cancel" cancel] |}.

End Main2.

(** * Vocabulary of the properties *)

(** [w'] is [w] with the same view and some more allowed events. *)
Definition frame {X : Type} (view : World -> X) (allowed : Event -> Prop) : relation World :=
  fun w w' =>
    view w' = view w /\ exists l, trace w' = (trace w ++ l)%list /\ Forall allowed l.

(** A computation that keeps the view and only does allowed operations. *)
Definition stable {X : Type} (view : World -> X) (allowed : Event -> Prop) {A} (m : M A)
    : Prop :=
  forall env w, frame view allowed w (m env w).2.

(** The value [context.user_data] holds for a user under a key. *)
Definition stored (w : World) (uid : Z) (key : string) : option pyval :=
  default ∅ (user_data w !! uid) !! key.

(** A handler of a bounded integer field: on a text that is not a number,
    or a number outside [lo..hi], it returns its own state and all it does
    is send the re-prompt. *)
Definition rejects (handler : Update -> M Z) (state lo hi : Z)
    (format_prompt range_prompt : string) : Prop :=
  forall uid chat chat_type text_ env w,
    (PyStr.int text_ = None ->
     handler (TextMessage uid chat chat_type text_) env w =
     (Ok state, with_trace w (trace w ++ [EvReply chat format_prompt []])))
    /\ (forall n, PyStr.int text_ = Some n -> n < lo \/ hi < n ->
        handler (TextMessage uid chat chat_type text_) env w =
        (Ok state, with_trace w (trace w ++ [EvReply chat range_prompt []]))).

(** ** A small deployment to run the handlers on *)

Module Sample.

(** A clock that advances two minutes between readings. *)
Definition slow_clock (n : nat) : Z := 1700000000000000 + Z.of_nat n * 120000000.

Definition no_key : Env :=
  {| clock := slow_clock; api_key := None; templates := ∅;
     http_post := fun _ _ => HttpRaises |}.

(** The endpoint answers every request with an empty completion. *)
Definition empty_completion : Env :=
  {| clock := slow_clock; api_key := Some "sk-test"; templates := ∅;
     http_post := fun _ _ => HttpResponse 200 (BodyContent (Some EmptyString)) |}.

(** The endpoint answers every request with the same advice. *)
Definition answering : Env :=
  {| clock := slow_clock; api_key := Some "sk-test"; templates := ∅;
     http_post := fun _ _ => HttpResponse 200 (BodyContent (Some "Respire fundo.")) |}.

Definition default_settings : MediatorSettings :=
  {| intervention_frequency := "medium"; activity_suggestions := true;
     conflict_mediation := true; support_private_chats := true |}.

Definition ana : User :=
  {| user_id := 7; user_name := "Ana"; role := "at"; groups_of := [1; 2];
     profile := None; user_created_at := 0; user_last_active := 0 |}.

Definition rui_profile : Profile :=
  {| age := Some 19; gender := Some "masculino"; emergency_contacts := [];
     academic_history := EmptyString; professionals := [];
     interests := ["xadrez"]; anxiety_triggers := ["barulho"];
     communication_preferences :=
       Some {| style := Some "direta"; preferred_topics := [];
               avoided_topics := []; notes := EmptyString |} |}.

Definition rui : User :=
  {| user_id := 9; user_name := "Rui"; role := "autista"; groups_of := [1; 2];
     profile := Some rui_profile; user_created_at := 0; user_last_active := 0 |}.

Definition jogos : Group :=
  {| group_id := 1; group_name := "Jogos"; theme := "videogames";
     group_description := "Conversas sobre jogos"; created_by := 7; members := [7; 9];
     max_members := 10; group_created_at := 0; group_last_active := 0;
     ai_mediator_enabled := true; ai_mediator_settings := default_settings |}.

Definition musica : Group :=
  {| group_id := 2; group_name := "Música"; theme := "música";
     group_description := "Conversas sobre música"; created_by := 7; members := [7; 9];
     max_members := 10; group_created_at := 0; group_last_active := 0;
     ai_mediator_enabled := true; ai_mediator_settings := default_settings |}.

Definition store : Database :=
  {| users := {[ 7 := ana; 9 := rui ]}; groups := {[ 1 := jogos; 2 := musica ]};
     activities := []; messages := []; interactions := [] |}.

(** The facilitator has answered the first three questions of the group
    flow. *)
Definition creating_group : World :=
  with_user_data (Main.started store)
    {[ 7 := {[ "group_name" := VStr "Livros"; "group_theme" := VStr "leitura";
               "group_desc" := VStr "Clube de leitura" ]} ]}.

(** The endpoint answers every request with a completion whose content
    is null. *)
Definition absent_completion : Env :=
  {| clock := slow_clock; api_key := Some "sk-test"; templates := ∅;
     http_post := fun _ _ => HttpResponse 200 (BodyContent None) |}.



End Sample.

(** The three failure modes of a request and the fourth the wrapper also
    catches (a success status with a body that cannot be read). *)
Definition oracle_fails (env : Env) : Prop :=
  LLM.has_api_key env = false
  \/ forall n prompt,
       match http_post env n prompt with
       | HttpRaises => True
       | HttpResponse code body => code <> 200 \/ body = BodyInvalid
       end.

Definition apologies : list string :=
  [LLM.api_key_missing; LLM.api_error; LLM.call_failed].

(** What [_call_llm_api] returns for the n-th request of the process. *)
Definition oracle_reply (env : Env) (n : nat) (prompt : string) : option string :=
  if LLM.has_api_key env then
    match http_post env n prompt with
    | HttpRaises => Some LLM.call_failed
    | HttpResponse code body =>
        if code =? 200 then
          match body with
          | BodyContent c => c
          | BodyInvalid => Some LLM.call_failed
          end
        else Some LLM.api_error
    end
  else Some LLM.api_key_missing.

(** The world after the call: one more request, if there is a key. *)
Definition after_call (env : Env) (w : World) (prompt : string) : World :=
  if LLM.has_api_key env then
    with_trace (with_http_requests w (S (http_requests w))) (trace w ++ [EvHttpPost prompt])
  else w.

(** The users [fetch_users] finds. *)
Definition fetched (d : Database) (user_ids : list Z) : list (Z * User) :=
  omap (fun uid => (fun u => (uid, u)) <$> users d !! uid) user_ids.

Definition alert_match (text_ : string) : bool :=
  LLM.any_keyword_in LLM.alert_keywords (PyStr.lower text_).

Definition no_send (e : Event) : Prop :=
  match e with EvSend _ _ => False | _ => True end.

(** An automated mediator reply in group [g]. *)
Definition mediator_reply (g : Z) (e : Event) : Prop :=
  exists r, e = EvSend g (Mediation.mediator_prefix +:+ r).

Definition quiet (e : Event) : Prop := forall g, ~ mediator_reply g e.

Definition timestamps_view (w : World) : gmap Z Z := group_message_timestamps w.

Definition reply_at (tr : list Event) (g : Z) (i : nat) : Prop :=
  exists e, tr !! i = Some e /\ mediator_reply g e.

(** What one handled group message does to the timestamps and the trace. *)
Definition group_message_step (w w' : World) : Prop :=
  (group_message_timestamps w' = group_message_timestamps w
   /\ exists l, trace w' = (trace w ++ l)%list /\ Forall quiet l)
  \/ exists chat r t l1 l3,
       trace w' = (trace w ++ l1 ++ EvSend chat (Mediation.mediator_prefix +:+ r)
                               :: EvNow t :: l3)%list
       /\ group_message_timestamps w' = <[chat := t]> (group_message_timestamps w)
       /\ Forall quiet l1 /\ Forall quiet l3
       /\ forall a, group_message_timestamps w !! chat = Some a ->
                    exists b, EvNow b ∈ l1 /\ Mediation.five_minutes < b - a.

(** The invariant of the throttle: the timestamp of a group is a reading
    taken after its last reply, and two replies in a group have two
    readings between them that are more than five minutes apart. *)
Definition stamped (w : World) : Prop :=
  forall g i, reply_at (trace w) g i ->
    exists a p, group_message_timestamps w !! g = Some a
                /\ (i < p)%nat /\ trace w !! p = Some (EvNow a).

Definition spaced (tr : list Event) : Prop :=
  forall g i j, (i < j)%nat -> reply_at tr g i -> reply_at tr g j ->
    exists p q a b, (i < p)%nat /\ (p < q)%nat /\ (q < j)%nat
      /\ tr !! p = Some (EvNow a) /\ tr !! q = Some (EvNow b)
      /\ Mediation.five_minutes < b - a.

Definition any_event (e : Event) : Prop := True.

Definition messages_view (w : World) : list Message := messages (db w).

(** The message as [store_message] writes it. *)
Definition stored_message (uid : Z) (gid : option Z) (text_ : string) (env : Env)
    (w : World) : Message :=
  {| msg_user_id := uid; msg_group_id := gid; text := text_;
     msg_type := "text"; timestamp := clock env (clock_reads w) |}.


(** The facilitators to tell: the creators of the sender's groups that the
    store has, a creator id of 0 counting as none. *)
Definition creators (d : Database) (gids : list Z) : list Z :=
  omap (fun gid =>
          match groups d !! gid with
          | Some g => if created_by g =? 0 then None else Some (created_by g)
          | None => None
          end) gids.

(** The messages sent with [context.bot.send_message] among some events. *)
Definition sent (l : list Event) : list (Z * string) :=
  omap (fun e => match e with EvSend c m => Some (c, m) | _ => None end) l.

Definition private_view (w : World) : gmap Z Group * gmap Z Z :=
  (groups (db w), private_chat_sessions w).

Definition activities_view (w : World) : list Activity := activities (db w).

Definition no_create_activity (e : Event) : Prop :=
  match e with EvCreateActivity _ => False | _ => True end.

(** The conversation a facilitator has to create an activity, to its last
    answer. *)
Definition activity_dialogue : list Update :=
  [ TextMessage 7 7 "private" "/iniciar_atividade";
    CallbackQuery 7 7 "group_1";
    CallbackQuery 7 7 "type_jogo";
    TextMessage 7 7 "private" "Xadrez";
    TextMessage 7 7 "private" "Partida de xadrez em duplas";
    TextMessage 7 7 "private" "30" ].

Definition mediator_flags (w : World) : gmap Z bool :=
  ai_mediator_enabled <$> groups (db w).

(** The world after the facilitator gave 10 as the size of the group. *)
Definition group_created : World :=
  (GroupManagement.process_group_max (TextMessage 7 7 "private" "10")
     Sample.no_key Sample.creating_group).2.

Definition new_group_id : Z := 1700000000.

(** Nothing is said to a chat: no message is sent, replied or edited. *)
Definition no_message (e : Event) : Prop :=
  match e with
  | EvSend _ _ | EvReply _ _ _ | EvEdit _ _ _ => False
  | _ => True
  end.

(** The prompts posted to the endpoint among some events. *)
Definition posted (l : list Event) : list string :=
  omap (fun e => match e with EvHttpPost p => Some p | _ => None end) l.

(** The reading of the clock the throttle of a group would take for a
    message handled from [w]: the one after the readings of
    [store_message]. *)
Definition throttle_reading (env : Env) (w : World) (chat : Z) : Z :=
  clock env (clock_reads w + (if chat =? 0 then 2 else 3)).

(** The throttle lets the mediator in for a message handled from [w]: the
    group has no timestamp, or the reading of the clock is more than five
    minutes past it. *)
Definition throttle_open (env : Env) (w : World) (chat : Z) : Prop :=
  match group_message_timestamps w !! chat with
  | None => True
  | Some last_intervention =>
      Mediation.five_minutes < throttle_reading env w chat - last_intervention
  end.

(** What the group handler sends when the mediator replies [r] in the
    group [g] of chat [chat]. *)
Definition group_sends (chat : Z) (g : Group) (r : string) : list (Z * string) :=
  (chat, Mediation.mediator_prefix +:+ r)
  :: (if alert_match r && negb (created_by g =? 0)
      then [(created_by g, Mediation.group_alert_text (group_name g))]
      else []).

(** Nothing goes out: no request to the endpoint, no message to a chat. *)
Definition silent (e : Event) : Prop :=
  match e with
  | EvHttpPost _ | EvSend _ _ | EvReply _ _ _ | EvEdit _ _ _ => False
  | _ => True
  end.

(** The private handler does not take the message into the support path:
    the sender is not registered, is not an autistic member, sent a
    command, or has no open session and sent nothing that suggests a need
    for support. *)
Definition outside_support (w : World) (uid : Z) (text_ : string) : Prop :=
  match users (db w) !! uid with
  | None => True
  | Some user =>
      role user <> "autista"
      \/ PyStr.startswith "/" text_ = true
      \/ (private_chat_sessions w !! uid = None /\ Mediation.needs_support text_ = false)
  end.

(** The value of a decimal numeral read after the digits of [acc]. *)
Fixpoint uint_val (d : Decimal.uint) (acc : Z) : Z :=
  match d with
  | Decimal.Nil => acc
  | Decimal.D0 l => uint_val l (10 * acc)
  | Decimal.D1 l => uint_val l (10 * acc + 1)
  | Decimal.D2 l => uint_val l (10 * acc + 2)
  | Decimal.D3 l => uint_val l (10 * acc + 3)
  | Decimal.D4 l => uint_val l (10 * acc + 4)
  | Decimal.D5 l => uint_val l (10 * acc + 5)
  | Decimal.D6 l => uint_val l (10 * acc + 6)
  | Decimal.D7 l => uint_val l (10 * acc + 7)
  | Decimal.D8 l => uint_val l (10 * acc + 8)
  | Decimal.D9 l => uint_val l (10 * acc + 9)
  end.

(** An int that [str()] and [int()] convert: of at most 4300 digits, the
    limit of the interpreter. *)
Definition convertible (n : Z) : Prop := Z.abs n < 10 ^ 4300.

(** [c not in s] *)
Fixpoint free_of (c : ascii) (s : string) : bool :=
  match s with
  | EmptyString => true
  | String a rest => negb (Ascii.eqb a c) && free_of c rest
  end.

(** A text of ASCII white space. *)
Fixpoint all_space (s : string) : bool :=
  match s with
  | EmptyString => true
  | String a rest => PyStr2.space1 a && all_space rest
  end.

(** A text with none of the white space [int()] skips. *)
Fixpoint no_space (s : string) : bool :=
  match s with
  | EmptyString => true
  | String a rest => negb (PyStr.is_space a) && no_space rest
  end.

(** A text of ASCII characters. *)
Fixpoint ascii_only (s : string) : bool :=
  match s with
  | EmptyString => true
  | String a rest => (N_of_ascii a <? 128)%N && ascii_only rest
  end.

(** A text of decimal digits and minus signs. *)
Fixpoint numeral_chars (s : string) : bool :=
  match s with
  | EmptyString => true
  | String a rest => (PyStr.is_digit a || Ascii.eqb a "-") && numeral_chars rest
  end.

(** An entry of a list the user types: not empty, nothing to strip, and
    free of the separator. *)
Definition clean_item (sep : ascii) (item : string) : Prop :=
  item <> EmptyString /\ PyStr2.strip item = item /\ free_of sep item = true.

(** Earlier or at the same time. *)
Definition earlier (a b : Activity) : Prop := scheduled_time a <= scheduled_time b.

(** The query of [get_user_activities]. *)
Definition scheduled_in (user_groups : list Z) (a : Activity) : bool :=
  bool_decide (activity_group_id a ∈ user_groups) && String.eqb (status a) "scheduled".

(** The groups collection is keyed by the [group_id] of its documents. *)
Definition keyed_by_id (d : Database) : Prop :=
  forall k g, groups d !! k = Some g -> group_id g = k.

(** The documents [get_all_groups] returns. *)
Definition all_groups (d : Database) : list Group := (map_to_list (groups d)).*2.

(** The group handler does not let the mediator in: the chat is no group,
    the group is not stored, its mediator is disabled, or the last reply
    is five minutes old or less. *)
Definition mediator_closed (env : Env) (w : World) (chat : Z) (chat_type : string) : Prop :=
  (chat_type <> "group" /\ chat_type <> "supergroup")
  \/ match groups (db w) !! chat with
     | None => True
     | Some g =>
         ai_mediator_enabled g = false
         \/ exists last_intervention,
              group_message_timestamps w !! chat = Some last_intervention
              /\ throttle_reading env w chat - last_intervention <= Mediation.five_minutes
     end.

(** What the log keeps of a message: the sender, the group and the text. *)
Definition log_entry (m : Message) : Z * option Z * string :=
  (msg_user_id m, msg_group_id m, text m).

(** The entry a handled update leaves in the log: one for a text message
    (with the chat as group in the group handler, with no group in the
    private handler), none for a button press. *)
Definition logged_as (in_group : bool) (u : Update) : list (Z * option Z * string) :=
  match u with
  | TextMessage uid chat _ text_ => [(uid, if in_group then Some chat else None, text_)]
  | CallbackQuery _ _ _ => []
  end.

Definition sessions_view (w : World) : gmap Z Z := private_chat_sessions w.

(** The store and the answers kept for the users. *)
Definition data_view (w : World) : Database * gmap Z (gmap string pyval) :=
  (db w, user_data w).

(** The role of each registered user. *)
Definition roles (w : World) : gmap Z string := role <$> users (db w).

(** A registered user whose role is 'at'. *)
Definition facilitator (w : World) (uid : Z) : Prop := roles w !! uid = Some "at".

(** The user an update comes from. *)
Definition sender (u : Update) : Z := (Main.conversation_key u).2.

Definition group_view (w : World) : gmap Z Group * gmap Z string * gmap (Z * Z) Z :=
  (groups (db w), roles w, conversations w).

(** What a step of the group flow may do to the groups: nothing, or store
    one group created by the sender of the update. *)
Definition creates_for (uid : Z) (before after : gmap Z Group) : Prop :=
  after = before \/ exists gid g, after = <[gid := g]> before /\ created_by g = uid.

(** The invariant of the group conversation, relative to the world [w0]
    it started from: the roles are those of [w0]; whoever is in the
    conversation is a facilitator; and every stored group was there in
    [w0] or was created by a facilitator. *)
Definition group_flow_invariant (w0 w : World) : Prop :=
  roles w = roles w0
  /\ (forall chat uid s, conversations w !! (chat, uid) = Some s -> facilitator w0 uid)
  /\ (forall gid g, groups (db w) !! gid = Some g ->
        groups (db w0) !! gid = Some g \/ facilitator w0 (created_by g)).

(** [context.user_data[key] = v] as a change of the world. *)
Definition set_answer (w : World) (uid : Z) (key : string) (v : pyval) : World :=
  with_user_data w (<[uid := <[key := v]> (default ∅ (user_data w !! uid))]> (user_data w)).

(** The state of the conversation after a callback returned [s]. *)
Definition next_state (key : Z * Z) (s : Z) (c : gmap (Z * Z) Z) : gmap (Z * Z) Z :=
  if s =? END then delete key c else <[key := s]> c.

(** A text that is not a command. *)
Definition plain (text_ : string) : Prop := PyStr.startswith "/" text_ = false.

(** The group [create_group] stores. *)
Definition created_group (gid : Z) (name theme_ desc : string) (creator max_ t1 t2 : Z)
    : Group :=
  {| group_id := gid; group_name := name; theme := theme_; group_description := desc;
     created_by := creator; members := [creator]; max_members := max_;
     group_created_at := t1; group_last_active := t2; ai_mediator_enabled := true;
     ai_mediator_settings :=
       {| intervention_frequency := "medium"; activity_suggestions := true;
          conflict_mediation := true; support_private_chats := true |} |}.

(** The document [create_user] stores for a user who had none. *)
Definition registered (uid : Z) (name role_ : string) (t1 t2 : Z) : User :=
  {| user_id := uid; user_name := name; role := role_; groups_of := [];
     profile := if String.eqb role_ "autista" then Some (DB2.new_profile DB2.no_kwargs)
                else None;
     user_created_at := t1; user_last_active := t2 |}.

(** The profile the registration flow puts together from the answers. *)
Definition typed_profile (age_ : Z) (gender_ contacts academic professionals_ interests_
    triggers style_ : string) : Profile :=
  {| age := Some age_; gender := Some gender_;
     emergency_contacts := PyStr2.stripped_items (ascii_of_nat 10) contacts;
     academic_history := academic;
     professionals := PyStr2.stripped_items (ascii_of_nat 10) professionals_;
     interests := PyStr2.stripped_items "," interests_;
     anxiety_triggers := PyStr2.stripped_items "," triggers;
     communication_preferences :=
       Some {| style := Some style_; preferred_topics := []; avoided_topics := [];
               notes := EmptyString |} |}.

(** The conversation of a user who is no facilitator, answering as if
    the flow had started. *)
Definition intruder_dialogue : list Update :=
  [ TextMessage 9 9 "private" "/criar_grupo";
    TextMessage 9 9 "private" "Meu grupo";
    TextMessage 9 9 "private" "tema";
    TextMessage 9 9 "private" "descrição";
    TextMessage 9 9 "private" "10" ].

(** * Properties *)

Section StringFacts.

Import PyStr.

Lemma append_cons (c : ascii) (s t : string) : String c s +:+ t = String c (s +:+ t).
Proof. reflexivity. Qed.

Lemma append_nil (t : string) : EmptyString +:+ t = t.
Proof. reflexivity. Qed.

Lemma startswith_spec (p s : string) :
  startswith p s = true <-> exists post, s = p +:+ post.
Proof.
  revert s. induction p as [|a p IH]; intros s; simpl.
  - split; [intros _; exists s; reflexivity | reflexivity].
  - destruct s as [|b s].
    + split; [discriminate | intros [post H]; discriminate].
    + destruct (Ascii.eqb_spec a b) as [->|Hne].
      * rewrite IH. split; intros [post H]; exists post.
        -- rewrite append_cons. now rewrite H.
        -- rewrite append_cons in H. now inversion H.
      * split; [discriminate|]. intros [post H]. rewrite append_cons in H. congruence.
Qed.

Lemma contains_unfold (needle hay : string) :
  contains needle hay =
  if startswith needle hay then true
  else match hay with EmptyString => false | String _ hay' => contains needle hay' end.
Proof. destruct hay; reflexivity. Qed.

Lemma contains_spec (needle hay : string) :
  contains needle hay = true <-> exists pre post, hay = pre +:+ needle +:+ post.
Proof.
  split.
  - induction hay as [|c hay IH]; rewrite contains_unfold.
    + destruct (startswith needle EmptyString) eqn:E; [|discriminate].
      intros _. apply startswith_spec in E as [post E]. exists EmptyString, post. exact E.
    + destruct (startswith needle (String c hay)) eqn:E.
      * intros _. apply startswith_spec in E as [post E]. exists EmptyString, post. exact E.
      * intros H. destruct (IH H) as (pre & post & ->). exists (String c pre), post. reflexivity.
  - intros (pre & post & ->). induction pre as [|c pre IH]; rewrite contains_unfold.
    + rewrite append_nil. replace (startswith needle (needle +:+ post)) with true; [reflexivity|].
      symmetry. apply startswith_spec. now exists post.
    + rewrite append_cons. destruct (startswith needle _); [reflexivity | exact IH].
Qed.

Lemma any_keyword_in_spec (keywords : list string) (t : string) :
  LLM.any_keyword_in keywords t = true <->
  exists keyword, keyword ∈ keywords /\ contains keyword t = true.
Proof.
  induction keywords as [|k ks IH]; simpl.
  - split; [discriminate | intros (k & H & _); inversion H].
  - destruct (contains k t) eqn:E.
    + split; [intros _; exists k; split; [left | exact E] | reflexivity].
    + rewrite IH. split; intros (k' & Hin & Hc); exists k'; split; auto.
      * now right.
      * apply elem_of_cons in Hin as [-> | Hin]; [congruence | exact Hin].
Qed.

End StringFacts.

(** ** The alert policy *)

(** C9. The alert policy is a pure function of the message text: whatever
    the context messages, the configuration and the state of the program,
    two calls on the same text return the same boolean and leave the state
    as it was; the boolean is true exactly when the lower-cased text
    contains one of the alert keywords. *)
Theorem alert_policy_pure (text_ : string) (context1 context2 : list Message)
    (env1 env2 : Env) (w1 w2 : World) :
  exists b : bool,
    LLM._analyze_for_alert (Some text_) context1 env1 w1 = (Ok b, w1)
    /\ LLM._analyze_for_alert (Some text_) context2 env2 w2 = (Ok b, w2)
    /\ (b = true <->
        exists keyword pre post,
          keyword ∈ LLM.alert_keywords
          /\ PyStr.lower text_ = pre +:+ keyword +:+ post).
Proof.
  exists (LLM.any_keyword_in LLM.alert_keywords (PyStr.lower text_)).
  split; [reflexivity|]. split; [reflexivity|].
  rewrite any_keyword_in_spec. split.
  - intros (k & Hin & Hc). apply contains_spec in Hc as (pre & post & Hc). eauto.
  - intros (k & pre & post & Hin & Hc). exists k. split; [exact Hin|].
    apply contains_spec. eauto.
Qed.

(** ** What a computation leaves unchanged *)

Section Frames.

Context {X : Type} (view : World -> X) (allowed : Event -> Prop).

Local Abbreviation frame := (frame view allowed).
Local Abbreviation stable := (stable view allowed).

Lemma frame_refl w : frame w w.
Proof. split; [reflexivity|]. exists []. split; [now rewrite app_nil_r | constructor]. Qed.

Lemma frame_trans w1 w2 w3 : frame w1 w2 -> frame w2 w3 -> frame w1 w3.
Proof.
  intros [V1 (l1 & T1 & F1)] [V2 (l2 & T2 & F2)]. split; [congruence|].
  exists (l1 ++ l2)%list. split; [rewrite T2, T1; now rewrite app_assoc|].
  now apply Forall_app.
Qed.

Lemma stable_ret {A} (a : A) : stable (ret a).
Proof. intros env w. apply frame_refl. Qed.

Lemma stable_raise {A} (e : exn) : stable (raise e : M A).
Proof. intros env w. apply frame_refl. Qed.

Lemma stable_ask : stable ask.
Proof. intros env w. apply frame_refl. Qed.

Lemma stable_get : stable get.
Proof. intros env w. apply frame_refl. Qed.

Lemma stable_bind {A B} (m : M A) (k : A -> M B) :
  stable m -> (forall a, stable (k a)) -> stable (bind m k).
Proof.
  intros Hm Hk env w. unfold bind. specialize (Hm env w).
  destruct (m env w) as [[a|e] w1]; simpl in *; [|exact Hm].
  eapply frame_trans; [exact Hm | apply Hk].
Qed.

Lemma stable_try {A} (m : M A) (h : exn -> M A) :
  stable m -> (forall e, stable (h e)) -> stable (try_except m h).
Proof.
  intros Hm Hh env w. unfold try_except. specialize (Hm env w).
  destruct (m env w) as [[a|e] w1]; simpl in *; [exact Hm|].
  eapply frame_trans; [exact Hm | apply Hh].
Qed.

Lemma stable_modify (f : World -> World) :
  (forall w, view (f w) = view w /\ trace (f w) = trace w) -> stable (modify f).
Proof.
  intros H env w. simpl. destruct (H w) as [V T]. split; [exact V|].
  exists []. split; [now rewrite app_nil_r | constructor].
Qed.

Lemma stable_for_each {A} (l : list A) (body : A -> M unit) :
  (forall x, stable (body x)) -> stable (for_each l body).
Proof.
  intros H. induction l as [|x l IH]; simpl; [apply stable_ret|].
  apply stable_bind; [apply H | intros _; exact IH].
Qed.

(** The view looks at neither the trace nor the counters of the clock and
    of the endpoint. *)
Hypothesis view_trace : forall w t, view (with_trace w t) = view w.
Hypothesis view_clock : forall w n, view (with_clock_reads w n) = view w.
Hypothesis view_http : forall w n, view (with_http_requests w n) = view w.

Lemma stable_emit (e : Event) : allowed e -> stable (emit e).
Proof.
  intros He env w. simpl. split; [apply view_trace|].
  exists [e]. split; [reflexivity | repeat constructor; exact He].
Qed.

Lemma stable_now : (forall t, allowed (EvNow t)) -> stable now.
Proof.
  intros He env w. simpl. split; [now rewrite view_trace, view_clock|].
  eexists [_]. split; [reflexivity | repeat constructor; apply He].
Qed.

Lemma stable_requests_post (prompt : string) :
  allowed (EvHttpPost prompt) -> stable (requests_post prompt).
Proof.
  intros He env w. unfold requests_post.
  assert (frame w (with_trace (with_http_requests w (S (http_requests w)))
                              (trace w ++ [EvHttpPost prompt]))) as F.
  { split; [now rewrite view_trace, view_http|].
    eexists [_]. split; [reflexivity | repeat constructor; exact He]. }
  destruct (http_post env (http_requests w) prompt); exact F.
Qed.

End Frames.

(** Breaks a computation into its operations; the side conditions left are
    about the events emitted and the fields written. *)
Ltac frame_side := intros; simpl; try solve [exact I | reflexivity | split; reflexivity | tauto].

Ltac frame_step :=
  lazymatch goal with
  | |- stable _ _ (ret _) => apply stable_ret
  | |- stable _ _ (raise _) => apply stable_raise
  | |- stable _ _ ask => apply stable_ask
  | |- stable _ _ get => apply stable_get
  | |- stable _ _ (bind _ _) => apply stable_bind; [ | intros ? ]
  | |- stable _ _ (try_except _ _) => apply stable_try; [ | intros ? ]
  | |- stable _ _ (for_each _ _) => apply stable_for_each; intros ?
  | |- stable _ _ (emit _) => apply stable_emit; frame_side
  | |- stable _ _ now => apply stable_now; frame_side
  | |- stable _ _ (requests_post _) => apply stable_requests_post; frame_side
  | |- stable _ _ (modify _) => apply stable_modify; frame_side
  | |- stable _ _ (match ?x with _ => _ end) => destruct x
  end.

Ltac frame_unfold :=
  lazymatch goal with
  | |- stable _ _ ?m =>
      let h := lazymatch m with
               | ?f _ _ _ _ _ _ _ => f | ?f _ _ _ _ _ _ => f | ?f _ _ _ _ _ => f
               | ?f _ _ _ _ => f | ?f _ _ _ => f | ?f _ _ => f | ?f _ => f | ?f => f
               end in
      unfold h
  end.

Create HintDb frame.

Ltac frame_auto := repeat first [ frame_step | solve [auto with frame nocore] | frame_unfold ].

(** ** Running a handler on a symbolic world *)

Arguments LLM.any_keyword_in : simpl never.
Arguments LLM.individual_prompt : simpl never.
Arguments LLM.group_prompt : simpl never.
Arguments DB.recent : simpl never.
Arguments DB.object_id : simpl never.
Arguments PyStr.lower : simpl never.
Arguments PyStr.int : simpl never.
Arguments PyStr.str : simpl never.
Arguments LLM.has_api_key : simpl never.

Ltac run :=
  cbv beta iota zeta delta
    [try_except bind emit modify get ret ask raise now requests_post time_time
     send_message reply_text edit_message_text answer user_data_set user_data_get
     GroupManagement.user_data_str GroupManagement.user_data_int
     GroupManagement.item GroupManagement.int_or_raise
     DB.modify_db DB.update_last_active DB.get_user DB.get_group DB.get_all_groups
     DB.get_recent_messages DB.store_ai_interaction DB.create_group DB.create_activity
     DB.update_group_ai_settings DB.truthy_id
     LLM._analyze_for_alert fst snd];
  cbn [db group_message_timestamps private_chat_sessions user_data conversations
       clock_reads http_requests trace
       with_db with_timestamps with_sessions with_user_data with_conversations
       with_clock_reads with_http_requests with_trace
       users groups activities messages interactions
       DB.set_users DB.set_groups DB.set_activities DB.set_messages DB.set_interactions].

Tactic Notation "run" "in" hyp(H) :=
  cbv beta iota zeta delta
    [try_except bind emit modify get ret ask raise now requests_post time_time
     send_message reply_text edit_message_text answer user_data_set user_data_get
     GroupManagement.user_data_str GroupManagement.user_data_int
     GroupManagement.item GroupManagement.int_or_raise
     DB.modify_db DB.update_last_active DB.get_user DB.get_group DB.get_all_groups
     DB.get_recent_messages DB.store_ai_interaction DB.create_group DB.create_activity
     DB.update_group_ai_settings DB.truthy_id
     LLM._analyze_for_alert fst snd] in H;
  cbn [db group_message_timestamps private_chat_sessions user_data conversations
       clock_reads http_requests trace
       with_db with_timestamps with_sessions with_user_data with_conversations
       with_clock_reads with_http_requests with_trace
       users groups activities messages interactions
       DB.set_users DB.set_groups DB.set_activities DB.set_messages DB.set_interactions]
    in H.

(** ** Bounded integer fields *)

Lemma out_of_range (n lo hi : Z) : n < lo \/ hi < n -> (n <? lo) || (n >? hi) = true.
Proof. intros H. apply orb_true_iff. rewrite Z.ltb_lt, Z.gtb_gt. lia. Qed.

Lemma in_range (n lo hi : Z) : lo <= n <= hi -> (n <? lo) || (n >? hi) = false.
Proof.
  intros H. apply orb_false_iff. split; [apply Z.ltb_ge; lia|].
  rewrite Z.gtb_ltb. apply Z.ltb_ge. lia.
Qed.

Lemma process_profile_age_rejects :
  rejects UserProfile.process_profile_age 10 5 100
    UserProfile.age_format_prompt UserProfile.age_range_prompt.
Proof.
  intros uid chat ct text_ env w. unfold UserProfile.process_profile_age. split.
  - intros ->. reflexivity.
  - intros n -> Hn. run. now rewrite (out_of_range n 5 100 Hn).
Qed.

Lemma process_group_max_rejects :
  rejects GroupManagement.process_group_max 5 2 50
    GroupManagement.max_format_prompt GroupManagement.max_range_prompt.
Proof.
  intros uid chat ct text_ env w. unfold GroupManagement.process_group_max. split.
  - intros ->. reflexivity.
  - intros n -> Hn. run. now rewrite (out_of_range n 2 50 Hn).
Qed.

Lemma process_activity_duration_rejects :
  rejects ActivityManagement.process_activity_duration 9 5 180
    ActivityManagement.duration_format_prompt ActivityManagement.duration_range_prompt.
Proof.
  intros uid chat ct text_ env w. unfold ActivityManagement.process_activity_duration. split.
  - intros ->. reflexivity.
  - intros n -> Hn. run. now rewrite (out_of_range n 5 180 Hn).
Qed.

Lemma process_profile_age_accepts uid chat ct text_ n env w :
  PyStr.int text_ = Some n -> 5 <= n <= 100 ->
  let r := UserProfile.process_profile_age (TextMessage uid chat ct text_) env w in
  r.1 = Ok 11 /\ stored r.2 uid "profile_age" = Some (VInt n).
Proof.
  intros Hi Hn. unfold UserProfile.process_profile_age. rewrite Hi. run.
  rewrite (in_range n 5 100 Hn). run. split; [reflexivity|].
  unfold stored. run. rewrite lookup_insert_eq. simpl. apply lookup_insert_eq.
Qed.

Lemma stored_insert_ne w uid key key' v (d : gmap Z (gmap string pyval)) :
  key <> key' ->
  default ∅ (<[uid := <[key := v]> (default ∅ (user_data w !! uid))]> d !! uid) !! key'
  = stored w uid key'.
Proof. intros H. rewrite lookup_insert_eq. simpl. now rewrite lookup_insert_ne. Qed.

Lemma stored_insert_eq w uid key v (d : gmap Z (gmap string pyval)) :
  default ∅ (<[uid := <[key := v]> (default ∅ (user_data w !! uid))]> d !! uid) !! key
  = Some v.
Proof. rewrite lookup_insert_eq. simpl. apply lookup_insert_eq. Qed.

Lemma process_group_max_accepts uid chat ct text_ n env w name theme_ desc :
  PyStr.int text_ = Some n -> 2 <= n <= 50 ->
  stored w uid "group_name" = Some (VStr name) ->
  stored w uid "group_theme" = Some (VStr theme_) ->
  stored w uid "group_desc" = Some (VStr desc) ->
  let r := GroupManagement.process_group_max (TextMessage uid chat ct text_) env w in
  let gid := clock env (clock_reads w) / microseconds_per_second in
  r.1 = Ok END
  /\ exists g, groups (db r.2) !! gid = Some g
       /\ max_members g = n /\ created_by g = uid /\ group_name g = name
       /\ ai_mediator_enabled g = true.
Proof.
  intros Hi Hn H1 H2 H3. unfold GroupManagement.process_group_max. rewrite Hi. run.
  rewrite (in_range n 2 50 Hn). run.
  rewrite !stored_insert_ne by discriminate. rewrite H1. run.
  rewrite !stored_insert_ne by discriminate. rewrite H2. run.
  rewrite !stored_insert_ne by discriminate. rewrite H3. run.
  rewrite stored_insert_eq. run.
  rewrite !stored_insert_ne by discriminate. rewrite H1. run.
  split; [reflexivity|]. eexists. split; [apply lookup_insert_eq|]. simpl. auto.
Qed.

Lemma process_activity_duration_accepts uid chat ct text_ n env w gid kind title_ desc name :
  PyStr.int text_ = Some n -> 5 <= n <= 180 ->
  stored w uid "activity_group_id" = Some (VInt gid) ->
  stored w uid "activity_type" = Some (VStr kind) ->
  stored w uid "activity_title" = Some (VStr title_) ->
  stored w uid "activity_desc" = Some (VStr desc) ->
  stored w uid "activity_group_name" = Some (VStr name) ->
  let r := ActivityManagement.process_activity_duration (TextMessage uid chat ct text_) env w in
  r.1 = Ok END
  /\ exists a, activities (db r.2) = (activities (db w) ++ [a])%list
       /\ duration a = n /\ activity_group_id a = gid /\ title a = title_.
Proof.
  intros Hi Hn H1 H2 H3 H4 H5. unfold ActivityManagement.process_activity_duration.
  rewrite Hi. run. rewrite (in_range n 5 180 Hn). run.
  rewrite !stored_insert_ne by discriminate. rewrite H1. run.
  rewrite !stored_insert_ne by discriminate. rewrite H2. run.
  rewrite !stored_insert_ne by discriminate. rewrite H3. run.
  rewrite !stored_insert_ne by discriminate. rewrite H4. run.
  rewrite stored_insert_eq. run.
  rewrite !stored_insert_ne by discriminate. rewrite H3. run.
  rewrite !stored_insert_ne by discriminate. rewrite H5. run.
  split; [reflexivity|]. eexists. split; [reflexivity|]. simpl. auto.
Qed.

(** C4. Every bounded integer field (age 5..100, max members 2..50,
    duration 5..180) is rejected when the text is not a number or the
    number is below or above the bounds: the handler returns its own state
    and only sends the re-prompt. A number within the bounds, the bounds
    5 and 100, 2 and 50, 5 and 180 among them, is accepted: the age handler
    goes on to the gender state with the age kept, the max-members handler
    creates the group and the duration handler creates the activity (from
    the fields the flow collected before), and both end the conversation.
    The number of a text is the one [int()] gives: the bounds are read as
    themselves, and so are digits of other scripts and of full width,
    between white space of any kind (here no-break spaces), and digits
    around an underscore; the separator U+001C is not skipped, and a word
    or the empty text is no number. *)
Theorem bounded_integer_fields :
  rejects UserProfile.process_profile_age 10 5 100
    UserProfile.age_format_prompt UserProfile.age_range_prompt
  /\ rejects GroupManagement.process_group_max 5 2 50
       GroupManagement.max_format_prompt GroupManagement.max_range_prompt
  /\ rejects ActivityManagement.process_activity_duration 9 5 180
       ActivityManagement.duration_format_prompt ActivityManagement.duration_range_prompt
  /\ (forall uid chat chat_type text_ n env w,
        PyStr.int text_ = Some n -> 5 <= n <= 100 ->
        let r := UserProfile.process_profile_age (TextMessage uid chat chat_type text_) env w in
        r.1 = Ok 11 /\ stored r.2 uid "profile_age" = Some (VInt n))
  /\ (forall uid chat chat_type text_ n env w name theme_ desc,
        PyStr.int text_ = Some n -> 2 <= n <= 50 ->
        stored w uid "group_name" = Some (VStr name) ->
        stored w uid "group_theme" = Some (VStr theme_) ->
        stored w uid "group_desc" = Some (VStr desc) ->
        let r := GroupManagement.process_group_max (TextMessage uid chat chat_type text_) env w in
        let gid := clock env (clock_reads w) / microseconds_per_second in
        r.1 = Ok END
        /\ exists g, groups (db r.2) !! gid = Some g
             /\ max_members g = n /\ created_by g = uid /\ group_name g = name
             /\ ai_mediator_enabled g = true)
  /\ (forall uid chat chat_type text_ n env w gid kind title_ desc name,
        PyStr.int text_ = Some n -> 5 <= n <= 180 ->
        stored w uid "activity_group_id" = Some (VInt gid) ->
        stored w uid "activity_type" = Some (VStr kind) ->
        stored w uid "activity_title" = Some (VStr title_) ->
        stored w uid "activity_desc" = Some (VStr desc) ->
        stored w uid "activity_group_name" = Some (VStr name) ->
        let r := ActivityManagement.process_activity_duration
                   (TextMessage uid chat chat_type text_) env w in
        r.1 = Ok END
        /\ exists a, activities (db r.2) = (activities (db w) ++ [a])%list
             /\ duration a = n /\ activity_group_id a = gid /\ title a = title_)
  /\ PyStr.int "5" = Some 5 /\ PyStr.int "100" = Some 100
  /\ PyStr.int "2" = Some 2 /\ PyStr.int "50" = Some 50 /\ PyStr.int "180" = Some 180
  /\ PyStr.int "１８" = Some 18 /\ PyStr.int " ١٢ " = Some 12
  /\ PyStr.int (String (ascii_of_nat 28) "5") = None /\ PyStr.int "1_0" = Some 10
  /\ PyStr.int "dez" = None /\ PyStr.int EmptyString = None.
Proof.
  split; [exact process_profile_age_rejects|].
  split; [exact process_group_max_rejects|].
  split; [exact process_activity_duration_rejects|].
  split; [exact process_profile_age_accepts|].
  split; [exact process_group_max_accepts|].
  split; [exact process_activity_duration_accepts|].
  repeat split; reflexivity.
Qed.

Lemma bounded_integer_fields_witness :
  (UserProfile.process_profile_age
     (TextMessage 9 9 "private" "100") Sample.no_key (Main.started Sample.store)).1 = Ok 11
  /\ GroupManagement.process_group_max
       (TextMessage 7 7 "private" "51") Sample.no_key Sample.creating_group
     = (Ok 5, with_trace Sample.creating_group
                (trace Sample.creating_group
                 ++ [EvReply 7 GroupManagement.max_range_prompt []]))
  /\ (GroupManagement.process_group_max
        (TextMessage 7 7 "private" "2") Sample.no_key Sample.creating_group).1 = Ok END.
Proof.
  destruct bounded_integer_fields as (_ & Hmax & _ & Hage & Hgroup & _).
  split; [|split].
  - apply (Hage 9 9 "private" "100" 100 Sample.no_key (Main.started Sample.store));
      [reflexivity | lia].
  - apply (Hmax 7 7 "private" "51" Sample.no_key Sample.creating_group) with (n := 51);
      [reflexivity | lia].
  - apply (Hgroup 7 7 "private" "2" 2 Sample.no_key Sample.creating_group
             "Livros" "leitura" "Clube de leitura");
      [reflexivity | lia | reflexivity | reflexivity | reflexivity].
Defined.

(** ** The Oracle wrapper *)

Lemma call_llm_api_run (prompt : string) (env : Env) (w : World) :
  LLM._call_llm_api prompt env w =
  (Ok (oracle_reply env (http_requests w) prompt), after_call env w prompt).
Proof.
  unfold LLM._call_llm_api, oracle_reply, after_call. run.
  destruct (LLM.has_api_key env); simpl; [|reflexivity].
  destruct (http_post env (http_requests w) prompt) as [|code body]; [reflexivity|].
  destruct (code =? 200); [|reflexivity]. destruct body; reflexivity.
Qed.

Lemma after_call_db env w prompt : db (after_call env w prompt) = db w.
Proof. unfold after_call. now destruct (LLM.has_api_key env). Qed.

Lemma after_call_clock_reads env w prompt :
  clock_reads (after_call env w prompt) = clock_reads w.
Proof. unfold after_call. now destruct (LLM.has_api_key env). Qed.

Lemma after_call_timestamps env w prompt :
  group_message_timestamps (after_call env w prompt) = group_message_timestamps w.
Proof. unfold after_call. now destruct (LLM.has_api_key env). Qed.

Lemma after_call_sessions env w prompt :
  private_chat_sessions (after_call env w prompt) = private_chat_sessions w.
Proof. unfold after_call. now destruct (LLM.has_api_key env). Qed.

Lemma after_call_trace env w prompt :
  trace (after_call env w prompt) =
  (trace w ++ if LLM.has_api_key env then [EvHttpPost prompt] else [])%list.
Proof.
  unfold after_call. destruct (LLM.has_api_key env); [reflexivity|].
  now rewrite app_nil_r.
Qed.

Ltac after_call :=
  rewrite ?after_call_db, ?after_call_clock_reads, ?after_call_timestamps,
    ?after_call_sessions, ?after_call_trace.

Lemma oracle_reply_fails (env : Env) (n : nat) (prompt : string) :
  oracle_fails env ->
  exists apology, oracle_reply env n prompt = Some apology /\ apology ∈ apologies.
Proof.
  unfold oracle_reply, apologies. intros [Hk | Hp].
  - rewrite Hk. eexists. split; [reflexivity | (rewrite !elem_of_cons; tauto)].
  - destruct (LLM.has_api_key env); [|eexists; split; [reflexivity | (rewrite !elem_of_cons; tauto)]].
    pose proof (Hp n prompt) as Hn. clear Hp.
    destruct (http_post env n prompt) as [|code body].
    + eexists. split; [reflexivity | (rewrite !elem_of_cons; tauto)].
    + destruct (Z.eqb_spec code 200) as [->|Hne].
      * destruct Hn as [Hc | ->]; [contradiction|].
        eexists. split; [reflexivity | (rewrite !elem_of_cons; tauto)].
      * eexists. split; [reflexivity | (rewrite !elem_of_cons; tauto)].
Qed.

Lemma apologies_nonempty (apology : string) :
  apology ∈ apologies -> Mediation.reply_text_of (Some apology) = Some apology.
Proof.
  unfold apologies. rewrite !elem_of_cons, elem_of_nil.
  intros [-> | [-> | [-> | []]]]; reflexivity.
Qed.

Lemma apologies_raise_no_alert (apology : string) :
  apology ∈ apologies ->
  LLM.any_keyword_in LLM.alert_keywords (PyStr.lower apology) = false.
Proof.
  unfold apologies. rewrite !elem_of_cons, elem_of_nil.
  intros [-> | [-> | [-> | []]]]; vm_compute; reflexivity.
Qed.

(** ** Running the two moderation calls *)

Lemma fetch_users_run (user_ids : list Z) (env : Env) (w : World) :
  LLM.fetch_users user_ids env w =
  (Ok (fetched (db w) user_ids), with_trace w (trace w ++ (EvGetUser <$> user_ids))).
Proof.
  revert w. induction user_ids as [|uid ids IH]; intros w.
  - simpl. unfold ret. rewrite app_nil_r. now destruct w.
  - cbn [LLM.fetch_users]. run. rewrite IH. run.
    rewrite <- app_assoc. cbn [fmap list_fmap app].
    unfold fetched. cbn [omap list_omap]. destruct (users (db w) !! uid); reflexivity.
Qed.

Lemma mediate_run env w gid recent uid g :
  groups (db w) !! gid = Some g ->
  let users_ := fetched (db w) (LLM.sender_ids recent) in
  let prompt := LLM.group_prompt env g users_ (LLM.group_turn users_ <$> rev recent) in
  exists w',
    LLM.mediate_group_conversation gid recent uid env w =
    (Ok match oracle_reply env (http_requests w) prompt with
        | Some s => (Some s, alert_match s)
        | None => (Some LLM.group_mediation_failed, false)
        end, w').
Proof.
  intros Hg. unfold LLM.mediate_group_conversation. run. rewrite Hg.
  rewrite fetch_users_run. run. rewrite call_llm_api_run. run.
  destruct (oracle_reply env (http_requests w) _) as [s|]; run; eexists; reflexivity.
Qed.

Lemma provide_run env w uid text_ user :
  users (db w) !! uid = Some user -> role user = "autista" ->
  let prompt :=
    LLM.individual_prompt env user
      (LLM.individual_conversation uid (DB.recent (db w) None (Some uid) 10)) in
  exists w' i,
    LLM.provide_individual_support uid text_ env w =
    (Ok (oracle_reply env (http_requests w) prompt, alert_match text_), w')
    /\ interactions (db w') = (interactions (db w) ++ [i])%list
    /\ input_prompt i = prompt /\ input_message i = Some text_
    /\ (LLM.has_api_key env = true -> EvHttpPost prompt ∈ trace w').
Proof.
  intros Hu Hr. unfold LLM.provide_individual_support. run. rewrite Hu, Hr.
  cbn [String.eqb Ascii.eqb Bool.eqb negb]. run. rewrite call_llm_api_run. run.
  eexists. eexists. split; [reflexivity|]. cbn. after_call. cbn.
  split; [reflexivity|]. split; [reflexivity|]. split; [reflexivity|].
  intros Hk. rewrite Hk. rewrite !elem_of_app. left. left. right.
  apply list_elem_of_singleton. reflexivity.
Qed.

(** ** The throttle of the group mediator *)

Lemma no_send_quiet (e : Event) : no_send e -> quiet e.
Proof. intros H g [r ->]. exact H. Qed.

Lemma group_alert_quiet (at_id : Z) (name : string) :
  quiet (EvSend at_id (Mediation.group_alert_text name)).
Proof. intros g [r H]. discriminate H. Qed.

Lemma store_message_keeps_timestamps uid gid text_ :
  stable timestamps_view no_send (DB.store_message uid gid text_).
Proof. unfold DB.store_message. frame_auto. Qed.

Lemma fetch_users_keeps_timestamps l : stable timestamps_view no_send (LLM.fetch_users l).
Proof. induction l; simpl; frame_auto. Qed.

Lemma mediate_keeps_timestamps gid recent uid :
  stable timestamps_view no_send (LLM.mediate_group_conversation gid recent uid).
Proof.
  pose proof fetch_users_keeps_timestamps.
  unfold LLM.mediate_group_conversation. frame_auto.
Qed.

Lemma bind_unfold {A B} (m : M A) (k : A -> M B) env w :
  bind m k env w =
  match m env w with
  | (Ok a, w') => k a env w'
  | (Raise e, w') => (Raise e, w')
  end.
Proof. reflexivity. Qed.

Lemma quiet_app (l1 l2 : list Event) : Forall quiet l1 -> Forall quiet l2 -> Forall quiet (l1 ++ l2).
Proof. intros. now apply Forall_app. Qed.

Lemma group_step env w u res :
  Mediation.handle_group_message u env w = res ->
  (group_message_timestamps res.2 = group_message_timestamps w
   /\ exists l, trace res.2 = (trace w ++ l)%list /\ Forall quiet l)
  \/ exists uid chat chat_type text_ r t l1 l3,
       u = TextMessage uid chat chat_type text_
       /\ trace res.2 = (trace w ++ l1 ++ EvSend chat (Mediation.mediator_prefix +:+ r)
                                  :: EvNow t :: l3)%list
       /\ group_message_timestamps res.2 = <[chat := t]> (group_message_timestamps w)
       /\ Forall quiet l1 /\ Forall quiet l3
       /\ forall a, group_message_timestamps w !! chat = Some a ->
                    exists b, EvNow b ∈ l1 /\ Mediation.five_minutes < b - a.
Proof.
  intros H.
  destruct u as [uid chat ct text_|uid chat data].
  2:{ subst res. left. split; [reflexivity|]. exists [].
      split; [now rewrite app_nil_r|constructor]. }
  unfold Mediation.handle_group_message in H. rewrite bind_unfold in H.
  destruct (store_message_keeps_timestamps uid (Some chat) text_ env w) as [V0 (l0 & T0 & F0)].
  destruct (DB.store_message uid (Some chat) text_ env w) as [[id|e] w1]; cbn [fst snd] in *.
  2:{ subst res. left. split; [exact V0|]. exists l0. split; [exact T0|].
      eapply Forall_impl; [exact F0 | apply no_send_quiet]. }
  unfold timestamps_view in V0.
  assert (Forall quiet l0) as Q0 by (eapply Forall_impl; [exact F0 | apply no_send_quiet]).
  clear F0.
  destruct (String.eqb ct "group" || String.eqb ct "supergroup").
  2:{ subst res. left. split; [exact V0|]. exists l0. split; [exact T0 | exact Q0]. }
  run in H. destruct (groups (db w1) !! chat) as [g|].
  2:{ subst res. left. cbn. split; [exact V0|]. exists (l0 ++ [EvGetGroup chat])%list.
      split; [rewrite T0; now rewrite app_assoc|].
      apply quiet_app; [exact Q0|]. repeat constructor. now apply no_send_quiet. }
  destruct (ai_mediator_enabled g).
  2:{ subst res. left. cbn. split; [exact V0|]. exists (l0 ++ [EvGetGroup chat])%list.
      split; [rewrite T0; now rewrite app_assoc|].
      apply quiet_app; [exact Q0|]. repeat constructor. now apply no_send_quiet. }
  unfold Mediation.should_ai_intervene in H. run in H. rewrite V0 in H.
  destruct (group_message_timestamps w !! chat) as [a|] eqn:Ea; run in H.
  - destruct (clock env (clock_reads w1) - a >? Mediation.five_minutes) eqn:Ec; run in H.
    2:{ subst res. left. cbn. split; [exact V0|]. eexists (l0 ++ [_; _; _])%list.
        split; [rewrite T0; rewrite <- !app_assoc; reflexivity|].
        apply quiet_app; [exact Q0|]. repeat constructor; now apply no_send_quiet. }
    apply Z.gtb_gt in Ec.
    match type of H with
    | context [LLM.mediate_group_conversation ?x ?y ?z ?e ?wx] =>
        destruct (mediate_keeps_timestamps x y z e wx) as [V2 (l2 & T2 & F2)];
        destruct (LLM.mediate_group_conversation x y z e wx) as [[[reply alert]|ex] w2]
    end; cbn [fst snd] in *; unfold timestamps_view in V2; cbn in V2, T2.
    2:{ subst res. left. cbn. split; [congruence|]. eexists (l0 ++ [_; _; _; _] ++ l2)%list.
        split; [rewrite T2, T0; rewrite <- !app_assoc; reflexivity|].
        apply quiet_app; [exact Q0|]. apply quiet_app.
        - repeat constructor; now apply no_send_quiet.
        - eapply Forall_impl; [exact F2 | apply no_send_quiet]. }
    assert (Forall quiet (l0 ++ [EvGetGroup chat; EvReadTimestamp chat;
                                 EvNow (clock env (clock_reads w1));
                                 EvGetRecentMessages (Some chat) None 10] ++ l2)) as Q1.
    { apply quiet_app; [exact Q0|]. apply quiet_app.
      - repeat constructor; now apply no_send_quiet.
      - eapply Forall_impl; [exact F2 | apply no_send_quiet]. }
    destruct (Mediation.reply_text_of reply) as [r|].
    2:{ subst res. left. cbn. split; [congruence|]. eexists. split; [|exact Q1].
        rewrite T2, T0; rewrite <- !app_assoc; reflexivity. }
    right. exists uid, chat, ct, text_, r, (clock env (clock_reads w2)).
    eexists (l0 ++ [_; _; _; _] ++ l2)%list.
    exists (if alert then if negb (created_by g =? 0)
                          then [EvSend (created_by g) (Mediation.group_alert_text (group_name g))]
                          else [] else []).
    subst res. split; [reflexivity|].
    destruct alert; [destruct (negb (created_by g =? 0))|]; cbn;
      (split; [rewrite T2, T0; rewrite <- !app_assoc; reflexivity|]);
      (split; [now rewrite V2, V0|]);
      (split; [exact Q1|]);
      (split; [repeat constructor; apply group_alert_quiet|]);
      intros a' Ha'; exists (clock env (clock_reads w1));
      (split; [rewrite !elem_of_app, !elem_of_cons; tauto | congruence || (assert (a' = a) by congruence; subst; lia)]).
  - match type of H with
    | context [LLM.mediate_group_conversation ?x ?y ?z ?e ?wx] =>
        destruct (mediate_keeps_timestamps x y z e wx) as [V2 (l2 & T2 & F2)];
        destruct (LLM.mediate_group_conversation x y z e wx) as [[[reply alert]|ex] w2]
    end; cbn [fst snd] in *; unfold timestamps_view in V2; cbn in V2, T2.
    2:{ subst res. left. cbn. split; [congruence|]. eexists (l0 ++ [_; _; _] ++ l2)%list.
        split; [rewrite T2, T0; rewrite <- !app_assoc; reflexivity|].
        apply quiet_app; [exact Q0|]. apply quiet_app.
        - repeat constructor; now apply no_send_quiet.
        - eapply Forall_impl; [exact F2 | apply no_send_quiet]. }
    assert (Forall quiet (l0 ++ [EvGetGroup chat; EvReadTimestamp chat;
                                 EvGetRecentMessages (Some chat) None 10] ++ l2)) as Q1.
    { apply quiet_app; [exact Q0|]. apply quiet_app.
      - repeat constructor; now apply no_send_quiet.
      - eapply Forall_impl; [exact F2 | apply no_send_quiet]. }
    destruct (Mediation.reply_text_of reply) as [r|].
    2:{ subst res. left. cbn. split; [congruence|]. eexists. split; [|exact Q1].
        rewrite T2, T0; rewrite <- !app_assoc; reflexivity. }
    right. exists uid, chat, ct, text_, r, (clock env (clock_reads w2)).
    eexists (l0 ++ [_; _; _] ++ l2)%list.
    exists (if alert then if negb (created_by g =? 0)
                          then [EvSend (created_by g) (Mediation.group_alert_text (group_name g))]
                          else [] else []).
    subst res. split; [reflexivity|].
    destruct alert; [destruct (negb (created_by g =? 0))|]; cbn;
      (split; [rewrite T2, T0; rewrite <- !app_assoc; reflexivity|]);
      (split; [now rewrite V2, V0|]);
      (split; [exact Q1|]);
      (split; [repeat constructor; apply group_alert_quiet|]);
      intros a' Ha'; congruence.
Qed.

Lemma served_group_step env w u :
  group_message_step w
    (try_except (Mediation.handle_group_message u) (fun _ => Main.error_handler u) env w).2.
Proof.
  unfold try_except.
  pose proof (group_step env w u _ eq_refl) as H.
  destruct (Mediation.handle_group_message u env w) as [[[]|e] w1]; cbn [fst snd] in *.
  - destruct H as [H | (uid & chat & ct & tx & r & t & l1 & l3 & _ & H)];
      [left; exact H | right; exists chat, r, t, l1, l3; exact H].
  - assert (exists c, (Main.error_handler u env w1).2 = with_trace w1 (trace w1 ++ [EvReply c Main.error_text []]))
      as [c ->] by (destruct u; eexists; reflexivity).
    cbn. destruct H as [(V & l & T & Q) | (uid & chat & ct & tx & r & t & l1 & l3 & _ & T & V & Q1 & Q3 & Hb)].
    + left. split; [exact V|]. exists (l ++ [EvReply c Main.error_text []])%list.
      split; [rewrite T; now rewrite app_assoc|].
      apply quiet_app; [exact Q|]. repeat constructor. now apply no_send_quiet.
    + right. exists chat, r, t, l1, (l3 ++ [EvReply c Main.error_text []])%list.
      split; [rewrite T; rewrite <- !app_assoc; reflexivity|].
      split; [exact V|]. split; [exact Q1|]. split; [|exact Hb].
      apply quiet_app; [exact Q3|]. repeat constructor. now apply no_send_quiet.
Qed.

Lemma reply_at_quiet_suffix tr l g i :
  Forall quiet l -> reply_at (tr ++ l) g i -> (i < length tr)%nat /\ reply_at tr g i.
Proof.
  intros Q (e & He & Hr). destruct (decide (i < length tr)%nat) as [Hi|Hi].
  - split; [exact Hi|]. exists e. split; [|exact Hr]. now rewrite lookup_app_l in He.
  - rewrite lookup_app_r in He by lia. exfalso.
    rewrite Forall_lookup in Q. exact (Q _ _ He g Hr).
Qed.

Lemma reply_at_sent tr l1 l3 chat r t g i :
  Forall quiet l1 -> Forall quiet l3 ->
  reply_at (tr ++ l1 ++ EvSend chat (Mediation.mediator_prefix +:+ r) :: EvNow t :: l3) g i ->
  ((i < length tr)%nat /\ reply_at tr g i)
  \/ (i = (length tr + length l1)%nat /\ g = chat).
Proof.
  intros Q1 Q3 (e & He & Hr). destruct (decide (i < length tr)%nat) as [Hi|Hi].
  - left. split; [exact Hi|]. exists e. split; [|exact Hr]. now rewrite lookup_app_l in He.
  - rewrite lookup_app_r in He by lia.
    destruct (decide (i - length tr < length l1)%nat) as [Hk|Hk].
    + rewrite lookup_app_l in He by exact Hk. exfalso.
      rewrite Forall_lookup in Q1. exact (Q1 _ _ He g Hr).
    + rewrite lookup_app_r in He by lia.
      destruct (i - length tr - length l1)%nat as [|[|m]] eqn:Em; cbn in He.
      * right. split; [lia|]. inversion He; subst e. destruct Hr as [r' Hr]. congruence.
      * inversion He; subst e. destruct Hr as [r' Hr]. discriminate.
      * exfalso. rewrite Forall_lookup in Q3. exact (Q3 _ _ He g Hr).
Qed.

Lemma step_keeps_invariant w w' :
  group_message_step w w' -> stamped w /\ spaced (trace w) -> stamped w' /\ spaced (trace w').
Proof.
  intros [(V & l & T & Q) | (chat & r & t & l1 & l3 & T & V & Q1 & Q3 & Hb)] [HS HP].
  - split.
    + intros g i Hr. rewrite T in Hr.
      destruct (reply_at_quiet_suffix _ _ _ _ Q Hr) as [Hi Hr'].
      destruct (HS g i Hr') as (a & p & Ha & Hip & Hp). exists a, p. rewrite V, T.
      split; [exact Ha|]. split; [exact Hip|].
      rewrite lookup_app_l; [exact Hp|]. now apply lookup_lt_Some in Hp.
    + intros g i j Hij Hi Hj. rewrite T in Hi, Hj.
      destruct (reply_at_quiet_suffix _ _ _ _ Q Hi) as [_ Hi'].
      destruct (reply_at_quiet_suffix _ _ _ _ Q Hj) as [_ Hj'].
      destruct (HP g i j Hij Hi' Hj') as (p & q & a & b & ? & ? & ? & Hp & Hq & ?).
      exists p, q, a, b. rewrite T. repeat split; try assumption.
      * rewrite lookup_app_l; [exact Hp|]. now apply lookup_lt_Some in Hp.
      * rewrite lookup_app_l; [exact Hq|]. now apply lookup_lt_Some in Hq.
  - assert (trace w' !! (length (trace w) + length l1 + 1)%nat = Some (EvNow t)) as Hstamp.
    { rewrite T. rewrite lookup_app_r by lia. rewrite lookup_app_r by lia.
      replace (length (trace w) + length l1 + 1 - length (trace w) - length l1)%nat
        with 1%nat by lia. reflexivity. }
    split.
    + intros g i Hr. rewrite T in Hr.
      destruct (reply_at_sent _ _ _ _ _ _ _ _ Q1 Q3 Hr) as [[Hi Hr'] | [-> ->]]; clear Hr.
      * destruct (decide (g = chat)) as [->|Hne].
        -- exists t, (length (trace w) + length l1 + 1)%nat. rewrite V.
           split; [apply lookup_insert_eq|]. split; [lia | exact Hstamp].
        -- destruct (HS g i Hr') as (a & p & Ha & Hip & Hp). exists a, p. rewrite V, T.
           split; [now rewrite lookup_insert_ne|]. split; [exact Hip|].
           rewrite lookup_app_l; [exact Hp|]. now apply lookup_lt_Some in Hp.
      * exists t, (length (trace w) + length l1 + 1)%nat. rewrite V.
        split; [apply lookup_insert_eq|]. split; [lia | exact Hstamp].
    + intros g i j Hij Hi Hj. rewrite T in Hi, Hj.
      destruct (reply_at_sent _ _ _ _ _ _ _ _ Q1 Q3 Hj) as [[Hj' Hj''] | [-> ->]]; clear Hj.
      * destruct (reply_at_sent _ _ _ _ _ _ _ _ Q1 Q3 Hi) as [[_ Hi''] | [-> _]]; [|lia].
        destruct (HP g i j Hij Hi'' Hj'') as (p & q & a & b & ? & ? & ? & Hp & Hq & ?).
        exists p, q, a, b. rewrite T. repeat split; try assumption.
        -- rewrite lookup_app_l; [exact Hp|]. now apply lookup_lt_Some in Hp.
        -- rewrite lookup_app_l; [exact Hq|]. now apply lookup_lt_Some in Hq.
      * destruct (reply_at_sent _ _ _ _ _ _ _ _ Q1 Q3 Hi) as [[Hi' Hi''] | [-> _]]; [|lia].
        destruct (HS chat i Hi'') as (a & p & Ha & Hip & Hp).
        destruct (Hb a Ha) as (b & Hbin & Hgap).
        apply list_elem_of_lookup in Hbin as [q Hq].
        pose proof (lookup_lt_Some _ _ _ Hp). pose proof (lookup_lt_Some _ _ _ Hq).
        exists p, (length (trace w) + q)%nat, a, b. rewrite T.
        split; [exact Hip|]. split; [lia|]. split; [lia|].
        split; [now rewrite lookup_app_l|]. split; [|exact Hgap].
        rewrite lookup_app_r by lia. rewrite lookup_app_l by lia.
        replace (length (trace w) + q - length (trace w))%nat with q by lia. exact Hq.
Qed.

Lemma served_keeps_invariant us env w :
  stamped w /\ spaced (trace w) ->
  let w' := (Main.serve Mediation.handle_group_message us env w).2 in
  stamped w' /\ spaced (trace w').
Proof.
  revert w. induction us as [|u us IH]; intros w Hw; [exact Hw|].
  cbn zeta. unfold Main.serve. cbn [for_each]. rewrite bind_unfold.
  pose proof (served_group_step env w u) as Hstep.
  destruct (try_except (Mediation.handle_group_message u) (fun _ => Main.error_handler u) env w)
    as [[[]|e] w1]; cbn [fst snd] in *.
  - apply IH. eapply step_keeps_invariant; eassumption.
  - eapply step_keeps_invariant; eassumption.
Qed.

(** C5. The throttle of the group mediator. The check lets the mediator in
    only when the group has no timestamp or the reading of the clock is
    more than five minutes past it. A handled group message either sends no
    mediator reply and leaves the timestamps alone, or sends one reply, to
    its own chat, after such a check, and then sets the chat's timestamp to
    a reading taken after the send. So in any sequence of handled group
    messages, between two mediator replies in one group the clock was read
    twice more than five minutes apart: with a clock that does not run
    backwards the two replies are more than five minutes apart. *)
Theorem mediator_throttle :
  (forall gid env w,
     (Mediation.should_ai_intervene gid env w).1 =
     Ok match group_message_timestamps w !! gid with
        | None => true
        | Some last_intervention =>
            clock env (clock_reads w) - last_intervention >? Mediation.five_minutes
        end)
  /\ (forall u env w,
        let w' := (Mediation.handle_group_message u env w).2 in
        (group_message_timestamps w' = group_message_timestamps w
         /\ exists l, trace w' = (trace w ++ l)%list /\ Forall quiet l)
        \/ exists uid chat chat_type text_ r t l1 l3,
             u = TextMessage uid chat chat_type text_
             /\ trace w' = (trace w ++ l1 ++ EvSend chat (Mediation.mediator_prefix +:+ r)
                                     :: EvNow t :: l3)%list
             /\ group_message_timestamps w' = <[chat := t]> (group_message_timestamps w)
             /\ Forall quiet l1 /\ Forall quiet l3
             /\ forall a, group_message_timestamps w !! chat = Some a ->
                          exists b, EvNow b ∈ l1 /\ Mediation.five_minutes < b - a)
  /\ (forall us env d g i j,
        let tr := trace (Main.serve Mediation.handle_group_message us env (Main.started d)).2 in
        (i < j)%nat -> reply_at tr g i -> reply_at tr g j ->
        exists p q a b, (i < p)%nat /\ (p < q)%nat /\ (q < j)%nat
          /\ tr !! p = Some (EvNow a) /\ tr !! q = Some (EvNow b)
          /\ Mediation.five_minutes < b - a).
Proof.
  split; [|split].
  - intros gid env w. unfold Mediation.should_ai_intervene. run.
    destruct (group_message_timestamps w !! gid) as [a|]; [|reflexivity]. run.
    now destruct (_ >? _).
  - intros u env w. exact (group_step env w u _ eq_refl).
  - intros us env d g i j tr. subst tr.
    assert (stamped (Main.started d) /\ spaced (trace (Main.started d))) as H0.
    { split.
      - intros g' i' (e & He & _). discriminate He.
      - intros g' i' j' _ (e & He & _). discriminate He. }
    destruct (served_keeps_invariant us env _ H0) as [_ HP]. apply HP.
Qed.

Lemma mediator_throttle_witness :
  let tr := trace (Main.serve Mediation.handle_group_message
                     [TextMessage 9 1 "group" "oi"; TextMessage 9 1 "group" "tudo bem"]
                     Sample.no_key (Main.started Sample.store)).2 in
  exists p q a b, (12 < p)%nat /\ (p < q)%nat /\ (q < 27)%nat
    /\ tr !! p = Some (EvNow a) /\ tr !! q = Some (EvNow b)
    /\ Mediation.five_minutes < b - a.
Proof.
  destruct mediator_throttle as (_ & _ & H).
  apply (H [TextMessage 9 1 "group" "oi"; TextMessage 9 1 "group" "tudo bem"]
           Sample.no_key Sample.store 1 12%nat 27%nat).
  - lia.
  - eexists. split; [vm_compute; reflexivity|]. exists LLM.api_key_missing. reflexivity.
  - eexists. split; [vm_compute; reflexivity|]. exists LLM.api_key_missing. reflexivity.
Defined.

(** ** Store first *)

Lemma fetch_users_stable {X} (view : World -> X) (allowed : Event -> Prop) l :
  (forall w t, view (with_trace w t) = view w) ->
  (forall uid, allowed (EvGetUser uid)) ->
  stable view allowed (LLM.fetch_users l).
Proof.
  intros Hv Ha. induction l as [|uid l IH]; cbn [LLM.fetch_users]; [apply stable_ret|].
  apply stable_bind.
  - unfold DB.get_user. apply stable_bind; [apply stable_emit; auto|].
    intros _. apply stable_bind; [apply stable_get | intros; apply stable_ret].
  - intros user. apply stable_bind; [exact IH | intros; apply stable_ret].
Qed.

Lemma notify_ats_stable {X} (view : World -> X) (allowed : Event -> Prop) l seen name :
  (forall w t, view (with_trace w t) = view w) ->
  (forall gid, allowed (EvGetGroup gid)) ->
  (forall at_id, allowed (EvSend at_id (Mediation.private_alert_text name))) ->
  stable view allowed (Mediation.notify_ats l seen name).
Proof.
  intros Hv Hg Hs. revert seen.
  induction l as [|gid l IH]; intros seen; cbn [Mediation.notify_ats]; [apply stable_ret|].
  apply stable_bind.
  - unfold DB.get_group. apply stable_bind; [apply stable_emit; auto|].
    intros _. apply stable_bind; [apply stable_get | intros; apply stable_ret].
  - intros [g|]; [|apply IH].
    destruct (_ && _); [|apply IH].
    apply stable_bind; [apply stable_emit; auto | intros _; apply IH].
Qed.

Lemma store_message_run env w uid gid text_ :
  let t := clock env (clock_reads w) in
  let m := {| msg_user_id := uid; msg_group_id := gid; text := text_;
              msg_type := "text"; timestamp := t |} in
  exists id w1 l,
    DB.store_message uid gid text_ env w = (Ok id, w1)
    /\ messages (db w1) = (messages (db w) ++ [m])%list
    /\ trace w1 = (trace w ++ EvNow t :: EvStoreMessage m :: l)%list.
Proof.
  unfold DB.store_message. run. destruct gid as [g|]; [destruct (g =? 0)|]; run;
    (eexists; eexists; eexists; split; [reflexivity|]); cbn;
    (split; [reflexivity|]); rewrite <- !app_assoc; reflexivity.
Qed.

Ltac frame_rest view allowed :=
  cbv beta;
  match goal with
  | |- context [?k ?env ?w1] =>
      lazymatch type of k with
      | M _ =>
          let S := fresh "S" in
          assert (stable view allowed k) as S;
          [ | destruct (S env w1) as [?V (?l & ?T & _)] ]
      end
  end.

Lemma group_message_stored (uid chat : Z) (chat_type text_ : string) (env : Env) (w : World) :
  let m := stored_message uid (Some chat) text_ env w in
  let w' := (Mediation.handle_group_message (TextMessage uid chat chat_type text_) env w).2 in
  messages (db w') = (messages (db w) ++ [m])%list
  /\ exists l, trace w' = (trace w ++ EvNow (timestamp m) :: EvStoreMessage m :: l)%list.
Proof.
  cbn zeta. unfold Mediation.handle_group_message. rewrite bind_unfold.
  destruct (store_message_run env w uid (Some chat) text_) as (id & w1 & l1 & -> & Hm & Ht).
  frame_rest messages_view any_event.
  { pose proof (fun l => fetch_users_stable messages_view any_event l
                            (fun _ _ => eq_refl) (fun _ => I)).
    unfold Mediation.should_ai_intervene, LLM.mediate_group_conversation. frame_auto. }
  unfold messages_view in V. rewrite V, Hm, T, Ht. split; [reflexivity|].
  eexists. rewrite <- app_assoc. reflexivity.
Qed.

Lemma private_message_stored (uid chat : Z) (chat_type text_ : string) (env : Env) (w : World) :
  let m := stored_message uid None text_ env w in
  let w' := (Mediation.handle_private_message (TextMessage uid chat chat_type text_) env w).2 in
  messages (db w') = (messages (db w) ++ [m])%list
  /\ exists l, trace w' = (trace w ++ EvNow (timestamp m) :: EvStoreMessage m :: l)%list.
Proof.
  cbn zeta. unfold Mediation.handle_private_message. rewrite bind_unfold.
  destruct (store_message_run env w uid None text_) as (id & w1 & l1 & -> & Hm & Ht).
  frame_rest messages_view any_event.
  { pose proof (fun l seen name => notify_ats_stable messages_view any_event l seen name
                                     (fun _ _ => eq_refl) (fun _ => I) (fun _ => I)).
    frame_auto. }
  unfold messages_view in V. rewrite V, Hm, T, Ht. split; [reflexivity|].
  eexists. rewrite <- app_assoc. reflexivity.
Qed.

(** C7. Both message handlers first append the message to the message log:
    the run starts with the reading of the clock that stamps the message
    and the insert, and every other operation (the look-ups of the group
    and of the user, the throttle and session dictionaries, the Oracle, the
    replies and alerts) comes after it; whatever those do, the log ends up
    as it was with this message added. *)
Theorem message_stored_first (uid chat : Z) (chat_type text_ : string) (env : Env) (w : World) :
  let t := clock env (clock_reads w) in
  let stored_as gid :=
    {| msg_user_id := uid; msg_group_id := gid; text := text_;
       msg_type := "text"; timestamp := t |} in
  let in_group := (Mediation.handle_group_message (TextMessage uid chat chat_type text_) env w).2 in
  let in_private := (Mediation.handle_private_message (TextMessage uid chat chat_type text_) env w).2 in
  (messages (db in_group) = (messages (db w) ++ [stored_as (Some chat)])%list
   /\ exists l, trace in_group =
                (trace w ++ EvNow t :: EvStoreMessage (stored_as (Some chat)) :: l)%list)
  /\ (messages (db in_private) = (messages (db w) ++ [stored_as None])%list
      /\ exists l, trace in_private =
                   (trace w ++ EvNow t :: EvStoreMessage (stored_as None) :: l)%list).
Proof.
  cbn zeta. split.
  - exact (group_message_stored uid chat chat_type text_ env w).
  - exact (private_message_stored uid chat chat_type text_ env w).
Qed.

(** ** The context of private support *)







(** ** Alerts of the private path *)

Lemma sent_app (l1 l2 : list Event) : sent (l1 ++ l2) = (sent l1 ++ sent l2)%list.
Proof. unfold sent. apply omap_app. Qed.

Lemma with_trace_twice (w : World) (t1 t2 : list Event) :
  with_trace (with_trace w t1) t2 = with_trace w t2.
Proof. reflexivity. Qed.

Lemma creators_cons (d : Database) (gid : Z) (gids : list Z) :
  creators d (gid :: gids) =
  match groups d !! gid with
  | Some g => if created_by g =? 0 then creators d gids
              else created_by g :: creators d gids
  | None => creators d gids
  end.
Proof.
  unfold creators. cbn [omap list_omap].
  destruct (groups d !! gid) as [g|]; [|reflexivity].
  now destruct (created_by g =? 0).
Qed.

Lemma notify_ats_run (name : string) (gids : list Z) (seen : gset Z) (env : Env) (w : World) :
  exists l recipients,
    Mediation.notify_ats gids seen name env w = (Ok tt, with_trace w (trace w ++ l))
    /\ sent l = (fun a => (a, Mediation.private_alert_text name)) <$> recipients
    /\ NoDup recipients
    /\ forall a, a ∈ recipients <-> a ∈ creators (db w) gids /\ a ∉ seen.
Proof.
  revert seen w. induction gids as [|gid gids IH]; intros seen w.
  - exists [], []. cbn. unfold ret. rewrite app_nil_r.
    split; [now destruct w|]. split; [reflexivity|]. split; [constructor|].
    intros a. split; [intros H; inversion H | intros [H _]; inversion H].
  - cbn [Mediation.notify_ats]. run. rewrite creators_cons.
    destruct (groups (db w) !! gid) as [g|] eqn:Eg.
    2:{ destruct (IH seen (with_trace w (trace w ++ [EvGetGroup gid])))
          as (l & rec & Hrun & Hs & Hn & Hin).
        exists (EvGetGroup gid :: l), rec. rewrite Hrun. cbn [trace with_trace].
        rewrite with_trace_twice, <- app_assoc. split; [reflexivity|]. split; [exact Hs|].
        split; [exact Hn | exact Hin]. }
    destruct (Z.eqb_spec (created_by g) 0) as [E0|E0]; cbn [negb andb].
    { destruct (IH seen (with_trace w (trace w ++ [EvGetGroup gid])))
        as (l & rec & Hrun & Hs & Hn & Hin).
      exists (EvGetGroup gid :: l), rec. rewrite Hrun. cbn [trace with_trace].
      rewrite with_trace_twice, <- app_assoc. split; [reflexivity|]. split; [exact Hs|].
      split; [exact Hn | exact Hin]. }
    destruct (bool_decide (created_by g ∈ seen)) eqn:Eseen; cbn [negb].
    { apply bool_decide_eq_true in Eseen.
      destruct (IH seen (with_trace w (trace w ++ [EvGetGroup gid])))
        as (l & rec & Hrun & Hs & Hn & Hin).
      exists (EvGetGroup gid :: l), rec. rewrite Hrun. cbn [trace with_trace].
      rewrite with_trace_twice, <- app_assoc. split; [reflexivity|]. split; [exact Hs|].
      split; [exact Hn|]. intros a. rewrite (Hin a). cbn [db with_trace].
      rewrite elem_of_cons. split.
      - intros [H1 H2]. split; [right; exact H1 | exact H2].
      - intros [[-> | H1] H2]; [contradiction | split; assumption]. }
    apply bool_decide_eq_false in Eseen. run.
    destruct (IH ({[created_by g]} ∪ seen)
                (with_trace w ((trace w ++ [EvGetGroup gid])
                   ++ [EvSend (created_by g) (Mediation.private_alert_text name)])))
      as (l & rec & Hrun & Hs & Hn & Hin).
    exists (EvGetGroup gid :: EvSend (created_by g) (Mediation.private_alert_text name) :: l),
      (created_by g :: rec).
    rewrite with_trace_twice. rewrite Hrun. cbn [trace with_trace].
    rewrite with_trace_twice, <- !app_assoc. split; [reflexivity|].
    split; [unfold sent in *; cbn [omap list_omap fmap list_fmap]; now rewrite Hs|].
    cbn [db with_trace] in Hin.
    split.
    + constructor; [|exact Hn]. rewrite (Hin (created_by g)). intros [_ H]. apply H.
      apply elem_of_union_l. now apply elem_of_singleton.
    + intros a. rewrite !elem_of_cons, (Hin a). split.
      * intros [-> | [H1 H2]]; [split; [left; reflexivity | exact Eseen]|].
        split; [right; exact H1|]. intros H. apply H2. now apply elem_of_union_r.
      * intros [[-> | H1] H2]; [left; reflexivity|].
        destruct (decide (a = created_by g)) as [->|Hne]; [left; reflexivity|].
        right. split; [exact H1|]. intros H. apply elem_of_union in H as [H|H].
        -- apply elem_of_singleton in H. contradiction.
        -- contradiction.
Qed.

Lemma creators_same_groups (d d' : Database) (gids : list Z) :
  groups d' = groups d -> creators d' gids = creators d gids.
Proof. intros H. unfold creators. now rewrite H. Qed.

Lemma provide_keeps_groups uid text_ :
  stable private_view no_send (LLM.provide_individual_support uid text_).
Proof. unfold LLM.provide_individual_support, LLM._call_llm_api. frame_auto. Qed.

Lemma should_ai_intervene_first env w gid :
  group_message_timestamps w !! gid = None ->
  Mediation.should_ai_intervene gid env w
  = (Ok true, with_trace w (trace w ++ [EvReadTimestamp gid])).
Proof.
  intros Hts. unfold Mediation.should_ai_intervene. run. rewrite Hts. reflexivity.
Qed.

(** ** The activity flow *)

Lemma activity_callbacks_stable (state : option Z) (hd : Main.Handler) (u : Update) :
  In hd (Main.candidates Main.activity_creation_handler state) ->
  stable activities_view no_create_activity (Main.callback hd u).
Proof.
  unfold Main.candidates, Main.activity_creation_handler.
  cbn [Main.states Main.fallbacks Main.entry_points Main.state_handlers].
  destruct state as [s|].
  - destruct (Main.ACTIVITY_TYPE =? s);
      [|destruct (Main.ACTIVITY_TITLE =? s);
        [|destruct (Main.ACTIVITY_DESC =? s); [|destruct (Main.ACTIVITY_DURATION =? s)]]];
      cbn [In app]; intros H; repeat (destruct H as [<- | H]; [cbn; frame_auto|]);
      destruct H.
  - intros [<- | []]. cbn. frame_auto.
Qed.

Lemma handle_update_stable (u : Update) :
  stable activities_view no_create_activity
    (Main.handle_update Main.activity_creation_handler u).
Proof.
  unfold Main.handle_update. apply stable_bind; [apply stable_get | intros w0].
  destruct (find _ _) as [hd|] eqn:F; [|apply stable_ret].
  apply find_some in F. destruct F as [F _].
  apply stable_bind; [exact (activity_callbacks_stable _ hd u F) | intros new_state].
  unfold Main.update_state. frame_auto.
Qed.

Lemma process_updates_stable (updates : list Update) :
  stable activities_view no_create_activity
    (Main.process_updates Main.activity_creation_handler updates).
Proof.
  induction updates as [|u rest IH]; cbn [Main.process_updates]; [apply stable_ret|].
  apply stable_bind.
  - apply stable_try; [apply handle_update_stable | intros e].
    unfold Main.error_handler. frame_auto.
  - intros taken. apply stable_bind; [exact IH | intros; apply stable_ret].
Qed.

(** C1. The activity flow as registered never creates an activity:
    whatever updates the conversation handler is offered, in whatever
    state, the activities of the store are the ones it had and no insert
    of an activity is among the operations done. The handler that reads
    the duration and creates the activity is in no state of the
    conversation (the description step ends it), so in the dialogue of a
    facilitator who answers every question the duration, 30, is taken by
    no handler, and the store has no activity afterwards. *)
Theorem activity_flow_creates_nothing :
  (forall (updates : list Update) (env : Env) (w : World),
      let w' := (Main.process_updates Main.activity_creation_handler updates env w).2 in
      activities (db w') = activities (db w)
      /\ forall a, EvCreateActivity a ∉ drop (length (trace w)) (trace w'))
  /\ (let run := Main.process_updates Main.activity_creation_handler activity_dialogue
                   Sample.no_key (Main.started Sample.store) in
      run.1 = Ok [true; true; true; true; true; false]
      /\ activities (db run.2) = []
      /\ conversations run.2 = ∅
      /\ last (trace run.2) = Some (EvReply 7 ActivityManagement.ask_duration_text [])).
Proof.
  split.
  - intros updates env w w'.
    destruct (process_updates_stable updates env w) as [V (l & T & F)].
    fold w' in V, T. split; [exact V|].
    intros a Ha. rewrite T, drop_app_length in Ha.
    rewrite Forall_forall in F. exact (F _ Ha).
  - vm_compute. repeat split; reflexivity.
Qed.

(** ** The mediator switch *)

Lemma set_settings_keeps_flags (s : MediatorSettings) (gid : Z) (m : gmap Z Group) :
  ai_mediator_enabled <$> alter (DB.set_ai_mediator_settings s) gid m
  = ai_mediator_enabled <$> m.
Proof.
  apply map_eq. intros k. rewrite !lookup_fmap.
  destruct (decide (k = gid)) as [->|Hne].
  - rewrite lookup_alter_eq. now destruct (m !! gid).
  - now rewrite lookup_alter_ne.
Qed.

Lemma toggle_stable (update : Update) :
  stable mediator_flags any_event (GroupManagement.toggle_ai_mediator update).
Proof.
  unfold GroupManagement.toggle_ai_mediator, DB.update_group_ai_settings.
  destruct update as [uid chat ct text_ | uid chat data]; [apply stable_raise|].
  frame_auto. split; [|reflexivity].
  unfold mediator_flags. cbn. apply set_settings_keeps_flags.
Qed.

(** C2. The choice on the mediator button does not reach the stored
    state of the mediator: [toggle_ai_mediator] leaves the flag
    [ai_mediator_enabled] of every group as it was, whatever the update.
    So for the group just created (enabled by default), after the
    facilitator presses the button that disables the mediator, the
    message is edited to say the mediator was disabled and the flag of the
    group is still true. *)
Theorem toggle_keeps_mediator_flag :
  (forall (update : Update) (env : Env) (w : World) (gid : Z),
      ai_mediator_enabled <$> groups (db (GroupManagement.toggle_ai_mediator update env w).2) !! gid
      = ai_mediator_enabled <$> groups (db w) !! gid)
  /\ (let pressed := GroupManagement.toggle_ai_mediator
                       (CallbackQuery 7 7 "ai_off_1700000000") Sample.no_key group_created in
      ai_mediator_enabled <$> groups (db group_created) !! new_group_id = Some true
      /\ pressed.1 = Ok tt
      /\ last (trace pressed.2)
         = Some (EvEdit 7 (GroupManagement.mediator_toggled_text "desativado" "Livros") [])
      /\ ai_mediator_enabled <$> groups (db pressed.2) !! new_group_id = Some true).
Proof.
  split.
  - intros update env w gid.
    destruct (toggle_stable update env w) as [V _].
    unfold mediator_flags in V.
    apply (f_equal (fun m : gmap Z bool => m !! gid)) in V.
    rewrite !lookup_fmap in V. exact V.
  - vm_compute. repeat split; reflexivity.
Qed.

(** ** Oracle failures *)

Lemma analyze_run (text_ : string) (context : list Message) (env : Env) (w : World) :
  LLM._analyze_for_alert (Some text_) context env w = (Ok (alert_match text_), w).
Proof. reflexivity. Qed.

Lemma reply_text_of_truthy (reply : option string) (r : string) :
  Mediation.reply_text_of reply = Some r -> PyStr.truthy r = true.
Proof.
  destruct reply as [s|]; [|discriminate]. unfold Mediation.reply_text_of.
  destruct (PyStr.truthy s) eqn:E; [|discriminate]. intros [= <-]. exact E.
Qed.

(** C3. When the Oracle fails (no key, a status other than 200, an
    exception of the request, or a body that cannot be read), the wrapper
    returns one of the fixed apologies and raises nothing; both handlers
    still store the message; the private path evaluates the alert policy on
    the text of the user; the group path evaluates it on the reply of the
    wrapper, which is then the apology, so it asks for no alert whatever
    the messages of the group say. *)
Theorem oracle_failure_handling (env : Env) :
  oracle_fails env ->
  (forall prompt w, exists apology w',
      LLM._call_llm_api prompt env w = (Ok (Some apology), w') /\ apology ∈ apologies)
  /\ (forall uid chat chat_type text_ w,
        let u := TextMessage uid chat chat_type text_ in
        messages (db (Mediation.handle_group_message u env w).2)
        = (messages (db w) ++ [stored_message uid (Some chat) text_ env w])%list
        /\ messages (db (Mediation.handle_private_message u env w).2)
           = (messages (db w) ++ [stored_message uid None text_ env w])%list)
  /\ (forall uid text_ user w,
        users (db w) !! uid = Some user -> role user = "autista" ->
        exists apology alert,
          (LLM.provide_individual_support uid text_ env w).1 = Ok (Some apology, alert)
          /\ apology ∈ apologies
          /\ (LLM._analyze_for_alert (Some text_) [] env w).1 = Ok alert)
  /\ (forall gid recent uid g w,
        groups (db w) !! gid = Some g ->
        exists apology,
          (LLM.mediate_group_conversation gid recent uid env w).1 = Ok (Some apology, false)
          /\ apology ∈ apologies
          /\ (LLM._analyze_for_alert (Some apology) recent env w).1 = Ok false).
Proof.
  intros Hf. split; [|split; [|split]].
  - intros prompt w. rewrite call_llm_api_run.
    destruct (oracle_reply_fails env (http_requests w) prompt Hf) as (apology & -> & Hin).
    exists apology. eexists. split; [reflexivity | exact Hin].
  - intros uid chat chat_type text_ w u. split.
    + exact (proj1 (group_message_stored uid chat chat_type text_ env w)).
    + exact (proj1 (private_message_stored uid chat chat_type text_ env w)).
  - intros uid text_ user w Hu Hr.
    destruct (provide_run env w uid text_ user Hu Hr) as (w' & i & Hrun & _).
    rewrite Hrun.
    destruct (oracle_reply_fails env (http_requests w)
                (LLM.individual_prompt env user
                   (LLM.individual_conversation uid (DB.recent (db w) None (Some uid) 10)))
                Hf) as (apology & -> & Hin).
    exists apology, (alert_match text_). split; [reflexivity|]. split; [exact Hin|].
    now rewrite analyze_run.
  - intros gid recent uid g w Hg.
    destruct (mediate_run env w gid recent uid g Hg) as (w' & Hrun).
    rewrite Hrun. cbv zeta.
    match goal with
    | |- context [oracle_reply env ?n ?p] =>
        destruct (oracle_reply_fails env n p Hf) as (apology & -> & Hin)
    end.
    exists apology. rewrite analyze_run. unfold alert_match.
    rewrite (apologies_raise_no_alert apology Hin).
    split; [reflexivity|]. split; [exact Hin | reflexivity].
Qed.

Lemma oracle_failure_handling_witness :
  oracle_fails Sample.no_key
  /\ exists apology,
       (LLM.mediate_group_conversation 1 [] 9 Sample.no_key (Main.started Sample.store)).1
       = Ok (Some apology, false)
       /\ apology ∈ apologies
       /\ (LLM._analyze_for_alert (Some apology) [] Sample.no_key
             (Main.started Sample.store)).1 = Ok false.
Proof.
  assert (oracle_fails Sample.no_key) as Hf by (left; reflexivity).
  split; [exact Hf|].
  destruct (oracle_failure_handling Sample.no_key Hf) as (_ & _ & _ & Hg).
  apply (Hg 1 [] 9 Sample.jogos (Main.started Sample.store)). reflexivity.
Defined.

(** A call for help in a group while the Oracle has no key: the policy
    holds of the message, the mediation call evaluates the apology instead
    and reports no alert, and the only message sent is the apology to the
    group. *)
Lemma group_alert_ignores_input :
  let w := Main.started Sample.store in
  let u := TextMessage 9 1 "group" "socorro" in
  oracle_fails Sample.no_key
  /\ (LLM._analyze_for_alert (Some "socorro") [] Sample.no_key w).1 = Ok true
  /\ (LLM.mediate_group_conversation 1
        [stored_message 9 (Some 1) "socorro" Sample.no_key w] 9 Sample.no_key w).1
     = Ok (Some LLM.api_key_missing, false)
  /\ sent (trace (Mediation.handle_group_message u Sample.no_key w).2)
     = [(1, Mediation.mediator_prefix +:+ LLM.api_key_missing)].
Proof.
  cbv zeta. split; [left; reflexivity|]. vm_compute. repeat split; reflexivity.
Qed.

(** ** What the moderation calls leave behind *)

Lemma posted_app (l1 l2 : list Event) : posted (l1 ++ l2) = (posted l1 ++ posted l2)%list.
Proof. unfold posted. apply omap_app. Qed.

Lemma sent_no_message (l : list Event) : Forall no_message l -> sent l = [].
Proof.
  induction 1 as [|e l He _ IH]; [reflexivity|].
  unfold sent in *. cbn [omap list_omap]. rewrite IH. now destruct e.
Qed.

Lemma no_message_app (l1 l2 : list Event) :
  Forall no_message l1 -> Forall no_message l2 -> Forall no_message (l1 ++ l2).
Proof. intros H1 H2. apply Forall_app. now split. Qed.

Lemma provide_run_trace env w uid text_ user :
  users (db w) !! uid = Some user -> role user = "autista" ->
  let prompt :=
    LLM.individual_prompt env user
      (LLM.individual_conversation uid (DB.recent (db w) None (Some uid) 10)) in
  exists w' l,
    LLM.provide_individual_support uid text_ env w =
    (Ok (oracle_reply env (http_requests w) prompt, alert_match text_), w')
    /\ trace w' = (trace w ++ l)%list
    /\ Forall no_message l
    /\ posted l = (if LLM.has_api_key env then [prompt] else [])
    /\ groups (db w') = groups (db w)
    /\ private_chat_sessions w' = private_chat_sessions w.
Proof.
  intros Hu Hr. unfold LLM.provide_individual_support. run. rewrite Hu, Hr.
  cbn [String.eqb Ascii.eqb Bool.eqb negb]. run. rewrite call_llm_api_run. run.
  eexists. eexists. split; [reflexivity|]. cbn. after_call. cbn.
  split; [rewrite <- !app_assoc; reflexivity|].
  destruct (LLM.has_api_key env); cbn; repeat split; repeat constructor.
Qed.

Lemma mediate_run_trace env w gid recent uid g :
  groups (db w) !! gid = Some g ->
  let users_ := fetched (db w) (LLM.sender_ids recent) in
  let prompt := LLM.group_prompt env g users_ (LLM.group_turn users_ <$> rev recent) in
  exists w' l,
    LLM.mediate_group_conversation gid recent uid env w =
    (Ok match oracle_reply env (http_requests w) prompt with
        | Some s => (Some s, alert_match s)
        | None => (Some LLM.group_mediation_failed, false)
        end, w')
    /\ trace w' = (trace w ++ l)%list
    /\ Forall no_message l
    /\ posted l = (if LLM.has_api_key env then [prompt] else [])
    /\ group_message_timestamps w' = group_message_timestamps w.
Proof.
  intros Hg. unfold LLM.mediate_group_conversation. run. rewrite Hg.
  rewrite fetch_users_run. run. rewrite call_llm_api_run. run.
  assert (posted (EvGetUser <$> LLM.sender_ids recent) = []) as Hp.
  { induction (LLM.sender_ids recent) as [|x l IH]; [reflexivity | exact IH]. }
  assert (Forall no_message (EvGetUser <$> LLM.sender_ids recent)) as Hf.
  { apply Forall_fmap, Forall_true. intros x. exact I. }
  destruct (oracle_reply env (http_requests w) _) as [s|]; run;
    eexists; eexists; (split; [reflexivity|]); cbn; after_call; cbn;
    (split; [rewrite <- !app_assoc; reflexivity|]);
    rewrite !posted_app, Hp;
    (split; [repeat (apply no_message_app); try exact Hf;
             destruct (LLM.has_api_key env); repeat constructor|]);
    destruct (LLM.has_api_key env); cbn; repeat split.
Qed.

Lemma posted_none (l : list Event) : Forall (fun e => posted [e] = []) l -> posted l = [].
Proof.
  induction 1 as [|e l He _ IH]; [reflexivity|].
  change (e :: l) with ([e] ++ l)%list. now rewrite posted_app, He, IH.
Qed.

Lemma notify_ats_posts_nothing name gids seen env w l :
  trace (Mediation.notify_ats gids seen name env w).2 = (trace w ++ l)%list -> posted l = [].
Proof.
  intros H.
  destruct (notify_ats_stable (fun _ => tt) (fun e => posted [e] = []) gids seen name
              (fun _ _ => eq_refl) (fun _ => eq_refl) (fun _ => eq_refl) env w)
    as [_ (l' & T & F)].
  rewrite H in T. apply app_inv_head in T. subst l'. now apply posted_none.
Qed.

(** The private handler on a message that is taken into the support
    path: the request made, and what follows from the wrapper's reply. *)
Lemma private_support_run env w uid chat ct text_ user res :
  users (db w) !! uid = Some user -> role user = "autista" ->
  PyStr.startswith "/" text_ = false ->
  is_Some (private_chat_sessions w !! uid) \/ Mediation.needs_support text_ = true ->
  Mediation.handle_private_message (TextMessage uid chat ct text_) env w = res ->
  exists prompt l,
    trace res.2 = (trace w ++ l)%list
    /\ posted l = (if LLM.has_api_key env then [prompt] else [])
    /\ match Mediation.reply_text_of (oracle_reply env (http_requests w) prompt) with
       | Some r =>
           EvReply chat (Mediation.assistant_prefix +:+ r) [] ∈ l
           /\ (alert_match text_ = false -> sent l = [])
           /\ (alert_match text_ = true ->
               exists recipients,
                 sent l = (fun a => (a, Mediation.private_alert_text (user_name user)))
                          <$> recipients
                 /\ NoDup recipients
                 /\ forall a, a ∈ recipients <-> a ∈ creators (db w) (groups_of user))
       | None => Forall no_message l
       end.
Proof.
  intros Hu Hr Hcmd Hneed H.
  unfold Mediation.handle_private_message in H. unfold DB.store_message in H.
  run in H. rewrite lookup_alter_eq, Hu in H. cbn [fmap option_fmap option_map] in H.
  cbn [role DB.touch_user] in H. rewrite Hr in H.
  change (String.eqb "autista" "autista") with true in H. run in H.
  rewrite Hcmd in H. cbn [negb andb] in H.
  assert (bool_decide (is_Some (private_chat_sessions w !! uid))
          || Mediation.needs_support text_ = true) as Hc.
  { destruct Hneed as [Hs | Hn].
    - now rewrite (bool_decide_eq_true_2 _ Hs).
    - rewrite Hn. apply orb_true_r. }
  rewrite Hc in H. cbv beta in H.
  match type of H with
  | context [LLM.provide_individual_support uid text_ env ?wx] => set (w2 := wx) in H
  end.
  assert (users (db w2) !! uid = Some (DB.touch_user (clock env (S (clock_reads w))) user))
    as Hu2 by (unfold w2; cbn; now rewrite lookup_alter_eq, Hu).
  destruct (provide_run_trace env w2 uid text_ _ Hu2 Hr)
    as (w3 & l3 & Hrun & T3 & F3 & P3 & Vg & Vs).
  rewrite Hrun in H.
  match type of Hrun with
  | context [oracle_reply env _ ?p] => exists p
  end.
  change (http_requests w2) with (http_requests w) in H.
  assert (groups (db w3) = groups (db w)) as Hg by (rewrite Vg; reflexivity).
  cbv beta iota zeta in H.
  destruct (Mediation.reply_text_of (oracle_reply env (http_requests w) _)) as [r|].
  2:{ run in H. subst res. cbn [fst snd]. rewrite T3. unfold w2. cbn [trace with_trace].
      eexists. split; [rewrite <- !app_assoc; reflexivity|].
      rewrite !posted_app, P3. split; [reflexivity|].
      repeat (apply no_message_app); try exact F3; repeat constructor. }
  cbn [groups_of user_name DB.touch_user] in H.
  destruct (alert_match text_) eqn:Halert.
  - destruct (bool_decide (is_Some (private_chat_sessions w !! uid))); cbn [negb] in H;
      run in H;
      match type of H with
      | context [Mediation.notify_ats ?gs ?seen ?name env ?wx] =>
          destruct (notify_ats_run name gs seen env wx) as (l & rec & Hn & Hs & Hnd & Hin);
          pose proof (notify_ats_posts_nothing name gs seen env wx l) as Hp;
          rewrite Hn in H, Hp; specialize (Hp eq_refl)
      end;
      subst res; cbn [fst snd];
      cbn [db trace with_trace with_clock_reads with_sessions] in Hin |- *;
      rewrite (creators_same_groups (db w) (db w3) _ Hg) in Hin;
      rewrite T3; unfold w2; cbn [trace with_trace];
      eexists; (split; [rewrite <- !app_assoc; reflexivity|]);
      (split; [rewrite !posted_app, P3, Hp; cbn; now rewrite ?app_nil_r|]);
      (split; [rewrite !elem_of_app, !elem_of_cons; tauto|]);
      (split; [discriminate|]); intros _; exists rec;
      (split; [|split; [exact Hnd|]; intros a; rewrite (Hin a); split;
                [intros [H1 _]; exact H1
                | intros H1; split; [exact H1|]; apply not_elem_of_empty]]);
      rewrite !sent_app, (sent_no_message l3 F3); cbn; exact Hs.
  - destruct (bool_decide (is_Some (private_chat_sessions w !! uid))); cbn [negb] in H;
      run in H; subst res; cbn [fst snd];
      cbn [db trace with_trace with_clock_reads with_sessions];
      rewrite T3; unfold w2; cbn [trace with_trace];
      eexists; (split; [rewrite <- !app_assoc; reflexivity|]);
      (split; [rewrite !posted_app, P3; cbn; now rewrite ?app_nil_r|]);
      (split; [rewrite !elem_of_app, !elem_of_cons; tauto|]);
      (split; [|discriminate]); intros _;
      rewrite !sent_app, (sent_no_message l3 F3); reflexivity.
Qed.

(** ** The group handler when the mediator is let in *)

Lemma should_ai_intervene_throttled (env : Env) (w : World) (gid last_intervention : Z) :
  group_message_timestamps w !! gid = Some last_intervention ->
  Mediation.should_ai_intervene gid env w
  = (Ok (clock env (clock_reads w) - last_intervention >? Mediation.five_minutes),
     with_trace (with_clock_reads w (S (clock_reads w)))
       (trace w ++ [EvReadTimestamp gid; EvNow (clock env (clock_reads w))])).
Proof.
  intros Hts. unfold Mediation.should_ai_intervene. run. rewrite Hts. run.
  rewrite <- app_assoc. now destruct (_ >? _).
Qed.

Lemma should_ai_intervene_elapsed (env : Env) (w : World) (gid last_intervention : Z) :
  group_message_timestamps w !! gid = Some last_intervention ->
  Mediation.five_minutes < clock env (clock_reads w) - last_intervention ->
  Mediation.should_ai_intervene gid env w
  = (Ok true,
     with_trace (with_clock_reads w (S (clock_reads w)))
       (trace w ++ [EvReadTimestamp gid; EvNow (clock env (clock_reads w))])).
Proof.
  intros Hts Hlt. rewrite (should_ai_intervene_throttled env w gid _ Hts).
  apply Z.ltb_lt in Hlt. now rewrite Z.gtb_ltb, Hlt.
Qed.

Lemma group_apology_raises_no_alert : alert_match LLM.group_mediation_failed = false.
Proof. vm_compute. reflexivity. Qed.

Ltac group_open_tail w Hg :=
  match goal with
  | H : context [LLM.mediate_group_conversation ?chat ?rm ?uid ?env ?wx] |- _ =>
      let w2 := fresh "w2" in
      set (w2 := wx) in H;
      let g' := fresh "g'" in
      let Hg' := fresh "Hg'" in
      assert (exists g', groups (db w2) !! chat = Some g') as (g' & Hg')
        by (unfold w2; cbn; rewrite ?lookup_alter_eq, Hg; eexists; reflexivity);
      let w3 := fresh "w3" in
      let l3 := fresh "l3" in
      let Hrun := fresh "Hrun" in
      let T3 := fresh "T3" in
      let F3 := fresh "F3" in
      let P3 := fresh "P3" in
      let V3 := fresh "V3" in
      destruct (mediate_run_trace env w2 chat rm uid g' Hg')
        as (w3 & l3 & Hrun & T3 & F3 & P3 & V3);
      rewrite Hrun in H;
      change (http_requests w2) with (http_requests w) in H;
      match type of Hrun with
      | context [oracle_reply env _ ?p] =>
          exists p;
          let s := fresh "s" in
          destruct (oracle_reply env (http_requests w) p) as [s|];
          cbv beta iota zeta in H;
          cbv beta iota delta [default from_option id];
          [ unfold Mediation.reply_text_of in H |- *;
            destruct (PyStr.truthy s)
          | unfold Mediation.reply_text_of in H |- *;
            change (PyStr.truthy LLM.group_mediation_failed) with true in H |- *;
            cbv beta iota in H |- * ];
          run in H; cbn [created_by group_name DB.touch_group] in H;
          unfold group_sends; rewrite ?group_apology_raises_no_alert;
          try (destruct (alert_match s); cbn [andb];
               [destruct (negb (created_by _ =? 0))|]);
          subst; cbn [fst snd trace with_trace with_timestamps with_clock_reads
                        group_message_timestamps andb];
          rewrite T3; unfold w2; cbn [trace with_trace];
          eexists; (split; [rewrite <- !app_assoc; reflexivity|]);
          (split; [rewrite !posted_app, P3; cbn; now rewrite ?app_nil_r|]);
          first
            [ split;
              [ rewrite !sent_app, (sent_no_message l3 F3); reflexivity
              | eexists; apply lookup_insert_eq ]
            | split;
              [ repeat (apply no_message_app); try exact F3; repeat constructor
              | rewrite V3; reflexivity ] ]
      end
  end.

(** The group handler on a message of a stored group whose mediator is
    enabled and whose throttle is open: the request made, and what
    follows from the reply the mediation call hands back (the wrapper's,
    or the apology of the call when the wrapper returned none). *)
Lemma group_open_run env w uid chat ct text_ g res :
  ct = "group" \/ ct = "supergroup" ->
  groups (db w) !! chat = Some g -> ai_mediator_enabled g = true ->
  throttle_open env w chat ->
  Mediation.handle_group_message (TextMessage uid chat ct text_) env w = res ->
  exists prompt l,
    trace res.2 = (trace w ++ l)%list
    /\ posted l = (if LLM.has_api_key env then [prompt] else [])
    /\ match Mediation.reply_text_of
               (Some (default LLM.group_mediation_failed
                        (oracle_reply env (http_requests w) prompt))) with
       | Some r =>
           sent l = group_sends chat g r
           /\ exists n, group_message_timestamps res.2 !! chat = Some (clock env n)
       | None =>
           Forall no_message l
           /\ group_message_timestamps res.2 = group_message_timestamps w
       end.
Proof.
  intros Hct Hg He Hopen H.
  unfold Mediation.handle_group_message in H. unfold DB.store_message in H.
  assert (String.eqb ct "group" || String.eqb ct "supergroup" = true) as Hc
    by (destruct Hct; subst; reflexivity).
  rewrite Hc in H. run in H.
  unfold throttle_open, throttle_reading in Hopen.
  destruct (chat =? 0); run in H;
    rewrite ?lookup_alter_eq, Hg in H; cbn [fmap option_fmap option_map] in H;
    cbn [ai_mediator_enabled DB.touch_group] in H; rewrite He in H;
    destruct (group_message_timestamps w !! chat) as [last_intervention|] eqn:Hts.
  - replace (clock_reads w + 2)%nat with (S (S (clock_reads w))) in Hopen by lia.
    match type of H with
    | context [Mediation.should_ai_intervene ?c env ?wx] =>
        rewrite (should_ai_intervene_elapsed env wx c _ Hts Hopen) in H
    end. run in H. group_open_tail w Hg.
  - match type of H with
    | context [Mediation.should_ai_intervene ?c env ?wx] =>
        rewrite (should_ai_intervene_first env wx c Hts) in H
    end. run in H. group_open_tail w Hg.
  - replace (clock_reads w + 3)%nat with (S (S (S (clock_reads w)))) in Hopen by lia.
    match type of H with
    | context [Mediation.should_ai_intervene ?c env ?wx] =>
        rewrite (should_ai_intervene_elapsed env wx c _ Hts Hopen) in H
    end. run in H. group_open_tail w Hg.
  - match type of H with
    | context [Mediation.should_ai_intervene ?c env ?wx] =>
        rewrite (should_ai_intervene_first env wx c Hts) in H
    end. run in H. group_open_tail w Hg.
Qed.

(** ** Messages the private handler leaves alone *)

Ltac only_stored :=
  subst; cbn;
  split; [reflexivity|]; split; [reflexivity|]; split; [reflexivity|];
  split; [reflexivity|];
  eexists; split; [rewrite <- ?app_assoc; reflexivity|]; cbn [app]; repeat constructor.

Lemma private_outside_run (uid chat : Z) (chat_type text_ : string) (env : Env) (w : World) :
  outside_support w uid text_ ->
  let handled := Mediation.handle_private_message (TextMessage uid chat chat_type text_) env w in
  handled.1 = Ok tt
  /\ http_requests handled.2 = http_requests w
  /\ interactions (db handled.2) = interactions (db w)
  /\ private_chat_sessions handled.2 = private_chat_sessions w
  /\ exists l, trace handled.2 = (trace w ++ l)%list /\ Forall silent l.
Proof.
  intros Hout. cbv zeta.
  remember (Mediation.handle_private_message (TextMessage uid chat chat_type text_) env w)
    as res eqn:H.
  unfold Mediation.handle_private_message, DB.store_message in H. run in H.
  rewrite lookup_alter_eq in H. unfold outside_support in Hout.
  destruct (users (db w) !! uid) as [user|]; cbn [fmap option_fmap option_map] in H.
  2:{ only_stored. }
  cbn [role DB.touch_user] in H.
  destruct (String.eqb_spec (role user) "autista") as [Hr|Hr].
  2:{ only_stored. }
  run in H.
  assert (negb (PyStr.startswith "/" text_)
          && (bool_decide (is_Some (private_chat_sessions w !! uid))
              || Mediation.needs_support text_) = false) as Hgate.
  { destruct Hout as [Hout | [Hc | [Hs Hn]]]; [contradiction | now rewrite Hc |].
    rewrite Hs, Hn. rewrite bool_decide_eq_false_2 by (intros [? ?]; discriminate).
    apply andb_false_r. }
  rewrite Hgate in H. only_stored.
Qed.

Lemma sent_silent (l : list Event) : Forall silent l -> sent l = [].
Proof.
  induction 1 as [|e l He _ IH]; [reflexivity|].
  unfold sent in *. cbn [omap list_omap]. rewrite IH. now destruct e.
Qed.

(** ** Alerts of a private message *)

(** C6. A private message of a registered autistic member that is taken
    into the support path (it is no command, and a support session is open
    or the text suggests a need for support) makes one request to the
    Oracle wrapper (the first since [w], so the wrapper answers it as it
    would in [w]). When the wrapper's reply to it is non-empty and the
    alert policy holds of the text, the messages sent are the alert, once
    to each creator of a stored group of the sender's membership list (a
    creator id of 0 counts as none), a creator of several of the groups
    getting one. When the reply is empty or absent, or the policy does not
    hold, nothing is sent. A message outside the support path (the sender
    is unknown or no autistic member, the text is a command, or no session
    is open and the text does not suggest a need for support) has nothing
    sent either, whatever the alert policy says of it. *)
Theorem private_alert_once (env : Env) (w : World) (uid chat : Z) (chat_type text_ : string) :
  let new := drop (length (trace w))
               (trace (Mediation.handle_private_message
                         (TextMessage uid chat chat_type text_) env w).2) in
  (forall user,
      users (db w) !! uid = Some user -> role user = "autista" ->
      PyStr.startswith "/" text_ = false ->
      is_Some (private_chat_sessions w !! uid) \/ Mediation.needs_support text_ = true ->
      exists prompt reply,
        (LLM._call_llm_api prompt env w).1 = Ok reply
        /\ posted new = (if LLM.has_api_key env then [prompt] else [])
        /\ (forall r, reply = Some r -> PyStr.truthy r = true ->
              (LLM._analyze_for_alert (Some text_) [] env w).1 = Ok true ->
              exists recipients,
                sent new
                = (fun a => (a, Mediation.private_alert_text (user_name user))) <$> recipients
                /\ NoDup recipients
                /\ forall a, a ∈ recipients <-> a ∈ creators (db w) (groups_of user))
        /\ (reply = None \/ (exists r, reply = Some r /\ PyStr.truthy r = false)
            \/ (LLM._analyze_for_alert (Some text_) [] env w).1 = Ok false ->
            sent new = []))
  /\ (outside_support w uid text_ -> sent new = []).
Proof.
  cbv zeta. split.
  - intros user Hu Hr Hcmd Hneed.
    destruct (private_support_run env w uid chat chat_type text_ user _ Hu Hr Hcmd Hneed
                eq_refl) as (prompt & l & T & P & Hl).
    exists prompt, (oracle_reply env (http_requests w) prompt).
    rewrite call_llm_api_run, T, drop_app_length.
    split; [reflexivity|]. split; [exact P|]. rewrite !analyze_run. cbn [fst].
    unfold Mediation.reply_text_of in Hl. split.
    + intros r Hreply Ht Halert. rewrite Hreply, Ht in Hl.
      destruct Hl as (_ & _ & Hsent). apply Hsent. congruence.
    + intros [Hnone | [(r & Hreply & Ht) | Halert]].
      * rewrite Hnone in Hl. now apply sent_no_message.
      * rewrite Hreply, Ht in Hl. now apply sent_no_message.
      * destruct (oracle_reply env (http_requests w) prompt) as [r|];
          [destruct (PyStr.truthy r)|]; try (now apply sent_no_message).
        destruct Hl as (_ & Hsent & _). apply Hsent. congruence.
  - intros Hout.
    destruct (private_outside_run uid chat chat_type text_ env w Hout)
      as (_ & _ & _ & _ & l & T & F).
    rewrite T, drop_app_length. now apply sent_silent.
Qed.

Lemma private_alert_once_witness :
  let w := Main.started Sample.store in
  let text_ := "socorro, preciso de ajuda" in
  let new := drop (length (trace w))
               (trace (Mediation.handle_private_message (TextMessage 9 9 "private" text_)
                         Sample.answering w).2) in
  users (db w) !! 9 = Some Sample.rui
  /\ creators (db w) (groups_of Sample.rui) = [7; 7]
  /\ exists recipients,
       sent new
       = (fun a => (a, Mediation.private_alert_text (user_name Sample.rui))) <$> recipients
       /\ NoDup recipients
       /\ forall a, a ∈ recipients <-> a ∈ creators (db w) (groups_of Sample.rui).
Proof.
  cbv zeta. split; [reflexivity|]. split; [reflexivity|].
  destruct (private_alert_once Sample.answering (Main.started Sample.store) 9 9 "private"
              "socorro, preciso de ajuda") as [Hin _].
  destruct (Hin Sample.rui eq_refl eq_refl eq_refl (or_intror eq_refl))
    as (prompt & reply & Hcall & _ & Halert & _).
  apply (Halert "Respire fundo.").
  - rewrite call_llm_api_run in Hcall. cbn [fst] in Hcall. injection Hcall as <-. reflexivity.
  - reflexivity.
  - reflexivity.
Defined.

(** A message of which the alert policy holds but that the support
    heuristic does not take: nothing is sent, though the sender's groups
    have a facilitator. *)
Lemma alert_outside_support_is_dropped :
  let w := Main.started Sample.store in
  let u := TextMessage 9 9 "private" "quero morrer" in
  users (db w) !! 9 = Some Sample.rui
  /\ role Sample.rui = "autista"
  /\ (LLM._analyze_for_alert (Some "quero morrer") [] Sample.answering w).1 = Ok true
  /\ creators (db w) (groups_of Sample.rui) = [7; 7]
  /\ Mediation.needs_support "quero morrer" = false
  /\ (Mediation.handle_private_message u Sample.answering w).1 = Ok tt
  /\ sent (trace (Mediation.handle_private_message u Sample.answering w).2) = [].
Proof. vm_compute. repeat split; reflexivity. Qed.

Lemma sent_elem (l : list Event) (chat : Z) (msg : string) :
  (chat, msg) ∈ sent l -> EvSend chat msg ∈ l.
Proof.
  unfold sent. intros H. apply list_elem_of_omap in H as (e & He & Hm).
  destruct e; try discriminate. now injection Hm as -> ->.
Qed.

(** ** The reply guard *)

(** C10. The Oracle wrapper always returns and raises nothing. In each of
    its failure modes the result is one of the fixed apologies, none of
    them empty; on a success status it is the completion as the endpoint
    gave it, which may be empty or absent. Once a handler has invoked the
    wrapper (the mediator is let into the group; the private message is
    taken into the support path), the guard of the reply decides by the
    wrapper's reply to that request (the first since [w], so the wrapper
    answers it as it would in [w]): a non-empty reply is sent (to the
    group, or as the answer to the member); after an empty one nothing is
    said to any chat; after an absent one the private handler says
    nothing, while the group handler sends the apology of the mediation
    call, which fails on the absent reply. *)
Theorem oracle_wrapper_total (env : Env) :
  (forall prompt w, exists reply w', LLM._call_llm_api prompt env w = (Ok reply, w'))
  /\ (oracle_fails env ->
      forall prompt w, exists apology,
        (LLM._call_llm_api prompt env w).1 = Ok (Some apology)
        /\ apology ∈ apologies /\ PyStr.truthy apology = true)
  /\ (forall prompt w completion,
        LLM.has_api_key env = true ->
        http_post env (http_requests w) prompt = HttpResponse 200 (BodyContent completion) ->
        (LLM._call_llm_api prompt env w).1 = Ok completion)
  /\ (forall uid chat chat_type text_ g w,
        chat_type = "group" \/ chat_type = "supergroup" ->
        groups (db w) !! chat = Some g -> ai_mediator_enabled g = true ->
        throttle_open env w chat ->
        let new := drop (length (trace w))
                     (trace (Mediation.handle_group_message
                               (TextMessage uid chat chat_type text_) env w).2) in
        exists prompt reply,
          (LLM._call_llm_api prompt env w).1 = Ok reply
          /\ posted new = (if LLM.has_api_key env then [prompt] else [])
          /\ match reply with
             | Some r =>
                 if PyStr.truthy r
                 then EvSend chat (Mediation.mediator_prefix +:+ r) ∈ new
                 else Forall no_message new
             | None =>
                 EvSend chat (Mediation.mediator_prefix +:+ LLM.group_mediation_failed) ∈ new
             end)
  /\ (forall uid chat chat_type text_ user w,
        users (db w) !! uid = Some user -> role user = "autista" ->
        PyStr.startswith "/" text_ = false ->
        is_Some (private_chat_sessions w !! uid) \/ Mediation.needs_support text_ = true ->
        let new := drop (length (trace w))
                     (trace (Mediation.handle_private_message
                               (TextMessage uid chat chat_type text_) env w).2) in
        exists prompt reply,
          (LLM._call_llm_api prompt env w).1 = Ok reply
          /\ posted new = (if LLM.has_api_key env then [prompt] else [])
          /\ match reply with
             | Some r =>
                 if PyStr.truthy r
                 then EvReply chat (Mediation.assistant_prefix +:+ r) [] ∈ new
                 else Forall no_message new
             | None => Forall no_message new
             end).
Proof.
  split; [|split; [|split; [|split]]].
  - intros prompt w. rewrite call_llm_api_run. eexists. eexists. reflexivity.
  - intros Hf prompt w. rewrite call_llm_api_run.
    destruct (oracle_reply_fails env (http_requests w) prompt Hf) as (apology & -> & Hin).
    exists apology. split; [reflexivity|]. split; [exact Hin|].
    apply (reply_text_of_truthy (Some apology)). now apply apologies_nonempty.
  - intros prompt w completion Hk Hp. rewrite call_llm_api_run.
    unfold oracle_reply. rewrite Hk, Hp. reflexivity.
  - intros uid chat chat_type text_ g w Hct Hg He Hopen. cbv zeta.
    destruct (group_open_run env w uid chat chat_type text_ g _ Hct Hg He Hopen eq_refl)
      as (prompt & l & T & P & Hl).
    exists prompt, (oracle_reply env (http_requests w) prompt).
    rewrite call_llm_api_run, T, drop_app_length.
    split; [reflexivity|]. split; [exact P|].
    unfold Mediation.reply_text_of in Hl.
    destruct (oracle_reply env (http_requests w) prompt) as [r|]; cbn [default] in Hl.
    + change (id r) with r in Hl. destruct (PyStr.truthy r); [|exact (proj1 Hl)].
      destruct Hl as [Hs _]. apply (sent_elem l chat). rewrite Hs. apply list_elem_of_here.
    + change (PyStr.truthy (id LLM.group_mediation_failed)) with true in Hl.
      destruct Hl as [Hs _]. apply (sent_elem l chat). rewrite Hs. apply list_elem_of_here.
  - intros uid chat chat_type text_ user w Hu Hr Hcmd Hneed. cbv zeta.
    destruct (private_support_run env w uid chat chat_type text_ user _ Hu Hr Hcmd Hneed
                eq_refl) as (prompt & l & T & P & Hl).
    exists prompt, (oracle_reply env (http_requests w) prompt).
    rewrite call_llm_api_run, T, drop_app_length.
    split; [reflexivity|]. split; [exact P|].
    unfold Mediation.reply_text_of in Hl.
    destruct (oracle_reply env (http_requests w) prompt) as [r|]; [|exact Hl].
    destruct (PyStr.truthy r); [exact (proj1 Hl) | exact Hl].
Qed.

Lemma oracle_wrapper_total_witness :
  let w := Main.started Sample.store in
  let new := drop (length (trace w))
               (trace (Mediation.handle_group_message (TextMessage 9 1 "group" "oi")
                         Sample.absent_completion w).2) in
  throttle_open Sample.absent_completion w 1
  /\ (forall prompt, (LLM._call_llm_api prompt Sample.absent_completion w).1 = Ok None)
  /\ EvSend 1 (Mediation.mediator_prefix +:+ LLM.group_mediation_failed) ∈ new.
Proof.
  cbv zeta.
  assert (throttle_open Sample.absent_completion (Main.started Sample.store) 1) as Hopen
    by exact I.
  assert (forall prompt,
             (LLM._call_llm_api prompt Sample.absent_completion
                (Main.started Sample.store)).1 = Ok None) as Hnone
    by (intros prompt; rewrite call_llm_api_run; reflexivity).
  split; [exact Hopen|]. split; [exact Hnone|].
  destruct (oracle_wrapper_total Sample.absent_completion) as (_ & _ & _ & Hg & _).
  destruct (Hg 9 1 "group" "oi" Sample.jogos (Main.started Sample.store)
              (or_introl eq_refl) eq_refl eq_refl Hopen) as (prompt & reply & Hcall & _ & Hm).
  rewrite (Hnone prompt) in Hcall. injection Hcall as <-. exact Hm.
Defined.

(** An endpoint that answers 200 with an empty completion: the wrapper
    returns the empty string, the guard of the reply is not taken, and the
    group gets no message. *)
Lemma empty_completion_is_not_sent :
  let w := Main.started Sample.store in
  let u := TextMessage 9 1 "group" "oi" in
  (LLM._call_llm_api "Olá" Sample.empty_completion w).1 = Ok (Some EmptyString)
  /\ groups (db w) !! 1 = Some Sample.jogos
  /\ ai_mediator_enabled Sample.jogos = true
  /\ group_message_timestamps w !! 1 = None
  /\ (Mediation.handle_group_message u Sample.empty_completion w).1 = Ok tt
  /\ EvHttpPost
       (LLM.group_prompt Sample.empty_completion Sample.jogos [(9, Sample.rui)]
          [LLM.group_turn [(9, Sample.rui)]
             (stored_message 9 (Some 1) "oi" Sample.empty_completion w)])
     ∈ trace (Mediation.handle_group_message u Sample.empty_completion w).2
  /\ sent (trace (Mediation.handle_group_message u Sample.empty_completion w).2) = [].
Proof.
  cbv zeta. split; [reflexivity|]. split; [reflexivity|]. split; [reflexivity|].
  split; [reflexivity|]. split; [vm_compute; reflexivity|].
  split; [|vm_compute; reflexivity].
  apply list_elem_of_In. vm_compute. tauto.
Qed.

(** ** The context of private support *)



(** ** Numerals and buttons *)

Section Numerals.

Import PyStr.

Lemma digits_uint (d : Decimal.uint) (acc : Z) (b : bool) :
  d <> Decimal.Nil \/ b = true ->
  digits (NilEmpty.string_of_uint d) acc b = Some (uint_val d acc).
Proof.
  revert acc b.
  induction d as [|d IH|d IH|d IH|d IH|d IH|d IH|d IH|d IH|d IH|d IH]; intros acc b H;
    try (cbn [NilEmpty.string_of_uint digits uint_val];
         change (is_digit _) with true; cbv iota;
         rewrite IH by (right; reflexivity);
         f_equal; f_equal; unfold digit_val; cbn; lia).
  destruct H as [H | ->]; [contradiction | reflexivity].
Qed.

Lemma uint_val_acc (d : Decimal.uint) (p : positive) :
  uint_val d (Z.pos p) = Z.pos (Pos.of_uint_acc d p).
Proof.
  revert p.
  induction d as [|d IH|d IH|d IH|d IH|d IH|d IH|d IH|d IH|d IH|d IH]; intros p;
    cbn [uint_val Pos.of_uint_acc]; [reflexivity|..];
    match goal with
    | |- uint_val _ ?z = Z.pos (Pos.of_uint_acc _ ?q) =>
        replace z with (Z.pos q) by lia; apply IH
    end.
Qed.

Lemma uint_val_of_uint (d : Decimal.uint) : uint_val d 0 = Z.of_uint d.
Proof.
  unfold Z.of_uint.
  induction d as [|d IH|d IH|d IH|d IH|d IH|d IH|d IH|d IH|d IH|d IH];
    cbn [uint_val Pos.of_uint]; [reflexivity | exact IH |..];
    match goal with
    | |- uint_val _ ?z = _ =>
        match eval cbv in z with
        | Z.pos ?q => change z with (Z.pos q); rewrite uint_val_acc; reflexivity
        end
    end.
Qed.

Lemma skip_left_nonspace (c : ascii) (s : string) :
  is_space c = false -> skip_left (String c s) = String c s.
Proof. intros H. cbn [skip_left]. now rewrite H. Qed.

Lemma skip_right_no_space (s : string) : no_space s = true -> skip_right s = s.
Proof.
  induction s as [|c s IH]; [reflexivity|]. cbn [no_space skip_right].
  intros H. apply andb_true_iff in H as [Hc Hs]. rewrite (IH Hs).
  destruct s; [|reflexivity]. apply negb_true_iff in Hc. now rewrite Hc.
Qed.

Lemma skip_spaces_no_space (s : string) : no_space s = true -> skip_spaces s = s.
Proof.
  intros H. unfold skip_spaces. destruct s as [|c s]; [reflexivity|].
  pose proof H as H'. cbn [no_space] in H'. apply andb_true_iff in H' as [Hc _].
  apply negb_true_iff in Hc. rewrite (skip_left_nonspace c s Hc).
  now apply skip_right_no_space.
Qed.

Lemma uint_no_space (d : Decimal.uint) : no_space (NilEmpty.string_of_uint d) = true.
Proof. induction d; cbn [NilEmpty.string_of_uint no_space]; try exact IHd; reflexivity. Qed.

Lemma uint_numeral (d : Decimal.uint) : numeral_chars (NilEmpty.string_of_uint d) = true.
Proof. induction d; cbn [NilEmpty.string_of_uint numeral_chars]; try exact IHd; reflexivity. Qed.

Lemma uint_ascii (d : Decimal.uint) : ascii_only (NilEmpty.string_of_uint d) = true.
Proof. induction d; cbn [NilEmpty.string_of_uint ascii_only]; try exact IHd; reflexivity. Qed.

(** An ASCII text is read by [int()] as it is. *)
Lemma ascii_form_ascii (s : string) : ascii_only s = true -> ascii_form s = Some s.
Proof.
  unfold ascii_form, code_points. intros H.
  assert (exists cps, code_points_from s 0 0 0 = Some cps /\ ascii_chars cps = Some s)
    as (cps & -> & Hc); [|exact Hc].
  induction s as [|c s IH]; [exists []; split; reflexivity|].
  cbn [ascii_only] in H. apply andb_true_iff in H as [Hc Hs].
  destruct (IH Hs) as (cps & Hp & Ha). exists (N_of_ascii c :: cps).
  cbn [code_points_from]. cbv zeta. rewrite Hc, Hp. split; [reflexivity|].
  cbn [ascii_chars]. unfold to_ascii. now rewrite Hc, Ha, ascii_N_embedding.
Qed.

Lemma count_digits_uint (d : Decimal.uint) :
  count_digits (NilEmpty.string_of_uint d) = Decimal.nb_digits d.
Proof.
  induction d; cbn [NilEmpty.string_of_uint count_digits Decimal.nb_digits];
    [reflexivity|..]; change (is_digit _) with true; cbv iota; now rewrite IHd.
Qed.

Lemma uint_val_lower (d : Decimal.uint) (acc : Z) :
  0 <= acc -> acc * 10 ^ Z.of_nat (Decimal.nb_digits d) <= uint_val d acc.
Proof.
  revert acc.
  induction d as [|d IH|d IH|d IH|d IH|d IH|d IH|d IH|d IH|d IH|d IH]; intros acc Hacc;
    cbn [uint_val Decimal.nb_digits]; [rewrite Z.pow_0_r; lia|..];
    rewrite Nat2Z.inj_succ, Z.pow_succ_r by lia;
    (etransitivity; [|apply IH; lia]);
    assert (0 < 10 ^ Z.of_nat (Decimal.nb_digits d)) by (apply Z.pow_pos_nonneg; lia); nia.
Qed.

Lemma to_uint_normal (p : positive) : Decimal.unorm (Pos.to_uint p) = Pos.to_uint p.
Proof.
  rewrite <- (Unsigned.to_of (Pos.to_uint p)), Unsigned.of_to. reflexivity.
Qed.

(** A positive number below [10 ^ k] has at most [k] digits. *)
Lemma to_uint_digits (p : positive) (k : nat) :
  Z.pos p < 10 ^ Z.of_nat k -> (Decimal.nb_digits (Pos.to_uint p) <= k)%nat.
Proof.
  intros Hlt.
  assert (uint_val (Pos.to_uint p) 0 = Z.pos p) as Hval.
  { rewrite uint_val_of_uint. unfold Z.of_uint. now rewrite Unsigned.of_to. }
  pose proof (to_uint_normal p) as Hnorm.
  pose proof (Unsigned.to_uint_nonnil p) as Hnil.
  assert (forall d acc, 1 <= acc -> uint_val d acc = Z.pos p ->
                        (S (Decimal.nb_digits d) <= k)%nat) as Hhead.
  { intros d acc Hacc Hd.
    pose proof (uint_val_lower d acc ltac:(lia)) as Hlow. rewrite Hd in Hlow.
    assert (0 < 10 ^ Z.of_nat (Decimal.nb_digits d)) by (apply Z.pow_pos_nonneg; lia).
    assert (10 ^ Z.of_nat (Decimal.nb_digits d) < 10 ^ Z.of_nat k) as Hpow by nia.
    apply Z.pow_lt_mono_r_iff in Hpow; lia. }
  destruct (Pos.to_uint p) as [|d|d|d|d|d|d|d|d|d|d] eqn:E; [contradiction | ..];
    cbn [Decimal.nb_digits];
    try (cbn [uint_val] in Hval; refine (Hhead d _ _ Hval); lia).
  unfold Decimal.unorm in Hnorm.
  destruct (Decimal.nzhead (Decimal.D0 d)) as [|u|u|u|u|u|u|u|u|u|u] eqn:Hz;
    try discriminate Hnorm.
  - injection Hnorm as <-. discriminate Hval.
  - exfalso. exact (nzhead_nonzero _ _ Hz).
Qed.

(** [int(str(n)) == n], for a number of no more digits than the
    interpreter converts. *)
Lemma int_str (n : Z) : convertible n -> int (str n) = Some n.
Proof.
  unfold convertible. intros Hn.
  assert (forall p, Z.pos p < 10 ^ 4300 ->
            numeral (NilEmpty.string_of_uint (Pos.to_uint p)) = Some (Z.pos p)) as Hnum.
  { intros p Hp. unfold numeral. rewrite count_digits_uint.
    pose proof (to_uint_digits p 4300 Hp) as Hd. apply Nat.leb_le in Hd.
    unfold max_str_digits. rewrite Hd.
    rewrite (digits_uint _ 0 false) by (left; apply Unsigned.to_uint_nonnil).
    rewrite uint_val_of_uint. unfold Z.of_uint. now rewrite Unsigned.of_to. }
  unfold str. destruct n as [|p|p]; [reflexivity|..]; cbn [Z.to_int NilZero.string_of_int];
    unfold NilZero.string_of_uint;
    pose proof (Unsigned.to_uint_nonnil p) as Hnil;
    replace (match Pos.to_uint p with
             | Decimal.Nil => "0"
             | _ => NilEmpty.string_of_uint (Pos.to_uint p)
             end)
      with (NilEmpty.string_of_uint (Pos.to_uint p)) by (destruct (Pos.to_uint p); congruence);
    unfold int.
  - rewrite (ascii_form_ascii _ (uint_ascii _)), (skip_spaces_no_space _ (uint_no_space _)).
    rewrite <- (Hnum p Hn).
    destruct (Pos.to_uint p); try contradiction; reflexivity.
  - assert (ascii_only (String "-" (NilEmpty.string_of_uint (Pos.to_uint p))) = true) as Ha
      by (cbn [ascii_only]; rewrite uint_ascii; reflexivity).
    assert (no_space (String "-" (NilEmpty.string_of_uint (Pos.to_uint p))) = true) as Hs
      by (cbn [no_space]; rewrite uint_no_space; reflexivity).
    rewrite (ascii_form_ascii _ Ha), (skip_spaces_no_space _ Hs).
    rewrite (Hnum p Hn). reflexivity.
Qed.

Lemma str_numeral (n : Z) : numeral_chars (str n) = true.
Proof.
  unfold str. destruct n as [|p|p]; [reflexivity|..]; cbn [Z.to_int NilZero.string_of_int];
    unfold NilZero.string_of_uint;
    destruct (Pos.to_uint p) eqn:E; try reflexivity;
    rewrite <- E; cbn [numeral_chars]; rewrite uint_numeral; reflexivity.
Qed.

Lemma numeral_free_of_underscore (s : string) : numeral_chars s = true -> free_of "_" s = true.
Proof.
  induction s as [|c s IH]; [reflexivity|]. cbn [numeral_chars free_of].
  intros H. apply andb_true_iff in H as [Hc Hs]. rewrite (IH Hs), andb_true_r.
  destruct (Ascii.eqb_spec c "_") as [->|]; [discriminate Hc | reflexivity].
Qed.

Lemma split_free (sep : ascii) (s : string) : free_of sep s = true -> split sep s = [s].
Proof.
  induction s as [|c s IH]; [reflexivity|]. cbn [free_of split].
  intros H. apply andb_true_iff in H as [Hc Hs]. apply negb_true_iff in Hc.
  rewrite Hc, (IH Hs). reflexivity.
Qed.

Lemma split_cons_free (sep : ascii) (a rest : string) :
  free_of sep a = true -> split sep (a +:+ String sep rest) = a :: split sep rest.
Proof.
  induction a as [|c a IH]; intros H.
  - rewrite append_nil. cbn [split]. now rewrite Ascii.eqb_refl.
  - cbn [free_of] in H. apply andb_true_iff in H as [Hc Hs]. apply negb_true_iff in Hc.
    rewrite append_cons. cbn [split]. rewrite Hc, (IH Hs). reflexivity.
Qed.

End Numerals.

(** ** Queries of the store *)


Lemma insert_asc_perm (a : Activity) (l : list Activity) : DB2.insert_asc a l ≡ₚ a :: l.
Proof.
  induction l as [|y l IH]; [reflexivity|]. cbn [DB2.insert_asc].
  destruct (scheduled_time a <=? scheduled_time y); [reflexivity|].
  rewrite IH. apply Permutation_swap.
Qed.

Lemma sort_asc_perm (l : list Activity) : DB2.sort_asc l ≡ₚ l.
Proof.
  induction l as [|a l IH]; [reflexivity|].
  unfold DB2.sort_asc in *. cbn [foldr]. rewrite insert_asc_perm. now rewrite IH.
Qed.

Lemma insert_asc_sorted (a : Activity) (l : list Activity) :
  StronglySorted earlier l -> StronglySorted earlier (DB2.insert_asc a l).
Proof.
  induction 1 as [|y l Hl IH Hy]; [repeat constructor|]. cbn [DB2.insert_asc].
  destruct (Z.leb_spec (scheduled_time a) (scheduled_time y)) as [Hle|Hgt].
  - constructor; [constructor; assumption|]. constructor; [exact Hle|].
    eapply Forall_impl; [exact Hy|]. unfold earlier. intros; lia.
  - constructor; [exact IH|]. rewrite insert_asc_perm. constructor; [unfold earlier; lia | exact Hy].
Qed.

Lemma sort_asc_sorted (l : list Activity) : StronglySorted earlier (DB2.sort_asc l).
Proof.
  induction l as [|a l IH]; [constructor|].
  unfold DB2.sort_asc in *. cbn [foldr]. now apply insert_asc_sorted.
Qed.

(** [get_user_activities]: for a user that is not registered or in no
    group the result is empty; else it is a rearrangement of the scheduled
    activities of the user's groups, earliest first. The call changes
    nothing in the store. *)
Theorem user_activities_are_scheduled (uid : Z) (env : Env) (w : World) :
  let r := DB2.get_user_activities uid env w in
  db r.2 = db w
  /\ exists l,
       r.1 = Ok l
       /\ StronglySorted earlier l
       /\ match users (db w) !! uid with
          | None => l = []
          | Some user =>
              l ≡ₚ List.filter (scheduled_in (groups_of user)) (activities (db w))
              /\ forall a, a ∈ l <->
                   a ∈ activities (db w) /\ activity_group_id a ∈ groups_of user
                   /\ status a = "scheduled"
          end.
Proof.
  unfold DB2.get_user_activities. run.
  destruct (users (db w) !! uid) as [user|]; run.
  2:{ split; [reflexivity|]. exists []. repeat split; constructor. }
  assert (forall a, a ∈ List.filter (scheduled_in (groups_of user)) (activities (db w)) <->
                    a ∈ activities (db w) /\ activity_group_id a ∈ groups_of user
                    /\ status a = "scheduled") as Hspec.
  { intros a. rewrite list_elem_of_In, filter_In, <- list_elem_of_In. unfold scheduled_in.
    rewrite andb_true_iff, bool_decide_eq_true, String.eqb_eq. tauto. }
  destruct (groups_of user) as [|g gs] eqn:Hg; run.
  - split; [reflexivity|]. exists []. split; [reflexivity|]. split; [constructor|].
    split.
    + assert (List.filter (scheduled_in []) (activities (db w)) = []) as ->; [|reflexivity].
      clear Hspec. induction (activities (db w)) as [|a l IH]; [reflexivity|].
      cbn [List.filter]. unfold scheduled_in at 1.
      rewrite bool_decide_eq_false_2 by apply not_elem_of_nil. exact IH.
    + intros a. rewrite <- Hspec. split; [intros H; inversion H|].
      intros H. apply list_elem_of_In, filter_In in H as [_ H]. unfold scheduled_in in H.
      rewrite bool_decide_eq_false_2 in H by apply not_elem_of_nil. discriminate.
  - split; [reflexivity|]. eexists. split; [reflexivity|].
    split; [apply sort_asc_sorted|]. split; [apply sort_asc_perm|].
    intros a. rewrite <- Hspec. now rewrite sort_asc_perm.
Qed.

(** [get_group_activities]: the call reads only, and returns the
    activities of the group that have the given status, all of them and
    no other, earliest first. *)
Theorem group_activities_are_sorted (gid : Z) (status_ : string) (env : Env) (w : World) :
  exists l,
    DB2.get_group_activities gid status_ env w = (Ok l, w)
    /\ StronglySorted earlier l
    /\ l ≡ₚ List.filter (fun a => (activity_group_id a =? gid) && String.eqb (status a) status_)
              (activities (db w))
    /\ forall a, a ∈ l <->
         a ∈ activities (db w) /\ activity_group_id a = gid /\ status a = status_.
Proof.
  unfold DB2.get_group_activities. run. eexists. split; [reflexivity|].
  split; [apply sort_asc_sorted|]. split; [apply sort_asc_perm|].
  intros a. rewrite sort_asc_perm, list_elem_of_In, filter_In, <- list_elem_of_In.
  rewrite andb_true_iff, Z.eqb_eq, String.eqb_eq. tauto.
Qed.

(** ** Lists typed by the user *)

Section TypedLists.

Import PyStr.

Lemma append_assoc (a b c : string) : (a +:+ b) +:+ c = a +:+ (b +:+ c).
Proof.
  induction a as [|x a IH]; [now rewrite !append_nil|].
  rewrite !append_cons. now rewrite IH.
Qed.

Lemma free_of_app (sep : ascii) (a b : string) :
  free_of sep (a +:+ b) = free_of sep a && free_of sep b.
Proof.
  induction a as [|x a IH]; [now rewrite append_nil|].
  rewrite append_cons. cbn [free_of]. rewrite IH. now rewrite andb_assoc.
Qed.

Lemma join_cons (sep p q : string) (rest : list string) :
  join sep (p :: q :: rest) = p +:+ sep +:+ join sep (q :: rest).
Proof. reflexivity. Qed.

Lemma join_push (sep pad q : string) (rest : list string) :
  pad +:+ join sep (q :: rest) = join sep ((pad +:+ q) :: rest).
Proof.
  destruct rest as [|r rest]; [reflexivity|]. rewrite !join_cons. now rewrite append_assoc.
Qed.

Lemma split_join (sep : ascii) (pad x : string) (rest : list string) :
  free_of sep pad = true -> free_of sep x = true ->
  Forall (fun item => free_of sep item = true) rest ->
  split sep (join (String sep pad) (x :: rest)) = x :: ((fun item => pad +:+ item) <$> rest).
Proof.
  intros Hpad Hx Hrest. revert x Hx.
  induction Hrest as [|q rest Hq _ IH]; intros x Hx.
  - cbn [join fmap list_fmap]. now apply split_free.
  - rewrite join_cons, append_cons, (split_cons_free sep x _ Hx), join_push.
    rewrite IH by (rewrite free_of_app, Hpad, Hq; reflexivity). reflexivity.
Qed.

Lemma lstrip_pad (pad s : string) :
  all_space pad = true -> PyStr2.lstrip (pad +:+ s) = PyStr2.lstrip s.
Proof.
  induction pad as [|c pad IH]; intros H; [now rewrite append_nil|].
  cbn [all_space] in H. apply andb_true_iff in H as [Hc Hp].
  rewrite append_cons. cbn [PyStr2.lstrip]. rewrite Hc. now apply IH.
Qed.

Lemma strip_pad (pad s : string) :
  all_space pad = true -> PyStr2.strip (pad +:+ s) = PyStr2.strip s.
Proof. intros H. unfold PyStr2.strip. now rewrite lstrip_pad. Qed.

Lemma truthy_nonempty (s : string) : s <> EmptyString -> truthy s = true.
Proof. destruct s; [contradiction | reflexivity]. Qed.

(** What the list comprehension of the profile steps makes of a text in
    which the entries are separated by the separator and some ASCII white
    space: the entries. *)
Lemma stripped_items_join (sep : ascii) (pad : string) (items : list string) :
  all_space pad = true -> free_of sep pad = true ->
  Forall (clean_item sep) items ->
  PyStr2.stripped_items sep (join (String sep pad) items) = items.
Proof.
  intros Hspace Hpad Hitems. unfold PyStr2.stripped_items.
  destruct Hitems as [|x rest (Hx & Sx & Fx) Hrest]; [reflexivity|].
  rewrite split_join;
    [|exact Hpad | exact Fx | eapply Forall_impl; [exact Hrest | intros ? (_ & _ & H); exact H]].
  cbn [fmap list_fmap List.filter]. rewrite Sx, (truthy_nonempty x Hx). f_equal.
  induction Hrest as [|q rest (Hq & Sq & Fq) _ IH]; [reflexivity|].
  cbn [fmap list_fmap List.filter].
  rewrite (strip_pad pad q Hspace), Sq, (truthy_nonempty q Hq). f_equal. exact IH.
Qed.

End TypedLists.

(** The four list steps of the profile flow keep what the user typed,
    entry by entry: a text of entries separated by line breaks (contacts,
    professionals) or by commas (interests, anxiety triggers), with any
    ASCII white space after a separator, is stored as the list of its
    entries, when no entry is empty, has white space at an end or holds
    the separator; the step then goes on to the next question. *)
Theorem profile_lists_keep_entries (uid chat : Z) (chat_type pad : string)
    (items : list string) (env : Env) (w : World) :
  all_space pad = true ->
  (Forall (clean_item (ascii_of_nat 10)) items ->
   free_of (ascii_of_nat 10) pad = true ->
   let typed := TextMessage uid chat chat_type
                  (PyStr.join (String (ascii_of_nat 10) pad) items) in
   let contacts := UserProfile2.process_profile_contacts typed env w in
   let professionals_ := UserProfile2.process_profile_professionals typed env w in
   contacts.1 = Ok 13
   /\ stored contacts.2 uid "profile_contacts" = Some (VStrs items)
   /\ professionals_.1 = Ok 15
   /\ stored professionals_.2 uid "profile_professionals" = Some (VStrs items))
  /\ (Forall (clean_item ",") items ->
      free_of "," pad = true ->
      let typed := TextMessage uid chat chat_type (PyStr.join (String "," pad) items) in
      let interests_ := UserProfile2.process_profile_interests typed env w in
      let triggers := UserProfile2.process_profile_triggers typed env w in
      interests_.1 = Ok 16
      /\ stored interests_.2 uid "profile_interests" = Some (VStrs items)
      /\ triggers.1 = Ok 17
      /\ stored triggers.2 uid "profile_triggers" = Some (VStrs items)).
Proof.
  intros Hspace. split; intros Hitems Hpad; cbv zeta;
    unfold UserProfile2.process_profile_contacts, UserProfile2.process_profile_professionals,
      UserProfile2.process_profile_interests, UserProfile2.process_profile_triggers;
    rewrite (stripped_items_join _ pad items Hspace Hpad Hitems); run; unfold stored; run;
    rewrite !stored_insert_eq; repeat split; reflexivity.
Qed.

Lemma profile_lists_keep_entries_witness :
  let typed := TextMessage 9 9 "private" "xadrez, trens, mapas" in
  (UserProfile2.process_profile_interests typed Sample.no_key (Main.started Sample.store)).1
  = Ok 16
  /\ stored (UserProfile2.process_profile_interests typed Sample.no_key
               (Main.started Sample.store)).2 9 "profile_interests"
     = Some (VStrs ["xadrez"; "trens"; "mapas"]).
Proof.
  cbv zeta.
  destruct (profile_lists_keep_entries 9 9 "private" " " ["xadrez"; "trens"; "mapas"]
              Sample.no_key (Main.started Sample.store) eq_refl) as [_ H].
  destruct H as (H1 & H2 & _).
  - repeat constructor; try discriminate; vm_compute; reflexivity.
  - reflexivity.
  - split; [exact H1 | exact H2].
Defined.

(** ** Buttons and the ids they carry *)


Lemma split_one (a s : string) :
  free_of "_" a = true -> free_of "_" s = true ->
  PyStr.split "_" (a +:+ String "_" s) = [a; s].
Proof.
  intros Ha Hs. now rewrite (split_cons_free "_" a _ Ha), (split_free "_" s Hs).
Qed.

Lemma str_free (n : Z) : free_of "_" (PyStr.str n) = true.
Proof. apply numeral_free_of_underscore, str_numeral. Qed.



Lemma add_member_in (uid : Z) (g : Group) : uid ∈ members (DB2.add_member uid g).
Proof.
  cbn [members DB2.add_member]. destruct (bool_decide_reflect (uid ∈ members g)) as [H|H];
    [exact H | apply elem_of_app; right; apply list_elem_of_singleton; reflexivity].
Qed.

Lemma add_member_twice (uid : Z) (g : Group) :
  DB2.add_member uid (DB2.add_member uid g) = DB2.add_member uid g.
Proof.
  unfold DB2.add_member at 1. cbn [group_id group_name theme group_description created_by
    max_members group_created_at group_last_active ai_mediator_enabled ai_mediator_settings].
  rewrite bool_decide_eq_true_2 by apply add_member_in. now destruct g.
Qed.

Lemma add_group_twice (gid : Z) (u : User) :
  DB.add_group_to_user gid (DB.add_group_to_user gid u) = DB.add_group_to_user gid u.
Proof.
  unfold DB.add_group_to_user at 1. cbn [user_id user_name role profile user_created_at
    user_last_active groups_of DB.add_group_to_user].
  rewrite bool_decide_eq_true_2; [now destruct u|].
  destruct (bool_decide_reflect (gid ∈ groups_of u)) as [H|H];
    [exact H | apply elem_of_app; right; apply list_elem_of_singleton; reflexivity].
Qed.

Lemma alter_twice {A} (f : A -> A) (k : Z) (m : gmap Z A) :
  (forall x, f (f x) = f x) -> alter f k (alter f k m) = alter f k m.
Proof.
  intros Hf. apply map_eq. intros j. destruct (decide (j = k)) as [->|Hne].
  - rewrite !lookup_alter_eq. destruct (m !! k); simpl; [now rewrite Hf | reflexivity].
  - now rewrite !lookup_alter_ne.
Qed.

(** The button [list_groups] builds for a group carries its id back (an
    id of no more than 4300 digits, which Python converts to text and
    back) to [join_group_callback], which makes the presser a member of that group
    and the group one of the presser's, each once: pressing again changes
    nothing. The handler looks at no capacity: the presser is added
    whatever [max_members] says. Other groups and other users stay as they
    are. *)
Theorem join_button_joins_group (uid chat : Z) (g : Group) (env : Env) (w : World)
    (label data : string) :
  groups (db w) !! group_id g = Some g ->
  convertible (group_id g) ->
  (label, data) ∈ GroupManagement2.join_button g ->
  let pressed := GroupManagement2.join_group_callback (CallbackQuery uid chat data) env w in
  let again := GroupManagement2.join_group_callback (CallbackQuery uid chat data) env
                 pressed.2 in
  pressed.1 = Ok tt
  /\ (exists g', groups (db pressed.2) !! group_id g = Some g'
                 /\ uid ∈ members g'
                 /\ (uid ∈ members g -> members g' = members g)
                 /\ (uid ∉ members g -> members g' = (members g ++ [uid])%list))
  /\ (forall u, users (db w) !! uid = Some u ->
        exists u', users (db pressed.2) !! uid = Some u' /\ group_id g ∈ groups_of u')
  /\ (forall k, k <> group_id g -> groups (db pressed.2) !! k = groups (db w) !! k)
  /\ (forall k, k <> uid -> users (db pressed.2) !! k = users (db w) !! k)
  /\ last (trace pressed.2)
     = Some (EvEdit chat (GroupManagement2.joined_text (group_name g)) [])
  /\ db again.2 = db pressed.2.
Proof.
  intros Hg Hid Hin. cbv zeta. unfold GroupManagement2.join_button in Hin.
  apply list_elem_of_singleton in Hin. injection Hin as _ ->.
  unfold GroupManagement2.join_group_callback, DB2.add_user_to_group.
  change ("join_" +:+ PyStr.str (group_id g))
    with ("join" +:+ String "_" (PyStr.str (group_id g))).
  rewrite !split_one by (reflexivity || apply str_free).
  run. cbn [lookup list_lookup]. run. rewrite !(int_str _ Hid). run.
  rewrite !lookup_alter_eq, Hg. cbn [fmap option_fmap option_map].
  split; [reflexivity|]. split; [|split; [|split; [|split; [|split]]]].
  - eexists. split; [reflexivity|]. split; [apply add_member_in|].
    cbn [members DB2.add_member]. split; intros H.
    + now rewrite bool_decide_eq_true_2.
    + now rewrite bool_decide_eq_false_2.
  - intros u Hu. rewrite Hu. eexists. split; [reflexivity|].
    cbn [groups_of DB.add_group_to_user].
    destruct (bool_decide_reflect (group_id g ∈ groups_of u)) as [H|H];
      [exact H | apply elem_of_app; right; apply list_elem_of_singleton; reflexivity].
  - intros k Hk. now rewrite lookup_alter_ne.
  - intros k Hk. now rewrite lookup_alter_ne.
  - rewrite <- !app_assoc. cbn [app]. rewrite last_app. reflexivity.
  - unfold DB.set_groups, DB.set_users; cbn.
    rewrite (alter_twice _ _ _ (add_member_twice uid)),
      (alter_twice _ _ _ (add_group_twice (group_id g))). reflexivity.
Qed.

Lemma join_button_joins_group_witness :
  let w := Main.started Sample.store in
  let pressed := GroupManagement2.join_group_callback (CallbackQuery 5 5 "join_1")
                   Sample.no_key w in
  groups (db w) !! 1 = Some Sample.jogos
  /\ pressed.1 = Ok tt
  /\ exists g', groups (db pressed.2) !! 1 = Some g'
                /\ 5 ∈ members g'
                /\ (5 ∈ members Sample.jogos -> members g' = members Sample.jogos)
                /\ (5 ∉ members Sample.jogos -> members g' = (members Sample.jogos ++ [5])%list).
Proof.
  cbv zeta. split; [reflexivity|].
  destruct (join_button_joins_group 5 5 Sample.jogos Sample.no_key (Main.started Sample.store)
              "Entrar: Jogos" "join_1" eq_refl) as (H1 & H2 & _).
  - vm_compute. reflexivity.
  - apply list_elem_of_In. left. reflexivity.
  - split; [exact H1 | exact H2].
Defined.

(** ** The keyboards of groups *)

Lemma all_groups_spec (d : Database) (g : Group) :
  g ∈ all_groups d <-> exists k, groups d !! k = Some g.
Proof.
  unfold all_groups. rewrite list_elem_of_fmap. split.
  - intros ([k g'] & -> & H). exists k. now apply elem_of_map_to_list in H.
  - intros (k & H). exists (k, g). split; [reflexivity|]. now apply elem_of_map_to_list.
Qed.

Lemma all_groups_keyed (d : Database) (g : Group) :
  keyed_by_id d -> g ∈ all_groups d <-> groups d !! group_id g = Some g.
Proof.
  intros Hk. rewrite all_groups_spec. split.
  - intros (k & H). now rewrite (Hk k g H).
  - intros H. eauto.
Qed.

Lemma group_entries_run (gs : list Group) (env : Env) (w : World) :
  exists msg l,
    GroupManagement2.group_entries gs env w = (Ok msg, with_trace w (trace w ++ l)).
Proof.
  revert w. induction gs as [|g gs IH]; intros w.
  - exists EmptyString, []. cbn. unfold ret. rewrite app_nil_r. now destruct w.
  - cbn [GroupManagement2.group_entries]. run.
    destruct (IH (with_trace w (trace w ++ [EvGetUser (created_by g)]))) as (msg & l & ->).
    run. eexists. eexists. rewrite <- app_assoc. reflexivity.
Qed.

(** [list_groups] offers a join button for exactly the stored groups with
    room (fewer members than [max_members]), and each button carries the
    id of its group; the groups themselves are left as they are. With no
    group stored, the reply has no button. *)
Theorem list_groups_offers_open_groups (uid chat : Z) (chat_type text_ : string)
    (env : Env) (w : World) :
  keyed_by_id (db w) ->
  let listed := GroupManagement2.list_groups (TextMessage uid chat chat_type text_) env w in
  listed.1 = Ok tt
  /\ groups (db listed.2) = groups (db w)
  /\ exists msg keyboard,
       last (trace listed.2) = Some (EvReply chat msg keyboard)
       /\ (groups (db w) = ∅ -> msg = GroupManagement2.no_groups_text /\ keyboard = [])
       /\ (forall row, row ∈ keyboard ->
             exists g, groups (db w) !! group_id g = Some g
                       /\ GroupManagement2.members_count g < max_members g
                       /\ row = [("Entrar: " +:+ group_name g,
                                  "join_" +:+ PyStr.str (group_id g))])
       /\ (forall g, groups (db w) !! group_id g = Some g ->
             GroupManagement2.members_count g < max_members g ->
             GroupManagement2.join_button g ∈ keyboard).
Proof.
  intros Hk. cbv zeta. unfold GroupManagement2.list_groups. run.
  change ((fun p : Z * Group => let (_, y) := p in y) <$> map_to_list (groups (db w)))
    with (all_groups (db w)).
  assert (forall row, row ∈ GroupManagement2.join_keyboard (all_groups (db w)) <->
            exists g, groups (db w) !! group_id g = Some g
                      /\ GroupManagement2.members_count g < max_members g
                      /\ row = GroupManagement2.join_button g) as Hrows.
  { intros row. unfold GroupManagement2.join_keyboard. rewrite list_elem_of_fmap. split.
    - intros (g & -> & Hg). apply list_elem_of_In, filter_In in Hg as [Hg Hroom].
      apply list_elem_of_In, (all_groups_keyed _ _ Hk) in Hg. apply Z.ltb_lt in Hroom. eauto.
    - intros (g & Hg & Hroom & ->). exists g. split; [reflexivity|].
      apply list_elem_of_In, filter_In. split.
      + apply list_elem_of_In, (all_groups_keyed _ _ Hk). exact Hg.
      + now apply Z.ltb_lt. }
  destruct (all_groups (db w)) as [|g0 gs] eqn:Hall.
  - run. split; [reflexivity|]. split; [reflexivity|].
    exists GroupManagement2.no_groups_text, []. split; [now rewrite last_app|].
    split; [auto|]. split.
    + intros row Hrow. inversion Hrow.
    + intros g Hg _. apply (all_groups_keyed _ _ Hk) in Hg. rewrite Hall in Hg. inversion Hg.
  - match goal with
    | |- context [GroupManagement2.group_entries ?gs env ?wx] =>
        destruct (group_entries_run gs env wx) as (msg & l & Hrun)
    end.
    rewrite Hrun. run.
    assert (groups (db w) <> ∅) as Hne.
    { intros He. unfold all_groups in Hall. rewrite He, map_to_list_empty in Hall.
      discriminate. }
    destruct (GroupManagement2.join_keyboard (g0 :: gs)) as [|row0 rows] eqn:Hkb; run;
      (split; [reflexivity|]); (split; [reflexivity|]);
      eexists; eexists; (split; [rewrite last_app; reflexivity|]);
      (split; [intros He; contradiction|]); split.
    + intros row Hrow. inversion Hrow.
    + intros g Hg Hroom. apply Hrows. eauto.
    + intros row Hrow. apply Hrows in Hrow as (g & Hg & Hroom & ->). eauto.
    + intros g Hg Hroom. apply Hrows. eauto.
Qed.

Lemma list_groups_offers_open_groups_witness :
  let listed := GroupManagement2.list_groups (TextMessage 9 9 "private" "/grupos")
                  Sample.no_key (Main.started Sample.store) in
  keyed_by_id Sample.store
  /\ listed.1 = Ok tt
  /\ groups (db listed.2) = groups Sample.store.
Proof.
  cbv zeta.
  assert (keyed_by_id Sample.store) as Hk.
  { intros k g H. unfold Sample.store in H. cbn [groups] in H.
    apply lookup_insert_Some in H as [[<- <-] | [_ H]]; [reflexivity|].
    apply lookup_singleton_Some in H as [<- <-]. reflexivity. }
  split; [exact Hk|].
  destruct (list_groups_offers_open_groups 9 9 "private" "/grupos" Sample.no_key
              (Main.started Sample.store) Hk) as (H1 & H2 & _).
  split; [exact H1 | exact H2].
Defined.

Lemma find_group_name_unique (l : list Group) (g : Group) :
  g ∈ l -> (forall g', g' ∈ l -> group_id g' = group_id g -> g' = g) ->
  ActivityManagement.find_group_name l (group_id g) = group_name g.
Proof.
  induction l as [|y l IH]; intros Hin Huniq; [inversion Hin|].
  cbn [ActivityManagement.find_group_name].
  destruct (Z.eqb_spec (group_id y) (group_id g)) as [He|Hne].
  - rewrite (Huniq y) by (left || exact He); reflexivity.
  - apply IH.
    + apply elem_of_cons in Hin as [-> | Hin]; [contradiction | exact Hin].
    + intros g' Hg'. apply Huniq. now right.
Qed.

Lemma process_activity_group_run (uid chat gid : Z) (l : list Group) (env : Env) (w : World) :
  convertible gid ->
  stored w uid "at_groups" = Some (VGroups l) ->
  let chosen := ActivityManagement.process_activity_group
                  (CallbackQuery uid chat ("group_" +:+ PyStr.str gid)) env w in
  chosen.1 = Ok 7
  /\ stored chosen.2 uid "activity_group_id" = Some (VInt gid)
  /\ stored chosen.2 uid "activity_group_name"
     = Some (VStr (ActivityManagement.find_group_name l gid)).
Proof.
  intros Hid Hl. cbv zeta. unfold ActivityManagement.process_activity_group.
  change ("group_" +:+ PyStr.str gid) with ("group" +:+ String "_" (PyStr.str gid)).
  rewrite split_one by (reflexivity || apply str_free).
  run. cbn [lookup list_lookup]. run. rewrite (int_str gid Hid). run.
  rewrite !stored_insert_ne by discriminate. rewrite Hl. run.
  split; [reflexivity|]. unfold stored. run.
  rewrite !lookup_insert_eq. simpl.
  rewrite lookup_insert_eq, lookup_insert_ne by discriminate.
  rewrite lookup_insert_eq. split; reflexivity.
Qed.

(** The keyboard of [start_activity_command] has one button for each
    stored group the facilitator created and no other, and each button
    carries its group back (for an id of no more than 4300 digits, which
    Python converts to text and back): pressed, it makes
    [process_activity_group] keep the id and the name of that group for
    the activity. A facilitator who created no group does not enter the
    flow. *)
Theorem activity_buttons_select_group (uid chat : Z) (chat_type text_ : string)
    (user : User) (env : Env) (w : World) :
  keyed_by_id (db w) ->
  users (db w) !! uid = Some user -> role user = "at" ->
  let started := ActivityManagement.start_activity_command
                   (TextMessage uid chat chat_type text_) env w in
  let own g := groups (db w) !! group_id g = Some g /\ created_by g = uid in
  ((forall g, ~ own g) -> started.1 = Ok END)
  /\ ((exists g, own g) ->
      started.1 = Ok 6
      /\ exists keyboard,
           last (trace started.2)
           = Some (EvReply chat ActivityManagement.select_group_text keyboard)
           /\ (forall row, row ∈ keyboard <->
                 exists g, own g
                           /\ row = [(group_name g, "group_" +:+ PyStr.str (group_id g))])
           /\ forall g, own g -> convertible (group_id g) ->
                let chosen := ActivityManagement.process_activity_group
                                (CallbackQuery uid chat ("group_" +:+ PyStr.str (group_id g)))
                                env started.2 in
                chosen.1 = Ok 7
                /\ stored chosen.2 uid "activity_group_id" = Some (VInt (group_id g))
                /\ stored chosen.2 uid "activity_group_name" = Some (VStr (group_name g))).
Proof.
  intros Hk Hu Hr. cbv zeta.
  set (mine := List.filter (fun g => created_by g =? uid) (all_groups (db w))).
  assert (forall g, g ∈ mine <-> groups (db w) !! group_id g = Some g /\ created_by g = uid)
    as Hmine.
  { intros g. unfold mine. rewrite list_elem_of_In, filter_In, <- list_elem_of_In.
    rewrite (all_groups_keyed _ _ Hk), Z.eqb_eq. tauto. }
  unfold ActivityManagement.start_activity_command. run.
  rewrite lookup_alter_eq, Hu. cbn [fmap option_fmap option_map role DB.touch_user].
  rewrite Hr. change (negb (String.eqb "at" "at")) with false. run.
  change ((fun p : Z * Group => let (_, y) := p in y) <$> map_to_list (groups (db w)))
    with (all_groups (db w)).
  fold mine. split.
  - intros Hnone. destruct mine as [|g gs] eqn:Hm; [reflexivity|].
    exfalso. apply (Hnone g), Hmine. left.
  - intros (g0 & Hg0). apply Hmine in Hg0.
    destruct mine as [|g1 gs] eqn:Hm; [inversion Hg0|]. rewrite <- Hm in *. clear g0 Hg0.
    run. split; [reflexivity|]. eexists. split; [rewrite last_app; reflexivity|]. split.
    + intros row. rewrite list_elem_of_fmap. split.
      * intros (g & -> & Hg). apply Hmine in Hg. eauto.
      * intros (g & Hg & ->). exists g. split; [reflexivity | now apply Hmine].
    + intros g Hg Hid. apply Hmine in Hg.
      match goal with
      | |- context [ActivityManagement.process_activity_group _ env ?wx] =>
          destruct (process_activity_group_run uid chat (group_id g) mine env wx Hid)
            as (H1 & H2 & H3)
      end.
      { unfold stored. run. rewrite lookup_insert_eq. simpl. apply lookup_insert_eq. }
      split; [exact H1|]. split; [exact H2|]. etransitivity; [exact H3|].
      rewrite (find_group_name_unique mine g Hg); [reflexivity|].
      intros g' Hg' He. apply Hmine in Hg' as [Hg' _]. apply Hmine in Hg as [Hg _].
      rewrite He, Hg in Hg'. congruence.
Qed.

Lemma activity_buttons_select_group_witness :
  let started := ActivityManagement.start_activity_command
                   (TextMessage 7 7 "private" "/iniciar_atividade") Sample.no_key
                   (Main.started Sample.store) in
  users Sample.store !! 7 = Some Sample.ana
  /\ role Sample.ana = "at"
  /\ started.1 = Ok 6.
Proof.
  cbv zeta. split; [reflexivity|]. split; [reflexivity|].
  assert (keyed_by_id Sample.store) as Hk.
  { intros k g H. unfold Sample.store in H. cbn [groups] in H.
    apply lookup_insert_Some in H as [[<- <-] | [_ H]]; [reflexivity|].
    apply lookup_singleton_Some in H as [<- <-]. reflexivity. }
  destruct (activity_buttons_select_group 7 7 "private" "/iniciar_atividade" Sample.ana
              Sample.no_key (Main.started Sample.store) Hk eq_refl eq_refl) as [_ H].
  destruct H as [H _]; [|exact H].
  exists Sample.jogos. split; reflexivity.
Defined.

(** ** What the message handlers do not do *)

(** A private message outside the support path is stored and that is
    all: no request goes to the LLM endpoint, nothing is replied or sent,
    no interaction is logged and no session is opened. *)
Theorem private_message_outside_support (uid chat : Z) (chat_type text_ : string)
    (env : Env) (w : World) :
  outside_support w uid text_ ->
  let handled := Mediation.handle_private_message (TextMessage uid chat chat_type text_) env w in
  handled.1 = Ok tt
  /\ http_requests handled.2 = http_requests w
  /\ interactions (db handled.2) = interactions (db w)
  /\ private_chat_sessions handled.2 = private_chat_sessions w
  /\ exists l, trace handled.2 = (trace w ++ l)%list /\ Forall silent l.
Proof. exact (private_outside_run uid chat chat_type text_ env w). Qed.

Lemma private_message_outside_support_witness :
  let w := Main.started Sample.store in
  let handled := Mediation.handle_private_message (TextMessage 7 7 "private" "socorro")
                   Sample.answering w in
  outside_support w 7 "socorro"
  /\ handled.1 = Ok tt
  /\ http_requests handled.2 = http_requests w
  /\ exists l, trace handled.2 = (trace w ++ l)%list /\ Forall silent l.
Proof.
  cbv zeta.
  assert (outside_support (Main.started Sample.store) 7 "socorro") as Hout
    by (left; discriminate).
  split; [exact Hout|].
  destruct (private_message_outside_support 7 7 "private" "socorro" Sample.answering
              (Main.started Sample.store) Hout) as (H1 & H2 & _ & _ & H5).
  split; [exact H1|]. split; [exact H2 | exact H5].
Defined.

(** A group message for which the mediator is closed (the chat is no
    group, the group is unknown, its mediator is disabled, or its last
    reply is five minutes old or less) is stored and that is all: no
    request goes to the LLM endpoint, nothing is sent, no interaction is
    logged and the timestamps of the throttle stay as they are. *)
Theorem group_message_mediator_closed (uid chat : Z) (chat_type text_ : string)
    (env : Env) (w : World) :
  mediator_closed env w chat chat_type ->
  let handled := Mediation.handle_group_message (TextMessage uid chat chat_type text_) env w in
  handled.1 = Ok tt
  /\ http_requests handled.2 = http_requests w
  /\ interactions (db handled.2) = interactions (db w)
  /\ group_message_timestamps handled.2 = group_message_timestamps w
  /\ exists l, trace handled.2 = (trace w ++ l)%list /\ Forall silent l.
Proof.
  intros Hclosed. cbv zeta.
  remember (Mediation.handle_group_message (TextMessage uid chat chat_type text_) env w)
    as res eqn:H.
  unfold Mediation.handle_group_message, DB.store_message in H.
  unfold mediator_closed, throttle_reading in Hclosed.
  destruct (String.eqb chat_type "group" || String.eqb chat_type "supergroup") eqn:Hct;
    run in H.
  2:{ destruct (chat =? 0); only_stored. }
  destruct Hclosed as [[Hg Hs] | Hclosed].
  { apply orb_true_iff in Hct as [Hct | Hct]; apply String.eqb_eq in Hct; contradiction. }
  destruct (Z.eqb_spec chat 0) as [Hz|Hz]; run in H; rewrite ?lookup_alter_eq in H;
    destruct (groups (db w) !! chat) as [g|];
    cbn [fmap option_fmap option_map ai_mediator_enabled DB.touch_group] in H.
  2, 4: only_stored.
  all: destruct (ai_mediator_enabled g); [|only_stored].
  all: destruct Hclosed as [Hd | (last_intervention & Hts & Hle)]; [discriminate|].
  all: match type of H with
       | context [Mediation.should_ai_intervene ?c ?e ?wx] =>
           rewrite (should_ai_intervene_throttled e wx c _ Hts) in H
       end; run in H.
  - replace (clock_reads w + 2)%nat with (S (S (clock_reads w))) in Hle by lia.
    apply Z.ltb_ge in Hle. rewrite Z.gtb_ltb, Hle in H. only_stored.
  - replace (clock_reads w + 3)%nat with (S (S (S (clock_reads w)))) in Hle by lia.
    apply Z.ltb_ge in Hle. rewrite Z.gtb_ltb, Hle in H. only_stored.
Qed.

(** ** The mediator's reply in a group *)

(** When the mediator is let in (the group is stored, enabled and its
    throttle open: no reply yet, or the clock more than five minutes past
    the last one), the group handler makes one request to the Oracle
    wrapper. When the wrapper's reply is not empty, the handler sends one
    mediator reply to the group, with that text, and sets the timestamp
    of the group to a reading of the clock; an alert goes to the creator
    of the group exactly when that reply, not the message of the user,
    holds an alert keyword and the creator id is not 0; nothing else is
    sent. When the reply is empty, nothing is said to any chat and the
    timestamps stay as they are. When it is absent, the apology of the
    mediation call is sent to the group, and nothing else, and the
    timestamp is set. *)
Theorem group_reply_and_alert (uid chat : Z) (chat_type text_ : string) (g : Group)
    (env : Env) (w : World) :
  chat_type = "group" \/ chat_type = "supergroup" ->
  groups (db w) !! chat = Some g -> ai_mediator_enabled g = true ->
  throttle_open env w chat ->
  let handled := Mediation.handle_group_message (TextMessage uid chat chat_type text_) env w in
  let new := drop (length (trace w)) (trace handled.2) in
  exists prompt reply,
    (LLM._call_llm_api prompt env w).1 = Ok reply
    /\ posted new = (if LLM.has_api_key env then [prompt] else [])
    /\ (forall r, reply = Some r -> PyStr.truthy r = true ->
          (exists n, group_message_timestamps handled.2 !! chat = Some (clock env n))
          /\ sent new
             = (chat, Mediation.mediator_prefix +:+ r)
               :: (if alert_match r && negb (created_by g =? 0)
                   then [(created_by g, Mediation.group_alert_text (group_name g))]
                   else []))
    /\ (forall r, reply = Some r -> PyStr.truthy r = false ->
          group_message_timestamps handled.2 = group_message_timestamps w
          /\ Forall no_message new)
    /\ (reply = None ->
          (exists n, group_message_timestamps handled.2 !! chat = Some (clock env n))
          /\ sent new = [(chat, Mediation.mediator_prefix +:+ LLM.group_mediation_failed)]).
Proof.
  intros Hct Hg He Hopen. cbv zeta.
  destruct (group_open_run env w uid chat chat_type text_ g _ Hct Hg He Hopen eq_refl)
    as (prompt & l & T & P & Hl).
  exists prompt, (oracle_reply env (http_requests w) prompt).
  rewrite call_llm_api_run, T, drop_app_length.
  split; [reflexivity|]. split; [exact P|].
  unfold Mediation.reply_text_of in Hl. split; [|split].
  - intros r Hr Ht. rewrite Hr in Hl. cbn [default] in Hl. change (id r) with r in Hl.
    rewrite Ht in Hl. destruct Hl as [Hs Hn]. split; [exact Hn | exact Hs].
  - intros r Hr Ht. rewrite Hr in Hl. cbn [default] in Hl. change (id r) with r in Hl.
    rewrite Ht in Hl. destruct Hl as [Hf Hn]. split; [exact Hn | exact Hf].
  - intros Hr. rewrite Hr in Hl. cbn [default] in Hl.
    change (PyStr.truthy (id LLM.group_mediation_failed)) with true in Hl.
    destruct Hl as [Hs Hn]. split; [exact Hn|]. rewrite Hs. unfold group_sends.
    now rewrite group_apology_raises_no_alert.
Qed.

Lemma group_reply_and_alert_witness :
  let w := with_timestamps (Main.started Sample.store) {[ 1 := 1699999000000000 ]} in
  let handled := Mediation.handle_group_message (TextMessage 9 1 "group" "oi")
                   Sample.answering w in
  throttle_open Sample.answering w 1
  /\ (exists n, group_message_timestamps handled.2 !! 1 = Some (clock Sample.answering n))
  /\ sent (drop (length (trace w)) (trace handled.2))
     = [(1, Mediation.mediator_prefix +:+ "Respire fundo.")].
Proof.
  cbv zeta.
  assert (throttle_open Sample.answering
            (with_timestamps (Main.started Sample.store) {[ 1 := 1699999000000000 ]}) 1)
    as Hopen by (vm_compute; reflexivity).
  split; [exact Hopen|].
  destruct (group_reply_and_alert 9 1 "group" "oi" Sample.jogos Sample.answering
              (with_timestamps (Main.started Sample.store) {[ 1 := 1699999000000000 ]})
              (or_introl eq_refl) eq_refl eq_refl Hopen)
    as (prompt & reply & Hcall & _ & Hsome & _).
  rewrite call_llm_api_run in Hcall. cbn [fst] in Hcall. injection Hcall as <-.
  destruct (Hsome "Respire fundo." eq_refl eq_refl) as [Hn Hs].
  split; [exact Hn | exact Hs].
Defined.

Lemma group_message_mediator_closed_witness :
  let w := with_timestamps (Main.started Sample.store) {[ 1 := 1700000200000000 ]} in
  let handled := Mediation.handle_group_message (TextMessage 9 1 "group" "socorro")
                   Sample.answering w in
  mediator_closed Sample.answering w 1 "group"
  /\ handled.1 = Ok tt
  /\ http_requests handled.2 = http_requests w
  /\ exists l, trace handled.2 = (trace w ++ l)%list /\ Forall silent l.
Proof.
  cbv zeta.
  assert (mediator_closed Sample.answering
            (with_timestamps (Main.started Sample.store) {[ 1 := 1700000200000000 ]})
            1 "group") as Hclosed.
  { right. right. exists 1700000200000000. split; [reflexivity|]. vm_compute. intros Hc. discriminate Hc. }
  split; [exact Hclosed|].
  destruct (group_message_mediator_closed 9 1 "group" "socorro" Sample.answering _ Hclosed)
    as (H1 & H2 & _ & _ & H5).
  split; [exact H1|]. split; [exact H2 | exact H5].
Defined.

(** ** Sequences of messages *)

Lemma served_step (handler : Update -> M unit) (u : Update) (env : Env) (w : World) :
  exists w1,
    try_except (handler u) (fun _ => Main.error_handler u) env w = (Ok tt, w1)
    /\ db w1 = db (handler u env w).2
    /\ private_chat_sessions w1 = private_chat_sessions (handler u env w).2.
Proof.
  unfold try_except. destruct (handler u env w) as [[[]|e] w'].
  - eexists. split; [reflexivity | split; reflexivity].
  - destruct u; eexists; (split; [reflexivity | split; reflexivity]).
Qed.

Lemma handler_logs (in_group : bool) (u : Update) (env : Env) (w : World) :
  let handler := if in_group then Mediation.handle_group_message
                 else Mediation.handle_private_message in
  log_entry <$> messages (db (handler u env w).2)
  = ((log_entry <$> messages (db w)) ++ logged_as in_group u)%list.
Proof.
  cbv zeta. destruct u as [uid chat ct text_ | uid chat data].
  - destruct in_group.
    + rewrite (proj1 (group_message_stored uid chat ct text_ env w)).
      now rewrite fmap_app.
    + rewrite (proj1 (private_message_stored uid chat ct text_ env w)).
      now rewrite fmap_app.
  - destruct in_group; cbn; now rewrite app_nil_r.
Qed.

(** The message log is append-only and keeps every text message that a
    message handler is given, in the order of arrival: after any sequence
    of updates served by the group handler, or by the private handler, the
    log is the log before followed by one entry per text message, with
    its sender, its chat as group (none in a private chat) and its text,
    whatever the moderation did with each message. *)
Theorem served_messages_are_logged (in_group : bool) (updates : list Update)
    (env : Env) (w : World) :
  let handler := if in_group then Mediation.handle_group_message
                 else Mediation.handle_private_message in
  log_entry <$> messages (db (Main.serve handler updates env w).2)
  = ((log_entry <$> messages (db w)) ++ (updates ≫= logged_as in_group))%list.
Proof.
  cbv zeta. revert w. induction updates as [|u rest IH]; intros w.
  - cbn. now rewrite app_nil_r.
  - unfold Main.serve in *. cbn [for_each]. rewrite bind_unfold.
    destruct (served_step (if in_group then Mediation.handle_group_message
                           else Mediation.handle_private_message) u env w)
      as (w1 & -> & Hdb & _).
    rewrite IH, Hdb, (handler_logs in_group u env w).
    cbn [mbind list_bind]. now rewrite <- app_assoc.
Qed.

Lemma private_step_sessions (u : Update) (env : Env) (w : World) :
  private_chat_sessions w ⊆ private_chat_sessions (Mediation.handle_private_message u env w).2.
Proof.
  remember (Mediation.handle_private_message u env w) as res eqn:H.
  destruct u as [uid chat ct text_ | uid chat data]; [|subst res; reflexivity].
  unfold Mediation.handle_private_message, DB.store_message in H. run in H.
  destruct (_ !! uid) as [user|] in H; [|subst res; reflexivity].
  destruct (String.eqb (role user) "autista"); [|subst res; reflexivity].
  run in H.
  destruct (negb (PyStr.startswith "/" text_) && _) in H; [|subst res; reflexivity].
  match type of H with
  | context [LLM.provide_individual_support uid text_ env ?wx] =>
      destruct (provide_keeps_groups uid text_ env wx) as [V3 _];
      destruct (LLM.provide_individual_support uid text_ env wx) as [[[reply alert]|e] w3]
  end; cbn [fst snd] in *; [|subst res; cbn; injection V3 as _ ->; reflexivity].
  unfold private_view in V3. cbn in V3. injection V3 as _ V3.
  destruct (Mediation.reply_text_of reply) as [r|]; [|subst res; cbn; now rewrite V3].
  run in H. rewrite ?V3 in H.
  destruct (bool_decide_reflect (is_Some (private_chat_sessions w !! uid))) as [Hs|Hs];
    cbn [negb] in H; run in H.
  - destruct alert; [|subst res; cbn; now rewrite V3].
    match type of H with
    | context [Mediation.notify_ats ?gs ?seen ?name env ?wx] =>
        destruct (notify_ats_stable sessions_view any_event gs seen name
                    (fun _ _ => eq_refl) (fun _ => I) (fun _ => I) env wx) as [V4 _];
        destruct (Mediation.notify_ats gs seen name env wx) as [[[]|e] w4]
    end; subst res; cbn [fst snd] in *; unfold sessions_view in V4; cbn in V4;
      rewrite V4, V3; reflexivity.
  - assert (private_chat_sessions w !! uid = None) as Hnone.
    { destruct (private_chat_sessions w !! uid) eqn:E; [|reflexivity].
      exfalso. apply Hs. eauto. }
    destruct alert.
    + match type of H with
      | context [Mediation.notify_ats ?gs ?seen ?name env ?wx] =>
          destruct (notify_ats_stable sessions_view any_event gs seen name
                      (fun _ _ => eq_refl) (fun _ => I) (fun _ => I) env wx) as [V4 _];
          destruct (Mediation.notify_ats gs seen name env wx) as [[[]|e] w4]
      end; subst res; cbn [fst snd] in *; unfold sessions_view in V4; cbn in V4;
        rewrite V4, V3; now apply insert_subseteq.
    + subst res. cbn. rewrite V3. now apply insert_subseteq.
Qed.

(** A support session, once open, stays open: whatever private messages
    are served afterwards, the sender is still in [private_chat_sessions]
    with the time at which the session was opened. (Nothing in the
    handlers removes or refreshes an entry.) *)
Theorem support_sessions_persist (updates : list Update) (env : Env) (w : World)
    (uid opened : Z) :
  private_chat_sessions w !! uid = Some opened ->
  private_chat_sessions (Main.serve Mediation.handle_private_message updates env w).2 !! uid
  = Some opened.
Proof.
  revert w. induction updates as [|u rest IH]; intros w Hs; [exact Hs|].
  unfold Main.serve in *. cbn [for_each]. rewrite bind_unfold.
  destruct (served_step Mediation.handle_private_message u env w) as (w1 & -> & _ & Hw1).
  apply IH. rewrite Hw1.
  exact (lookup_weaken _ _ _ _ Hs (private_step_sessions u env w)).
Qed.

Lemma support_sessions_persist_witness :
  let w := with_sessions (Main.started Sample.store) {[ 9 := 1700000000000000 ]} in
  private_chat_sessions
    (Main.serve Mediation.handle_private_message
       [TextMessage 9 9 "private" "obrigado"; TextMessage 9 9 "private" "tchau"]
       Sample.no_key w).2 !! 9
  = Some 1700000000000000.
Proof.
  cbv zeta.
  apply (support_sessions_persist
           [TextMessage 9 9 "private" "obrigado"; TextMessage 9 9 "private" "tchau"]
           Sample.no_key (with_sessions (Main.started Sample.store) {[ 9 := 1700000000000000 ]})
           9 1700000000000000).
  reflexivity.
Defined.

(** ** Conversations *)

Section Conversations.

Context {X : Type} (view : World -> X) (allowed : Event -> Prop).
Context (h : Main.ConversationHandler).

Hypothesis view_trace : forall w t, view (with_trace w t) = view w.
Hypothesis view_conversations : forall w c, view (with_conversations w c) = view w.
Hypothesis allowed_reply : forall chat msg markup, allowed (EvReply chat msg markup).
Hypothesis callbacks_stable :
  forall state hd u, In hd (Main.candidates h state) -> stable view allowed (Main.callback hd u).

Lemma conversation_update_stable (u : Update) : stable view allowed (Main.handle_update h u).
Proof.
  unfold Main.handle_update. apply stable_bind; [apply stable_get | intros w0].
  destruct (find _ _) as [hd|] eqn:F; [|apply stable_ret].
  apply find_some in F. destruct F as [F _].
  apply stable_bind; [exact (callbacks_stable _ hd u F) | intros new_state].
  apply stable_bind; [|intros; apply stable_ret].
  unfold Main.update_state. apply stable_modify. intros w.
  split; [apply view_conversations | reflexivity].
Qed.

Lemma conversation_stable (updates : list Update) :
  stable view allowed (Main.process_updates h updates).
Proof.
  induction updates as [|u rest IH]; cbn [Main.process_updates]; [apply stable_ret|].
  apply stable_bind.
  - apply stable_try; [apply conversation_update_stable | intros e].
    apply stable_bind; [|intros; apply stable_ret].
    unfold Main.error_handler. destruct u; apply stable_emit; auto.
  - intros taken. apply stable_bind; [exact IH | intros; apply stable_ret].
Qed.

End Conversations.

(** The conversation of /perfil changes nothing: whatever updates it is
    given, in whatever state, the store (the profiles of the users among
    it) and the answers kept in [context.user_data] are as before. Its
    only state answers every button with the same state. *)
Theorem profile_update_changes_nothing (updates : list Update) (env : Env) (w : World) :
  let w' := (Main.process_updates Main2.profile_update_handler updates env w).2 in
  db w' = db w /\ user_data w' = user_data w.
Proof.
  cbv zeta.
  destruct (conversation_stable data_view any_event Main2.profile_update_handler
              (fun _ _ => eq_refl) (fun _ _ => eq_refl) (fun _ _ _ => I)) with
    (updates := updates) (env := env) (w := w) as [V _].
  - intros state hd u Hin. unfold Main.candidates, Main2.profile_update_handler in Hin.
    cbn [Main.states Main.fallbacks Main.entry_points Main.state_handlers] in Hin.
    destruct state as [s|].
    + destruct (Main2.PROFILE_INTERESTS =? s); cbn [In app] in Hin;
        repeat (destruct Hin as [<- | Hin]; [cbn; frame_auto|]); destruct Hin.
    + destruct Hin as [<- | []]. cbn. frame_auto.
  - unfold data_view in V. now injection V.
Qed.

Lemma split_nonempty (sep : ascii) (s : string) : PyStr.split sep s <> [].
Proof.
  destruct s as [|c s]; [discriminate|]. cbn [PyStr.split].
  destruct (Ascii.eqb c sep); [discriminate|]. now destruct (PyStr.split sep s).
Qed.

(** The guidance switch stores nothing. On the data of either button
    that [process_activity_duration] builds, whatever the id of the
    activity, [toggle_ai_guidance] raises nothing and all it does is
    answer the query and edit the message, to 'ativado' for the 'on'
    button and to 'desativado' for the other; the store, and with it the
    flag [ai_guidance_enabled] of every activity, stays as it was. *)
Theorem guidance_switch_stores_nothing (uid chat : Z) (activity_id data : string)
    (env : Env) (w : World) :
  (exists label, [(label, data)] ∈ ActivityManagement.guidance_keyboard activity_id) ->
  exists status_text,
    ActivityManagement2.toggle_ai_guidance (CallbackQuery uid chat data) env w
    = (Ok tt,
       with_trace w
         (trace w ++ [EvAnswer;
                      EvEdit chat (ActivityManagement2.guidance_toggled_text status_text) []]))
    /\ (data = "ai_guide_on_" +:+ activity_id /\ status_text = "ativado"
        \/ data = "ai_guide_off_" +:+ activity_id /\ status_text = "desativado").
Proof.
  intros (label & Hin). unfold ActivityManagement.guidance_keyboard in Hin.
  assert (exists st, (st = "on" \/ st = "off")
                     /\ data = "ai" +:+ String "_" ("guide" +:+ String "_"
                                 (st +:+ String "_" activity_id)))
    as (st & Hst & Hdata).
  { rewrite !elem_of_cons, elem_of_nil in Hin.
    destruct Hin as [H | [H | []]]; injection H as _ ->;
      [exists "on" | exists "off"]; split; auto. }
  exists (if String.eqb st "on" then "ativado" else "desativado").
  split.
  - subst data. unfold ActivityManagement2.toggle_ai_guidance.
    rewrite (split_cons_free "_" "ai") by reflexivity.
    rewrite (split_cons_free "_" "guide") by reflexivity.
    rewrite (split_cons_free "_" st) by (destruct Hst as [-> | ->]; reflexivity).
    destruct (PyStr.split "_" activity_id) as [|id0 ids] eqn:Hs;
      [now apply split_nonempty in Hs|].
    run. cbn [lookup list_lookup]. run. rewrite <- app_assoc. reflexivity.
  - destruct Hst as [-> | ->]; [left | right]; split; try reflexivity; exact Hdata.
Qed.

Lemma guidance_switch_stores_nothing_witness :
  exists status_text,
    ActivityManagement2.toggle_ai_guidance (CallbackQuery 7 7 "ai_guide_off_oid0")
      Sample.no_key (Main.started Sample.store)
    = (Ok tt,
       with_trace (Main.started Sample.store)
         (trace (Main.started Sample.store)
          ++ [EvAnswer;
              EvEdit 7 (ActivityManagement2.guidance_toggled_text status_text) []]))
    /\ ("ai_guide_off_oid0" = "ai_guide_on_" +:+ "oid0" /\ status_text = "ativado"
        \/ "ai_guide_off_oid0" = "ai_guide_off_" +:+ "oid0" /\ status_text = "desativado").
Proof.
  apply (guidance_switch_stores_nothing 7 7 "oid0" "ai_guide_off_oid0" Sample.no_key
           (Main.started Sample.store)).
  exists "Desativar guia IA". apply list_elem_of_In. right. left. reflexivity.
Defined.

(** ** Who creates groups *)

Lemma roles_alter (f : User -> User) (uid : Z) (m : gmap Z User) :
  (forall u, role (f u) = role u) -> role <$> alter f uid m = role <$> m.
Proof.
  intros Hf. apply map_eq. intros k. rewrite !lookup_fmap.
  destruct (decide (k = uid)) as [->|Hne].
  - rewrite lookup_alter_eq. destruct (m !! uid); simpl; [now rewrite Hf | reflexivity].
  - now rewrite lookup_alter_ne.
Qed.

Ltac split_innermost H :=
  match type of H with
  | context [match ?x with _ => _ end] =>
      lazymatch x with
      | context [match _ with _ => _ end] => fail
      | _ => destruct x eqn:?
      end
  end.

Lemma create_group_start_run (u : Update) (env : Env) (w : World) :
  let r := GroupManagement2.create_group_start u env w in
  group_view r.2 = group_view w
  /\ forall s, r.1 = Ok s -> s <> END -> facilitator w (sender u).
Proof.
  cbv zeta. remember (GroupManagement2.create_group_start u env w) as res eqn:H.
  unfold GroupManagement2.create_group_start in H.
  assert (forall t uid, role <$> alter (DB.touch_user t) uid (users (db w))
                        = role <$> users (db w)) as Hroles
    by (intros; now apply roles_alter).
  destruct u as [uid chat ct text_ | uid chat data]; run in H.
  - rewrite lookup_alter_eq in H.
    destruct (users (db w) !! uid) as [user|] eqn:Hu; cbn [fmap option_fmap option_map] in H.
    + cbn [role DB.touch_user] in H.
      destruct (String.eqb_spec (role user) "at") as [Hr|Hr]; cbn [negb] in H; subst res;
        unfold group_view, roles; cbn; rewrite Hroles; (split; [reflexivity|]);
        intros s [= <-] Hs; [|contradiction].
      unfold facilitator, roles. rewrite lookup_fmap, Hu. cbn. now rewrite Hr.
    + subst res. unfold group_view, roles; cbn; rewrite Hroles. split; [reflexivity|].
      intros s [= <-] Hs. contradiction.
  - subst res. unfold group_view, roles; cbn; rewrite Hroles. split; [reflexivity|].
    intros s [=].
Qed.

Lemma process_group_max_creates (u : Update) (env : Env) (w : World) :
  let r := GroupManagement.process_group_max u env w in
  roles r.2 = roles w /\ conversations r.2 = conversations w
  /\ creates_for (sender u) (groups (db w)) (groups (db r.2)).
Proof.
  cbv zeta. remember (GroupManagement.process_group_max u env w) as res eqn:H.
  unfold GroupManagement.process_group_max in H.
  assert (forall gid uid, role <$> alter (DB.add_group_to_user gid) uid (users (db w))
                          = role <$> users (db w)) as Hroles
    by (intros; now apply roles_alter).
  destruct u as [uid chat ct text_ | uid chat data]; run in H;
    [|subst res; repeat split; left; reflexivity].
  repeat (split_innermost H; run in H);
    subst res; unfold roles, creates_for, sender; cbn; rewrite ?Hroles;
    (split; [reflexivity|]); (split; [reflexivity|]);
    first [left; reflexivity | right; eexists; eexists; split; reflexivity].
Qed.

Lemma group_callbacks_run (state : option Z) (hd : Main.Handler) (u : Update)
    (env : Env) (w : World) :
  In hd (Main.candidates Main2.group_creation_handler state) ->
  let r := Main.callback hd u env w in
  roles r.2 = roles w /\ conversations r.2 = conversations w
  /\ creates_for (sender u) (groups (db w)) (groups (db r.2))
  /\ (state = None -> forall s, r.1 = Ok s -> s <> END -> facilitator w (sender u)).
Proof.
  intros Hin. cbv zeta.
  assert (forall m : Update -> M Z,
             stable group_view any_event (m u) ->
             roles (m u env w).2 = roles w /\ conversations (m u env w).2 = conversations w
             /\ creates_for (sender u) (groups (db w)) (groups (db (m u env w).2))) as Hstable.
  { intros m Hm. destruct (Hm env w) as [V _]. unfold group_view in V.
    injection V as Vg Vr Vc. split; [exact Vr|]. split; [exact Vc|]. left. exact Vg. }
  unfold Main.candidates, Main2.group_creation_handler in Hin.
  cbn [Main.states Main.fallbacks Main.entry_points Main.state_handlers] in Hin.
  destruct state as [s|].
  - destruct (Main2.GROUP_NAME =? s);
      [|destruct (Main2.GROUP_THEME =? s);
        [|destruct (Main2.GROUP_DESC =? s); [|destruct (Main2.GROUP_MAX =? s)]]];
      cbn [In app] in Hin;
      repeat (destruct Hin as [<- | Hin];
              [cbn [Main.callback Main.TextHandler Main.CommandHandler];
               first [ destruct (process_group_max_creates u env w) as (H1 & H2 & H3);
                       split; [exact H1|]; split; [exact H2|]; split; [exact H3|];
                       intros [=]
                     | match goal with
                       | |- roles (?m u env w).2 = _ /\ _ =>
                           destruct (Hstable m) as (H1 & H2 & H3);
                           [unfold group_view; frame_auto|];
                           split; [exact H1|]; split; [exact H2|]; split; [exact H3|];
                           intros [=]
                       end ]|]);
      destruct Hin.
  - destruct Hin as [<- | []]. cbn [Main.callback Main.CommandHandler].
    destruct (create_group_start_run u env w) as [V Hf]. unfold group_view in V.
    injection V as Vg Vr Vc. split; [exact Vr|]. split; [exact Vc|].
    split; [left; exact Vg|]. intros _. exact Hf.
Qed.

Lemma group_update_keeps_invariant (w0 : World) (u : Update) (env : Env) (w : World) :
  group_flow_invariant w0 w ->
  group_flow_invariant w0 (Main.handle_update Main2.group_creation_handler u env w).2.
Proof.
  intros (Jr & Jc & Jg). unfold Main.handle_update. run.
  destruct (find _ _) as [hd|] eqn:F; [|split; [exact Jr | split; [exact Jc | exact Jg]]].
  apply find_some in F. destruct F as [F _].
  destruct (group_callbacks_run _ hd u env w F) as (Hr & Hc & Hg & Hf).
  assert (forall gid g, groups (db (Main.callback hd u env w).2) !! gid = Some g ->
            (conversations w !! Main.conversation_key u <> None
             \/ groups (db (Main.callback hd u env w).2) = groups (db w)) ->
            groups (db w0) !! gid = Some g \/ facilitator w0 (created_by g)) as Hgroups.
  { intros gid g Hlook Hwho. destruct Hg as [Hg | (gid' & g' & Hg & Hby)].
    - rewrite Hg in Hlook. now apply Jg.
    - destruct Hwho as [Hconv | Hsame]; [|rewrite Hsame in Hlook; now apply Jg].
      rewrite Hg in Hlook. apply lookup_insert_Some in Hlook as [[<- <-] | [_ Hlook]];
        [|now apply Jg].
      right. rewrite Hby. unfold sender.
      destruct (conversations w !! Main.conversation_key u) as [s|] eqn:E; [|contradiction].
      destruct (Main.conversation_key u) as [chat uid] eqn:Ek. cbn. eapply Jc. exact E. }
  assert (conversations w !! Main.conversation_key u = None ->
          groups (db (Main.callback hd u env w).2) = groups (db w)) as Hentry.
  { intros Hnone. rewrite Hnone in F. cbn in F. destruct F as [<- | []].
    destruct (create_group_start_run u env w) as [V _]. unfold group_view in V.
    now injection V. }
  assert (forall gid g, groups (db (Main.callback hd u env w).2) !! gid = Some g ->
            groups (db w0) !! gid = Some g \/ facilitator w0 (created_by g)) as Hgroups'.
  { intros gid g Hlook. apply (Hgroups gid g Hlook).
    destruct (conversations w !! Main.conversation_key u) eqn:E;
      [left; discriminate | right; now apply Hentry]. }
  destruct (Main.callback hd u env w) as [[s|e] w1] eqn:Hcb; cbn [fst snd] in *.
  2:{ split; [congruence|]. split; [|exact Hgroups'].
      intros chat uid s. rewrite Hc. apply Jc. }
  unfold Main.update_state. run. unfold group_flow_invariant. cbn.
  split; [unfold roles in *; cbn; congruence|]. split; [|exact Hgroups'].
  intros chat uid s'. rewrite Hc.
  destruct (Z.eqb_spec s END) as [He|He].
  - intros Hl. apply lookup_delete_Some in Hl as [_ Hl]. eapply Jc. exact Hl.
  - intros Hl. apply lookup_insert_Some in Hl as [[Hk _] | [_ Hl]]; [|eapply Jc; exact Hl].
    destruct (conversations w !! Main.conversation_key u) as [s0|] eqn:E.
    + rewrite Hk in E. eapply Jc. exact E.
    + assert (facilitator w (sender u)) as Hfac by exact (Hf eq_refl s eq_refl He).
      unfold facilitator in *. rewrite Jr in Hfac. unfold sender in Hfac.
      now rewrite Hk in Hfac.
Qed.

Lemma group_flow_keeps_invariant (w0 : World) (updates : list Update) (env : Env) (w : World) :
  group_flow_invariant w0 w ->
  group_flow_invariant w0
    (Main.process_updates Main2.group_creation_handler updates env w).2.
Proof.
  revert w. induction updates as [|u rest IH]; intros w J; [exact J|].
  cbn [Main.process_updates]. rewrite bind_unfold.
  pose proof (group_update_keeps_invariant w0 u env w J) as J1.
  assert (exists taken w1,
             try_except (Main.handle_update Main2.group_creation_handler u)
               (fun _ => Main.error_handler u >>> ret true) env w = (Ok taken, w1)
             /\ group_flow_invariant w0 w1) as (taken & w1 & -> & J2).
  { unfold try_except.
    destruct (Main.handle_update Main2.group_creation_handler u env w) as [[b|e] w'];
      cbn [snd] in J1.
    - eexists. eexists. split; [reflexivity | exact J1].
    - destruct u; eexists; eexists; (split; [reflexivity | exact J1]). }
  rewrite bind_unfold. specialize (IH w1 J2).
  destruct (Main.process_updates Main2.group_creation_handler rest env w1) as [[others|e] w2];
    exact IH.
Qed.

(** Only facilitators create groups through the group conversation:
    started with nobody in the conversation but facilitators (nobody at
    all, when the process starts), whatever updates it is given, every
    group stored afterwards was stored before, unchanged, or has a
    creator who is registered with the role 'at'; and no role has
    changed. *)
Theorem only_facilitators_create_groups (updates : list Update) (env : Env) (w : World) :
  (forall chat uid s, conversations w !! (chat, uid) = Some s -> facilitator w uid) ->
  let w' := (Main.process_updates Main2.group_creation_handler updates env w).2 in
  roles w' = roles w
  /\ forall gid g, groups (db w') !! gid = Some g ->
       groups (db w) !! gid = Some g \/ facilitator w (created_by g).
Proof.
  intros Hconv. cbv zeta.
  destruct (group_flow_keeps_invariant w updates env w) as (Hr & _ & Hg).
  - split; [reflexivity|]. split; [exact Hconv|]. intros gid g Hl. now left.
  - split; [exact Hr | exact Hg].
Qed.

Lemma only_facilitators_create_groups_witness :
  let w := Main.started Sample.store in
  let w' := (Main.process_updates Main2.group_creation_handler intruder_dialogue
               Sample.no_key w).2 in
  roles w' = roles w
  /\ forall gid g, groups (db w') !! gid = Some g ->
       groups (db w) !! gid = Some g \/ facilitator w (created_by g).
Proof.
  cbv zeta.
  apply (only_facilitators_create_groups intruder_dialogue Sample.no_key
           (Main.started Sample.store)).
  intros chat uid s H. cbn in H. rewrite lookup_empty in H. discriminate H.
Defined.

(** ** The group flow, end to end *)

Lemma stored_set_answer_eq w uid key v : stored (set_answer w uid key v) uid key = Some v.
Proof. unfold stored, set_answer. cbn. apply stored_insert_eq. Qed.

Lemma stored_set_answer_ne w uid key key' v :
  key <> key' -> stored (set_answer w uid key v) uid key' = stored w uid key'.
Proof. intros H. unfold stored at 1, set_answer. cbn. now apply stored_insert_ne. Qed.

Lemma stored_with_trace w t uid key : stored (with_trace w t) uid key = stored w uid key.
Proof. reflexivity. Qed.

Lemma stored_with_conversations w c uid key :
  stored (with_conversations w c) uid key = stored w uid key.
Proof. reflexivity. Qed.

Lemma handle_update_taken (h : Main.ConversationHandler) (u : Update) (hd : Main.Handler)
    (s : Z) (env : Env) (w w1 : World) :
  find (fun hd => Main.check_update hd u)
    (Main.candidates h (conversations w !! Main.conversation_key u)) = Some hd ->
  Main.callback hd u env w = (Ok s, w1) ->
  Main.handle_update h u env w
  = (Ok true,
     with_conversations w1 (next_state (Main.conversation_key u) s (conversations w1))).
Proof.
  intros Hfind Hcb. unfold Main.handle_update. run. rewrite Hfind, Hcb.
  unfold Main.update_state. run. reflexivity.
Qed.

Lemma process_updates_cons (h : Main.ConversationHandler) (u : Update) (rest : list Update)
    (env : Env) (w w1 : World) :
  Main.handle_update h u env w = (Ok true, w1) ->
  Main.process_updates h (u :: rest) env w
  = match Main.process_updates h rest env w1 with
    | (Ok others, w2) => (Ok (true :: others), w2)
    | (Raise e, w2) => (Raise e, w2)
    end.
Proof.
  intros H. cbn [Main.process_updates]. rewrite bind_unfold. unfold try_except at 1.
  rewrite H. rewrite bind_unfold.
  destruct (Main.process_updates h rest env w1) as [[others|e] w2]; reflexivity.
Qed.

Lemma text_handler_found (cb cancel_ : Update -> M Z) (uid chat : Z) (ct text_ : string) :
  plain text_ ->
  find (fun hd => Main.check_update hd (TextMessage uid chat ct text_))
    [Main.TextHandler cb; Main.CommandHandler "cancel" cancel_]
  = Some (Main.TextHandler cb).
Proof.
  intros H. cbn [find Main.check_update Main.TextHandler]. unfold Main.is_command_text.
  now rewrite H.
Qed.

Lemma create_group_start_facilitator uid chat ct text_ user env w :
  users (db w) !! uid = Some user -> role user = "at" ->
  GroupManagement2.create_group_start (TextMessage uid chat ct text_) env w
  = (Ok 2,
     with_trace
       (with_db (with_clock_reads w (S (clock_reads w)))
          (DB.set_users (db w)
             (alter (DB.touch_user (clock env (clock_reads w))) uid (users (db w)))))
       (trace w ++ [EvNow (clock env (clock_reads w)); EvUpdateLastActive uid;
                    EvGetUser uid; EvReply chat GroupManagement2.ask_name_text []])).
Proof.
  intros Hu Hr. unfold GroupManagement2.create_group_start. run.
  rewrite lookup_alter_eq, Hu. cbn [fmap option_fmap option_map role DB.touch_user].
  rewrite Hr. change (negb (String.eqb "at" "at")) with false. run.
  rewrite <- !app_assoc. reflexivity.
Qed.

Lemma process_group_max_run uid chat ct text_ n env w name theme_ desc :
  PyStr.int text_ = Some n -> 2 <= n <= 50 ->
  stored w uid "group_name" = Some (VStr name) ->
  stored w uid "group_theme" = Some (VStr theme_) ->
  stored w uid "group_desc" = Some (VStr desc) ->
  let gid := clock env (clock_reads w) / microseconds_per_second in
  exists w',
    GroupManagement.process_group_max (TextMessage uid chat ct text_) env w = (Ok END, w')
    /\ groups (db w')
       = <[gid := created_group gid name theme_ desc uid n
                    (clock env (S (clock_reads w))) (clock env (S (S (clock_reads w))))]>
           (groups (db w))
    /\ users (db w') = alter (DB.add_group_to_user gid) uid (users (db w))
    /\ conversations w' = conversations w
    /\ last (trace w')
       = Some (EvReply chat (GroupManagement.group_created_text name)
                 (GroupManagement.mediator_keyboard gid)).
Proof.
  intros Hi Hn H1 H2 H3. cbv zeta. unfold GroupManagement.process_group_max. rewrite Hi. run.
  rewrite (in_range n 2 50 Hn). run.
  rewrite !stored_insert_ne by discriminate. rewrite H1. run.
  rewrite !stored_insert_ne by discriminate. rewrite H2. run.
  rewrite !stored_insert_ne by discriminate. rewrite H3. run.
  rewrite stored_insert_eq. run.
  rewrite !stored_insert_ne by discriminate. rewrite H1. run.
  eexists. split; [reflexivity|]. cbn.
  split; [reflexivity|]. split; [reflexivity|]. split; [reflexivity|].
  now rewrite last_app.
Qed.

Ltac stored_answer :=
  repeat first [ rewrite stored_with_conversations | rewrite stored_with_trace
               | rewrite stored_set_answer_eq
               | rewrite stored_set_answer_ne by discriminate ];
  reflexivity.

Lemma process_group_name_run uid chat ct text_ env w :
  exists reply,
    GroupManagement2.process_group_name (TextMessage uid chat ct text_) env w
    = (Ok 3, with_trace (set_answer w uid "group_name" (VStr text_)) (trace w ++ [reply])).
Proof.
  unfold GroupManagement2.process_group_name. run. rewrite stored_insert_eq. run.
  eexists. reflexivity.
Qed.

Lemma process_group_theme_run uid chat ct text_ env w :
  exists reply,
    GroupManagement2.process_group_theme (TextMessage uid chat ct text_) env w
    = (Ok 4, with_trace (set_answer w uid "group_theme" (VStr text_)) (trace w ++ [reply])).
Proof.
  unfold GroupManagement2.process_group_theme. run. rewrite stored_insert_eq. run.
  eexists. reflexivity.
Qed.

Lemma process_group_desc_run uid chat ct text_ env w :
  exists reply,
    GroupManagement2.process_group_desc (TextMessage uid chat ct text_) env w
    = (Ok 5, with_trace (set_answer w uid "group_desc" (VStr text_)) (trace w ++ [reply])).
Proof. unfold GroupManagement2.process_group_desc. run. eexists. reflexivity. Qed.

(** The group flow stores the group as the facilitator typed it. A
    registered facilitator who is in no conversation sends /criar_grupo,
    then a name, a theme and a description (none of them a command), then
    a number of members between 2 and 50: every update is taken, and the
    store then holds, under the id read from the clock (in whole
    seconds), a group with that name, theme, description and maximum,
    created by the facilitator, who is its only member, with the mediator
    enabled; the group is among the facilitator's groups; the
    conversation is over; and the last reply carries the two mediator
    buttons of that group. A group stored under the same id before is
    replaced. *)
Theorem group_flow_creates_group (uid chat : Z) (chat_type name theme_ desc max_text : string)
    (n : Z) (user : User) (env : Env) (w : World) :
  users (db w) !! uid = Some user -> role user = "at" ->
  conversations w !! (chat, uid) = None ->
  plain name -> plain theme_ -> plain desc -> plain max_text ->
  PyStr.int max_text = Some n -> 2 <= n <= 50 ->
  let say := TextMessage uid chat chat_type in
  let flow := Main.process_updates Main2.group_creation_handler
                [say "/criar_grupo"; say name; say theme_; say desc; say max_text] env w in
  let gid := clock env (S (clock_reads w)) / microseconds_per_second in
  flow.1 = Ok [true; true; true; true; true]
  /\ groups (db flow.2)
     = <[gid := created_group gid name theme_ desc uid n
                  (clock env (S (S (clock_reads w)))) (clock env (S (S (S (clock_reads w)))))]>
         (groups (db w))
  /\ (exists user', users (db flow.2) !! uid = Some user'
                    /\ gid ∈ groups_of user' /\ role user' = "at")
  /\ conversations flow.2 !! (chat, uid) = None
  /\ last (trace flow.2)
     = Some (EvReply chat (GroupManagement.group_created_text name)
               (GroupManagement.mediator_keyboard gid)).
Proof.
  intros Hu Hr Hconv Hname Htheme Hdesc Hmax Hint Hn. cbv zeta.
  set (h := Main2.group_creation_handler).
  pose proof (create_group_start_facilitator uid chat chat_type "/criar_grupo" user env w Hu Hr)
    as C1.
  match type of C1 with _ = (_, ?wx) => set (w1 := wx) in C1 end.
  assert (Main.handle_update h (TextMessage uid chat chat_type "/criar_grupo") env w
          = (Ok true, with_conversations w1 (<[(chat, uid) := 2]> (conversations w)))) as S1.
  { rewrite (handle_update_taken h _ (Main.CommandHandler "criar_grupo" GroupManagement2.create_group_start) 2 env w w1); [reflexivity | | exact C1].
    cbn [Main.conversation_key]. rewrite Hconv. reflexivity. }
  match type of S1 with _ = (_, ?wx) => set (v1 := wx) in S1 end.
  destruct (process_group_name_run uid chat chat_type name env v1) as (r2 & C2).
  match type of C2 with _ = (_, ?wx) => set (w2 := wx) in C2 end.
  assert (Main.handle_update h (TextMessage uid chat chat_type name) env v1
          = (Ok true, with_conversations w2 (<[(chat, uid) := 3]> (conversations v1)))) as S2.
  { rewrite (handle_update_taken h _ (Main.TextHandler GroupManagement2.process_group_name) 3 env v1 w2);
      [reflexivity | | exact C2].
    cbn [Main.conversation_key]. unfold v1. cbn [conversations with_conversations].
    rewrite lookup_insert_eq. now apply text_handler_found. }
  match type of S2 with _ = (_, ?wx) => set (v2 := wx) in S2 end.
  destruct (process_group_theme_run uid chat chat_type theme_ env v2) as (r3 & C3).
  match type of C3 with _ = (_, ?wx) => set (w3 := wx) in C3 end.
  assert (Main.handle_update h (TextMessage uid chat chat_type theme_) env v2
          = (Ok true, with_conversations w3 (<[(chat, uid) := 4]> (conversations v2)))) as S3.
  { rewrite (handle_update_taken h _ (Main.TextHandler GroupManagement2.process_group_theme) 4 env v2 w3);
      [reflexivity | | exact C3].
    cbn [Main.conversation_key]. unfold v2. cbn [conversations with_conversations].
    rewrite lookup_insert_eq. now apply text_handler_found. }
  match type of S3 with _ = (_, ?wx) => set (v3 := wx) in S3 end.
  destruct (process_group_desc_run uid chat chat_type desc env v3) as (r4 & C4).
  match type of C4 with _ = (_, ?wx) => set (w4 := wx) in C4 end.
  assert (Main.handle_update h (TextMessage uid chat chat_type desc) env v3
          = (Ok true, with_conversations w4 (<[(chat, uid) := 5]> (conversations v3)))) as S4.
  { rewrite (handle_update_taken h _ (Main.TextHandler GroupManagement2.process_group_desc) 5 env v3 w4);
      [reflexivity | | exact C4].
    cbn [Main.conversation_key]. unfold v3. cbn [conversations with_conversations].
    rewrite lookup_insert_eq. now apply text_handler_found. }
  match type of S4 with _ = (_, ?wx) => set (v4 := wx) in S4 end.
  destruct (process_group_max_run uid chat chat_type max_text n env v4 name theme_ desc Hint Hn)
    as (w5 & C5 & G5 & U5 & V5 & T5).
  { unfold v4, w4, v3, w3, v2, w2. stored_answer. }
  { unfold v4, w4, v3, w3. stored_answer. }
  { unfold v4, w4. stored_answer. }
  assert (Main.handle_update h (TextMessage uid chat chat_type max_text) env v4
          = (Ok true, with_conversations w5 (delete (chat, uid) (conversations w5)))) as S5.
  { rewrite (handle_update_taken h _ (Main.TextHandler GroupManagement.process_group_max) END env v4 w5);
      [reflexivity | | exact C5].
    cbn [Main.conversation_key]. unfold v4. cbn [conversations with_conversations].
    rewrite lookup_insert_eq. now apply text_handler_found. }
  rewrite (process_updates_cons h _ _ env w v1 S1), (process_updates_cons h _ _ env v1 v2 S2),
    (process_updates_cons h _ _ env v2 v3 S3), (process_updates_cons h _ _ env v3 v4 S4),
    (process_updates_cons h _ _ env v4 _ S5).
  cbn [Main.process_updates ret fst snd db conversations trace with_conversations].
  split; [reflexivity|]. split; [exact G5|]. split; [|split; [apply lookup_delete_eq | exact T5]].
  rewrite U5. cbn. rewrite lookup_alter_eq, lookup_alter_eq, Hu. cbn.
  eexists. split; [reflexivity|]. split; [|exact Hr].
  cbn [groups_of DB.add_group_to_user DB.touch_user].
  destruct (bool_decide_reflect
              (clock env (S (clock_reads w)) / microseconds_per_second ∈ groups_of user))
    as [Hin|Hin]; [exact Hin | apply elem_of_app; right; apply list_elem_of_singleton; reflexivity].
Qed.

Lemma group_flow_creates_group_witness :
  let env := Sample.no_key in
  let w := Main.started Sample.store in
  let say := TextMessage 7 7 "private" in
  let flow := Main.process_updates Main2.group_creation_handler
                [say "/criar_grupo"; say "Livros"; say "leitura"; say "Clube de leitura";
                 say "10"] env w in
  let gid := clock env (S (clock_reads w)) / microseconds_per_second in
  flow.1 = Ok [true; true; true; true; true]
  /\ groups (db flow.2)
     = <[gid := created_group gid "Livros" "leitura" "Clube de leitura" 7 10
                  (clock env (S (S (clock_reads w)))) (clock env (S (S (S (clock_reads w)))))]>
         (groups (db w))
  /\ (exists user', users (db flow.2) !! 7 = Some user'
                    /\ gid ∈ groups_of user' /\ role user' = "at")
  /\ conversations flow.2 !! (7, 7) = None
  /\ last (trace flow.2)
     = Some (EvReply 7 (GroupManagement.group_created_text "Livros")
               (GroupManagement.mediator_keyboard gid)).
Proof.
  cbv zeta.
  apply (group_flow_creates_group 7 7 "private" "Livros" "leitura" "Clube de leitura" "10" 10
           Sample.ana Sample.no_key (Main.started Sample.store)).
  - vm_compute. reflexivity.
  - reflexivity.
  - vm_compute. reflexivity.
  - reflexivity.
  - reflexivity.
  - reflexivity.
  - reflexivity.
  - vm_compute. reflexivity.
  - lia.
Defined.

(** ** Registration, end to end *)

Lemma callback_handler_found (cb cancel_ : Update -> M Z) (uid chat : Z) (data : string) :
  find (fun hd => Main.check_update hd (CallbackQuery uid chat data))
    [Main.CallbackQueryHandler EmptyString cb; Main.CommandHandler "cancel" cancel_]
  = Some (Main.CallbackQueryHandler EmptyString cb).
Proof. reflexivity. Qed.

Lemma start_new uid chat ct text_ env w :
  users (db w) !! uid = None ->
  Main2.start (TextMessage uid chat ct text_) env w
  = (Ok 0, with_trace w (trace w ++ [EvGetUser uid; EvReply chat Main2.welcome_text []])).
Proof.
  intros Hu. unfold Main2.start. run. rewrite Hu. run. rewrite <- !app_assoc. reflexivity.
Qed.

Lemma process_name_run uid chat ct text_ env w :
  exists reply,
    Main2.process_name (TextMessage uid chat ct text_) env w
    = (Ok 1, with_trace (set_answer w uid "name" (VStr text_)) (trace w ++ [reply])).
Proof.
  unfold Main2.process_name. run. rewrite stored_insert_eq. run. eexists. reflexivity.
Qed.

Lemma process_role_run uid chat data name env w :
  stored w uid "name" = Some (VStr name) ->
  users (db w) !! uid = None ->
  exists w',
    Main2.process_role (CallbackQuery uid chat data) env w
    = (Ok (if String.eqb data "autista" then 10 else END), w')
    /\ users (db w')
       = <[uid := registered uid name data (clock env (clock_reads w))
                    (clock env (S (clock_reads w)))]> (users (db w))
    /\ groups (db w') = groups (db w)
    /\ conversations w' = conversations w.
Proof.
  intros Hn Hu. unfold Main2.process_role, DB2.create_user. run.
  unfold stored in Hn. rewrite Hn. run. rewrite Hu.
  unfold registered.
  destruct (String.eqb data "autista"); run; eexists; (split; [reflexivity|]); cbn;
    repeat split; reflexivity.
Qed.

(** Registration stores the user as the answers give it. A user the
    store does not know, who is in no conversation, sends /start, then a
    name (not a command), then presses a button carrying [data]: every
    update is taken and the store then holds, for that user, a document
    with the typed name, with [data] as the role whatever it is, with no
    groups, and with the default profile exactly when [data] is
    'autista'; the other users and the groups are as before. The
    conversation goes on with the question for the age when [data] is
    'autista' and is over for any other value. *)
Theorem registration_stores_user (uid chat : Z) (chat_type name data : string)
    (env : Env) (w : World) :
  users (db w) !! uid = None ->
  conversations w !! (chat, uid) = None ->
  plain name ->
  let flow := Main.process_updates Main2.registration_handler
                [TextMessage uid chat chat_type "/start"; TextMessage uid chat chat_type name;
                 CallbackQuery uid chat data] env w in
  flow.1 = Ok [true; true; true]
  /\ users (db flow.2)
     = <[uid := registered uid name data (clock env (clock_reads w))
                  (clock env (S (clock_reads w)))]> (users (db w))
  /\ groups (db flow.2) = groups (db w)
  /\ conversations flow.2 !! (chat, uid)
     = (if String.eqb data "autista" then Some Main2.PROFILE_AGE else None).
Proof.
  intros Hu Hconv Hname. cbv zeta.
  set (h := Main2.registration_handler).
  pose proof (start_new uid chat chat_type "/start" env w Hu) as C1.
  match type of C1 with _ = (_, ?wx) => set (w1 := wx) in C1 end.
  assert (Main.handle_update h (TextMessage uid chat chat_type "/start") env w
          = (Ok true, with_conversations w1 (<[(chat, uid) := 0]> (conversations w)))) as S1.
  { rewrite (handle_update_taken h _ (Main.CommandHandler "start" Main2.start) 0 env w w1);
      [reflexivity | | exact C1].
    cbn [Main.conversation_key]. rewrite Hconv. reflexivity. }
  match type of S1 with _ = (_, ?wx) => set (v1 := wx) in S1 end.
  destruct (process_name_run uid chat chat_type name env v1) as (r2 & C2).
  match type of C2 with _ = (_, ?wx) => set (w2 := wx) in C2 end.
  assert (Main.handle_update h (TextMessage uid chat chat_type name) env v1
          = (Ok true, with_conversations w2 (<[(chat, uid) := 1]> (conversations v1)))) as S2.
  { rewrite (handle_update_taken h _ (Main.TextHandler Main2.process_name) 1 env v1 w2);
      [reflexivity | | exact C2].
    cbn [Main.conversation_key]. unfold v1. cbn [conversations with_conversations].
    rewrite lookup_insert_eq. now apply text_handler_found. }
  match type of S2 with _ = (_, ?wx) => set (v2 := wx) in S2 end.
  destruct (process_role_run uid chat data name env v2) as (w3 & C3 & U3 & G3 & V3).
  { unfold v2, w2. stored_answer. }
  { exact Hu. }
  assert (Main.handle_update h (CallbackQuery uid chat data) env v2
          = (Ok true,
             with_conversations w3
               (next_state (chat, uid) (if String.eqb data "autista" then 10 else END)
                  (conversations w3)))) as S3.
  { rewrite (handle_update_taken h _ (Main.CallbackQueryHandler EmptyString Main2.process_role)
               (if String.eqb data "autista" then 10 else END) env v2 w3);
      [reflexivity | | exact C3].
    cbn [Main.conversation_key]. unfold v2. cbn [conversations with_conversations].
    rewrite lookup_insert_eq. apply callback_handler_found. }
  rewrite (process_updates_cons h _ _ env w v1 S1), (process_updates_cons h _ _ env v1 v2 S2),
    (process_updates_cons h _ _ env v2 _ S3).
  cbn [Main.process_updates ret fst snd db conversations trace with_conversations].
  split; [reflexivity|]. split; [exact U3|]. split; [exact G3|].
  unfold next_state. destruct (String.eqb data "autista").
  - change (10 =? END) with false. cbn match. apply lookup_insert_eq.
  - change (END =? END) with true. cbn match. apply lookup_delete_eq.
Qed.

Lemma registration_stores_user_witness :
  let w := Main.started Sample.store in
  let env := Sample.no_key in
  let flow := Main.process_updates Main2.registration_handler
                [TextMessage 11 11 "private" "/start"; TextMessage 11 11 "private" "Bia";
                 CallbackQuery 11 11 "visitante"] env w in
  flow.1 = Ok [true; true; true]
  /\ users (db flow.2)
     = <[11 := registered 11 "Bia" "visitante" (clock env (clock_reads w))
                 (clock env (S (clock_reads w)))]> (users (db w))
  /\ groups (db flow.2) = groups (db w)
  /\ conversations flow.2 !! (11, 11)
     = (if String.eqb "visitante" "autista" then Some Main2.PROFILE_AGE else None).
Proof.
  cbv zeta.
  apply (registration_stores_user 11 11 "private" "Bia" "visitante" Sample.no_key
           (Main.started Sample.store)).
  - vm_compute. reflexivity.
  - vm_compute. reflexivity.
  - reflexivity.
Defined.

(** ** The profile flow, end to end *)

Lemma process_profile_age_run uid chat ct text_ n env w :
  PyStr.int text_ = Some n -> 5 <= n <= 100 ->
  exists reply,
    UserProfile.process_profile_age (TextMessage uid chat ct text_) env w
    = (Ok 11, with_trace (set_answer w uid "profile_age" (VInt n)) (trace w ++ [reply])).
Proof.
  intros Hi Hn. unfold UserProfile.process_profile_age. rewrite Hi. run.
  rewrite (in_range n 5 100 Hn). run. eexists. reflexivity.
Qed.

Lemma process_profile_gender_run uid chat data env w :
  exists t,
    UserProfile2.process_profile_gender (CallbackQuery uid chat data) env w
    = (Ok 12, with_trace (set_answer w uid "profile_gender" (VStr data)) t).
Proof. unfold UserProfile2.process_profile_gender. run. eexists. reflexivity. Qed.

Lemma process_profile_contacts_run uid chat ct text_ env w :
  exists t,
    UserProfile2.process_profile_contacts (TextMessage uid chat ct text_) env w
    = (Ok 13,
       with_trace
         (set_answer w uid "profile_contacts"
            (VStrs (PyStr2.stripped_items (ascii_of_nat 10) text_))) t).
Proof. unfold UserProfile2.process_profile_contacts. run. eexists. reflexivity. Qed.

Lemma process_profile_academic_run uid chat ct text_ env w :
  exists t,
    UserProfile2.process_profile_academic (TextMessage uid chat ct text_) env w
    = (Ok 14, with_trace (set_answer w uid "profile_academic" (VStr text_)) t).
Proof. unfold UserProfile2.process_profile_academic. run. eexists. reflexivity. Qed.

Lemma process_profile_professionals_run uid chat ct text_ env w :
  exists t,
    UserProfile2.process_profile_professionals (TextMessage uid chat ct text_) env w
    = (Ok 15,
       with_trace
         (set_answer w uid "profile_professionals"
            (VStrs (PyStr2.stripped_items (ascii_of_nat 10) text_))) t).
Proof. unfold UserProfile2.process_profile_professionals. run. eexists. reflexivity. Qed.

Lemma process_profile_interests_run uid chat ct text_ env w :
  exists t,
    UserProfile2.process_profile_interests (TextMessage uid chat ct text_) env w
    = (Ok 16,
       with_trace
         (set_answer w uid "profile_interests" (VStrs (PyStr2.stripped_items "," text_))) t).
Proof. unfold UserProfile2.process_profile_interests. run. eexists. reflexivity. Qed.

Lemma process_profile_triggers_run uid chat ct text_ env w :
  exists t,
    UserProfile2.process_profile_triggers (TextMessage uid chat ct text_) env w
    = (Ok 17,
       with_trace
         (set_answer w uid "profile_triggers" (VStrs (PyStr2.stripped_items "," text_))) t).
Proof. unfold UserProfile2.process_profile_triggers. run. eexists. reflexivity. Qed.

Lemma process_profile_communication_run uid chat data env w n gender_ contacts academic
    professionals_ interests_ triggers :
  stored w uid "profile_age" = Some (VInt n) ->
  stored w uid "profile_gender" = Some (VStr gender_) ->
  stored w uid "profile_contacts" = Some (VStrs contacts) ->
  stored w uid "profile_academic" = Some (VStr academic) ->
  stored w uid "profile_professionals" = Some (VStrs professionals_) ->
  stored w uid "profile_interests" = Some (VStrs interests_) ->
  stored w uid "profile_triggers" = Some (VStrs triggers) ->
  exists w',
    UserProfile2.process_profile_communication (CallbackQuery uid chat data) env w
    = (Ok END, w')
    /\ users (db w')
       = alter (DB2.set_profile
                  {| age := Some n; gender := Some gender_; emergency_contacts := contacts;
                     academic_history := academic; professionals := professionals_;
                     interests := interests_; anxiety_triggers := triggers;
                     communication_preferences :=
                       Some {| style := Some data; preferred_topics := [];
                               avoided_topics := []; notes := EmptyString |} |})
           uid (users (db w))
    /\ groups (db w') = groups (db w)
    /\ conversations w' = conversations w
    /\ last (trace w') = Some (EvEdit chat UserProfile2.profile_saved_text []).
Proof.
  intros H1 H2 H3 H4 H5 H6 H7.
  unfold UserProfile2.process_profile_communication, UserProfile2.user_data_lookup,
    DB2.update_user_profile.
  run.
  rewrite !stored_insert_ne by discriminate. fold (stored w uid "profile_age"). rewrite H1.
  cbn [UserProfile2.as_int]. run.
  rewrite !stored_insert_ne by discriminate. fold (stored w uid "profile_gender"). rewrite H2.
  cbn [UserProfile2.as_str]. run.
  rewrite !stored_insert_ne by discriminate. fold (stored w uid "profile_contacts").
  rewrite H3. cbn [UserProfile2.as_strs]. run.
  rewrite !stored_insert_ne by discriminate. fold (stored w uid "profile_academic").
  rewrite H4. cbn [UserProfile2.as_str]. run.
  rewrite !stored_insert_ne by discriminate. fold (stored w uid "profile_professionals").
  rewrite H5. cbn [UserProfile2.as_strs]. run.
  rewrite !stored_insert_ne by discriminate. fold (stored w uid "profile_interests").
  rewrite H6. cbn [UserProfile2.as_strs]. run.
  rewrite !stored_insert_ne by discriminate. fold (stored w uid "profile_triggers").
  rewrite H7. cbn [UserProfile2.as_strs]. run.
  rewrite stored_insert_eq. cbn [UserProfile2.as_str]. run.
  eexists. split; [reflexivity|]. cbn.
  split; [reflexivity|]. split; [reflexivity|]. split; [reflexivity|].
  now rewrite last_app.
Qed.

(** The profile flow stores the profile as the member gave it. A member
    who is at the question for the age answers with a number from 5 to
    100, presses a gender button, types the contacts, the academic
    history, the professionals, the interests and the anxiety triggers
    (none of the texts a command) and presses a communication button:
    every update is taken, and the profile of the member's document then
    holds the age, the data of the two buttons as they came, the history
    as typed and the four lists as the list steps split them; no other
    document and no group changes, the conversation is over and the last
    message confirms the profile. *)
Theorem profile_flow_stores_profile (uid chat : Z)
    (chat_type age_text gender_ contacts academic professionals_ interests_ triggers
       style_ : string)
    (n : Z) (env : Env) (w : World) :
  conversations w !! (chat, uid) = Some Main2.PROFILE_AGE ->
  PyStr.int age_text = Some n -> 5 <= n <= 100 ->
  plain age_text -> plain contacts -> plain academic -> plain professionals_ ->
  plain interests_ -> plain triggers ->
  let say := TextMessage uid chat chat_type in
  let press := CallbackQuery uid chat in
  let flow := Main.process_updates Main2.registration_handler
                [say age_text; press gender_; say contacts; say academic;
                 say professionals_; say interests_; say triggers; press style_] env w in
  flow.1 = Ok [true; true; true; true; true; true; true; true]
  /\ users (db flow.2)
     = alter (DB2.set_profile
                (typed_profile n gender_ contacts academic professionals_ interests_
                   triggers style_)) uid (users (db w))
  /\ groups (db flow.2) = groups (db w)
  /\ conversations flow.2 !! (chat, uid) = None
  /\ last (trace flow.2) = Some (EvEdit chat UserProfile2.profile_saved_text []).
Proof.
  intros Hconv Hint Hn Page Pcontacts Pacademic Pprof Pint Ptrig. cbv zeta.
  set (h := Main2.registration_handler).
  destruct (process_profile_age_run uid chat chat_type age_text n env w Hint Hn) as (r1 & C1).
  match type of C1 with _ = (_, ?wx) => set (w1 := wx) in C1 end.
  assert (Main.handle_update h (TextMessage uid chat chat_type age_text) env w
          = (Ok true, with_conversations w1 (<[(chat, uid) := 11]> (conversations w)))) as S1.
  { rewrite (handle_update_taken h _ (Main.TextHandler UserProfile.process_profile_age) 11
               env w w1); [reflexivity | | exact C1].
    cbn [Main.conversation_key]. rewrite Hconv. now apply text_handler_found. }
  match type of S1 with _ = (_, ?wx) => set (v1 := wx) in S1 end.
  destruct (process_profile_gender_run uid chat gender_ env v1) as (t2 & C2).
  match type of C2 with _ = (_, ?wx) => set (w2 := wx) in C2 end.
  assert (Main.handle_update h (CallbackQuery uid chat gender_) env v1
          = (Ok true, with_conversations w2 (<[(chat, uid) := 12]> (conversations v1)))) as S2.
  { rewrite (handle_update_taken h _
               (Main.CallbackQueryHandler EmptyString UserProfile2.process_profile_gender) 12
               env v1 w2); [reflexivity | | exact C2].
    cbn [Main.conversation_key]. unfold v1. cbn [conversations with_conversations].
    rewrite lookup_insert_eq. apply callback_handler_found. }
  match type of S2 with _ = (_, ?wx) => set (v2 := wx) in S2 end.
  destruct (process_profile_contacts_run uid chat chat_type contacts env v2) as (t3 & C3).
  match type of C3 with _ = (_, ?wx) => set (w3 := wx) in C3 end.
  assert (Main.handle_update h (TextMessage uid chat chat_type contacts) env v2
          = (Ok true, with_conversations w3 (<[(chat, uid) := 13]> (conversations v2)))) as S3.
  { rewrite (handle_update_taken h _ (Main.TextHandler UserProfile2.process_profile_contacts)
               13 env v2 w3); [reflexivity | | exact C3].
    cbn [Main.conversation_key]. unfold v2. cbn [conversations with_conversations].
    rewrite lookup_insert_eq. now apply text_handler_found. }
  match type of S3 with _ = (_, ?wx) => set (v3 := wx) in S3 end.
  destruct (process_profile_academic_run uid chat chat_type academic env v3) as (t4 & C4).
  match type of C4 with _ = (_, ?wx) => set (w4 := wx) in C4 end.
  assert (Main.handle_update h (TextMessage uid chat chat_type academic) env v3
          = (Ok true, with_conversations w4 (<[(chat, uid) := 14]> (conversations v3)))) as S4.
  { rewrite (handle_update_taken h _ (Main.TextHandler UserProfile2.process_profile_academic)
               14 env v3 w4); [reflexivity | | exact C4].
    cbn [Main.conversation_key]. unfold v3. cbn [conversations with_conversations].
    rewrite lookup_insert_eq. now apply text_handler_found. }
  match type of S4 with _ = (_, ?wx) => set (v4 := wx) in S4 end.
  destruct (process_profile_professionals_run uid chat chat_type professionals_ env v4)
    as (t5 & C5).
  match type of C5 with _ = (_, ?wx) => set (w5 := wx) in C5 end.
  assert (Main.handle_update h (TextMessage uid chat chat_type professionals_) env v4
          = (Ok true, with_conversations w5 (<[(chat, uid) := 15]> (conversations v4)))) as S5.
  { rewrite (handle_update_taken h _
               (Main.TextHandler UserProfile2.process_profile_professionals)
               15 env v4 w5); [reflexivity | | exact C5].
    cbn [Main.conversation_key]. unfold v4. cbn [conversations with_conversations].
    rewrite lookup_insert_eq. now apply text_handler_found. }
  match type of S5 with _ = (_, ?wx) => set (v5 := wx) in S5 end.
  destruct (process_profile_interests_run uid chat chat_type interests_ env v5) as (t6 & C6).
  match type of C6 with _ = (_, ?wx) => set (w6 := wx) in C6 end.
  assert (Main.handle_update h (TextMessage uid chat chat_type interests_) env v5
          = (Ok true, with_conversations w6 (<[(chat, uid) := 16]> (conversations v5)))) as S6.
  { rewrite (handle_update_taken h _ (Main.TextHandler UserProfile2.process_profile_interests)
               16 env v5 w6); [reflexivity | | exact C6].
    cbn [Main.conversation_key]. unfold v5. cbn [conversations with_conversations].
    rewrite lookup_insert_eq. now apply text_handler_found. }
  match type of S6 with _ = (_, ?wx) => set (v6 := wx) in S6 end.
  destruct (process_profile_triggers_run uid chat chat_type triggers env v6) as (t7 & C7).
  match type of C7 with _ = (_, ?wx) => set (w7 := wx) in C7 end.
  assert (Main.handle_update h (TextMessage uid chat chat_type triggers) env v6
          = (Ok true, with_conversations w7 (<[(chat, uid) := 17]> (conversations v6)))) as S7.
  { rewrite (handle_update_taken h _ (Main.TextHandler UserProfile2.process_profile_triggers)
               17 env v6 w7); [reflexivity | | exact C7].
    cbn [Main.conversation_key]. unfold v6. cbn [conversations with_conversations].
    rewrite lookup_insert_eq. now apply text_handler_found. }
  match type of S7 with _ = (_, ?wx) => set (v7 := wx) in S7 end.
  destruct (process_profile_communication_run uid chat style_ env v7 n gender_
              (PyStr2.stripped_items (ascii_of_nat 10) contacts) academic
              (PyStr2.stripped_items (ascii_of_nat 10) professionals_)
              (PyStr2.stripped_items "," interests_) (PyStr2.stripped_items "," triggers))
    as (w8 & C8 & U8 & G8 & V8 & T8).
  { unfold v7, w7, v6, w6, v5, w5, v4, w4, v3, w3, v2, w2, v1, w1. stored_answer. }
  { unfold v7, w7, v6, w6, v5, w5, v4, w4, v3, w3, v2, w2. stored_answer. }
  { unfold v7, w7, v6, w6, v5, w5, v4, w4, v3, w3. stored_answer. }
  { unfold v7, w7, v6, w6, v5, w5, v4, w4. stored_answer. }
  { unfold v7, w7, v6, w6, v5, w5. stored_answer. }
  { unfold v7, w7, v6, w6. stored_answer. }
  { unfold v7, w7. stored_answer. }
  assert (Main.handle_update h (CallbackQuery uid chat style_) env v7
          = (Ok true, with_conversations w8 (delete (chat, uid) (conversations w8)))) as S8.
  { rewrite (handle_update_taken h _
               (Main.CallbackQueryHandler EmptyString
                  UserProfile2.process_profile_communication) END env v7 w8);
      [reflexivity | | exact C8].
    cbn [Main.conversation_key]. unfold v7. cbn [conversations with_conversations].
    rewrite lookup_insert_eq. apply callback_handler_found. }
  rewrite (process_updates_cons h _ _ env w v1 S1), (process_updates_cons h _ _ env v1 v2 S2),
    (process_updates_cons h _ _ env v2 v3 S3), (process_updates_cons h _ _ env v3 v4 S4),
    (process_updates_cons h _ _ env v4 v5 S5), (process_updates_cons h _ _ env v5 v6 S6),
    (process_updates_cons h _ _ env v6 v7 S7), (process_updates_cons h _ _ env v7 _ S8).
  cbn [Main.process_updates ret fst snd db conversations trace with_conversations].
  split; [reflexivity|]. split; [exact U8|]. split; [exact G8|].
  split; [apply lookup_delete_eq | exact T8].
Qed.

Lemma profile_flow_stores_profile_witness :
  let w := with_conversations (Main.started Sample.store) {[ (9, 9) := 10 ]} in
  let say := TextMessage 9 9 "private" in
  let press := CallbackQuery 9 9 in
  let flow := Main.process_updates Main2.registration_handler
                [say "19"; press "masculino"; say "Maria - Mãe - 99999"; say "Ensino médio";
                 say "Dr. João - Psicólogo"; say "xadrez, trens"; say "barulho";
                 press "direta"] Sample.no_key w in
  flow.1 = Ok [true; true; true; true; true; true; true; true]
  /\ users (db flow.2)
     = alter (DB2.set_profile
                (typed_profile 19 "masculino" "Maria - Mãe - 99999" "Ensino médio"
                   "Dr. João - Psicólogo" "xadrez, trens" "barulho" "direta")) 9
         (users (db w))
  /\ groups (db flow.2) = groups (db w)
  /\ conversations flow.2 !! (9, 9) = None
  /\ last (trace flow.2) = Some (EvEdit 9 UserProfile2.profile_saved_text []).
Proof.
  cbv zeta.
  apply (profile_flow_stores_profile 9 9 "private" "19" "masculino" "Maria - Mãe - 99999"
           "Ensino médio" "Dr. João - Psicólogo" "xadrez, trens" "barulho" "direta" 19
           Sample.no_key (with_conversations (Main.started Sample.store) {[ (9, 9) := 10 ]}));
    try reflexivity; lia.
Defined.
